(** * flow_ffi: a shallow embedding of the C boundary of the flow engine

    The development follows the layout of the repository:

    - [include/flow_ffi.h]        error codes, the port-metadata record;
    - [src/error_handling.hpp]    [ErrorManager], [ErrorSetter], the
                                  [FLOW_API_CALL] macros, the validators;
    - [src/handle_manager.hpp]    [HandleBase], [HandleRegistry];
    - [src/type_conversions.cpp]  the typed data constructors and readers;
    - [src/env_bridge.cpp], [src/factory_bridge.cpp], [src/graph_bridge.cpp],
      [src/connection_bridge.cpp], [src/node_bridge.cpp],
      [src/module_bridge.cpp], [src/event_bridge.cpp]
                                  the bridge functions proper.

    Two things are outside the development.  The deallocators of
    [src/flow_ffi.cpp] and of [src/node_bridge.cpp] free what the bridge
    returned; they take no handle and return nothing, and the strings and
    arrays the bridge returns are values here, not heap blocks.  And a
    callback is the caller's code: the functions of [src/event_bridge.cpp]
    are embedded up to the lambda they bind, and a procedure of flow-core is
    run to its return without the callbacks flow-core would invoke on the
    way: what is proved of the state after a call that runs a procedure of
    a graph or of a node is proved of the run in which no callback fired.

    Conventions.  A [void*] is an address in [N], null being [0].  A
    [const char*] argument or result is an [option string], [None] being the
    null pointer.  An out-parameter [T* p] is the address [p]; what the
    callee stores through it lands in the [memory] of the process state, one
    cell per scalar or struct field; a new array is the value of the cell
    that receives its address.  A C++ function is an action of the
    monad [M]: it reads the calling thread's id, threads the process state
    [World] and either returns, throws a C++ exception, or crashes
    (dereferences a null or dangling pointer).  Allocation is assumed to
    succeed. *)

From Stdlib Require Import ZArith Floats.
From stdpp Require Import gmap strings list fin_maps sorting pretty.

Set Default Proof Using "Type".

(* ===================================================================== *)
(** * include/flow_ffi.h *)
(* ===================================================================== *)

Inductive FlowError :=
| FLOW_SUCCESS
| FLOW_ERROR_INVALID_HANDLE
| FLOW_ERROR_INVALID_ARGUMENT
| FLOW_ERROR_NODE_NOT_FOUND
| FLOW_ERROR_PORT_NOT_FOUND
| FLOW_ERROR_CONNECTION_FAILED
| FLOW_ERROR_MODULE_LOAD_FAILED
| FLOW_ERROR_COMPUTATION_FAILED
| FLOW_ERROR_OUT_OF_MEMORY
| FLOW_ERROR_TYPE_MISMATCH
| FLOW_ERROR_NOT_IMPLEMENTED
| FLOW_ERROR_UNKNOWN.

#[global] Instance FlowError_eq_dec : EqDecision FlowError.
Proof. solve_decision. Defined.

(** The numeric value of each enumerator. *)
Definition FlowError_value (e : FlowError) : Z :=
  match e with
  | FLOW_SUCCESS => 0
  | FLOW_ERROR_INVALID_HANDLE => -1
  | FLOW_ERROR_INVALID_ARGUMENT => -2
  | FLOW_ERROR_NODE_NOT_FOUND => -3
  | FLOW_ERROR_PORT_NOT_FOUND => -4
  | FLOW_ERROR_CONNECTION_FAILED => -5
  | FLOW_ERROR_MODULE_LOAD_FAILED => -6
  | FLOW_ERROR_COMPUTATION_FAILED => -7
  | FLOW_ERROR_OUT_OF_MEMORY => -8
  | FLOW_ERROR_TYPE_MISMATCH => -9
  | FLOW_ERROR_NOT_IMPLEMENTED => -10
  | FLOW_ERROR_UNKNOWN => -999
  end%Z.

(** [typedef struct FlowPortMetadata]. *)
Record FlowPortMetadata := {
  key : option string;
  interworking_value_json : option string;
  has_default : bool;
}.

Abbreviation ptr := N (only parsing).
Abbreviation nullptr := 0%N (only parsing).
Abbreviation thread_id := nat (only parsing).
Abbreviation cstring := (option string) (only parsing).

Definition INT32_MIN : Z := (- 2 ^ 31)%Z.
Definition INT32_MAX : Z := (2 ^ 31 - 1)%Z.

(** [haystack.find(needle) != npos], the test the repository's tests apply
    to error messages. *)
Fixpoint is_prefix (p s : string) : bool :=
  match p, s with
  | EmptyString, _ => true
  | String a p', String b s' => if Ascii.eqb a b then is_prefix p' s' else false
  | String _ _, EmptyString => false
  end.

Fixpoint contains (needle haystack : string) : bool :=
  if is_prefix needle haystack then true
  else match haystack with
       | EmptyString => false
       | String _ rest => contains needle rest
       end.

(* ===================================================================== *)
(** * The data of flow-core that the boundary reads

    flow-core itself is a dependency and not part of the repository; the
    records below carry exactly what the bridge functions read through the
    accessors they call. *)
(* ===================================================================== *)

(** A [std::shared_ptr<T>]: null, or a reference into the store of [T]s. *)
Abbreviation shared_ptr := (option N) (only parsing).

(** [flow::UUID], a 128-bit identity. *)
Abbreviation UUID := N (only parsing).

(** [TypeName_v<T>]: the identity of the C++ type a [NodeData] stores.  The
    names are compile-time constants, one per type; [other] stands for every
    domain type. *)
Inductive TypeName :=
| TypeName_int
| TypeName_double
| TypeName_bool
| TypeName_string
| TypeName_other (name : string).

#[global] Instance TypeName_eq_dec : EqDecision TypeName.
Proof. solve_decision. Defined.

(** [detail::NodeData<T>], with [Type()] and [Get()]. *)
Inductive NodeData :=
| NodeData_int (value : Z)
| NodeData_double (value : float)
| NodeData_bool (value : bool)
| NodeData_string (value : string)
| NodeData_other (name : string) (repr : string).

Definition Type_ (d : NodeData) : TypeName :=
  match d with
  | NodeData_int _ => TypeName_int
  | NodeData_double _ => TypeName_double
  | NodeData_bool _ => TypeName_bool
  | NodeData_string _ => TypeName_string
  | NodeData_other name _ => TypeName_other name
  end.

(** [SharedNodeData]: node data are immutable once made, so the shared
    pointer is modelled by the value it points to. *)
Abbreviation SharedNodeData := (option NodeData) (only parsing).

(** Modelled from the spec: flow-core's [Port] (section 3, "Port": key,
    declared data-type name, caption, required flag, optional current value). *)
Record Port := {
  port_key : string;
  port_data_type : string;
  port_caption : string;
  port_required : bool;
  port_data : SharedNodeData;
}.

(** Modelled from the spec: flow-core's [Node] (section 3, "Node"), with a
    count of the runs of its compute procedure. *)
Record Node := {
  node_id : UUID;
  node_name : string;
  node_class : string;
  node_input_ports : gmap string Port;
  node_output_ports : gmap string Port;
  node_computes : nat;
}.

(** Modelled from the spec: flow-core's [Connection] (section 3). *)
Record Connection := {
  conn_id : UUID;
  conn_start_node : UUID;
  conn_start_port : string;
  conn_end_node : UUID;
  conn_end_port : string;
}.

Abbreviation SharedConnection := (option Connection) (only parsing).

(** Modelled from the spec: flow-core's [Graph] (section 3): its nodes by
    id, and its connections as the bridge iterates them, in pairs of a node
    id and a connection. *)
Record Graph := {
  graph_name : string;
  graph_env : shared_ptr;
  graph_nodes : gmap UUID N;
  graph_connections : list (UUID * Connection);
}.

Record Settings := { MaxThreads : Z }.

(** Modelled from the spec: flow-core's [Env] (section 3): the factory it
    shares and the settings it was created with. *)
Record Env := {
  env_factory : shared_ptr;
  env_settings : Settings;
}.

(** Modelled from the spec: flow-core's [NodeFactory]: the category table,
    pairs of a category and a class identifier. *)
Record NodeFactory := {
  factory_categories : list (string * string);
}.

Record ModuleMetaData := {
  Name : string;
  Version : string;
  Author : string;
  Description : string;
}.

(** Modelled from the spec: the module loader (section 6, "Module loader"):
    [IsLoaded()] and the read-only metadata. *)
Record FlowModule := {
  module_factory : shared_ptr;
  module_loaded : bool;
  module_metadata : option ModuleMetaData;
}.

(** The objects of flow-core alive in the process, by address. *)
Record Core := {
  nodes : gmap N Node;
  graphs : gmap N Graph;
  envs : gmap N Env;
  factories : gmap N NodeFactory;
  modules : gmap N FlowModule;
}.

Definition empty_core : Core :=
  {| nodes := ∅; graphs := ∅; envs := ∅; factories := ∅; modules := ∅ |}.

(* ===================================================================== *)
(** * C++ control flow: exceptions and the state of the process *)
(* ===================================================================== *)

Inductive exception :=
| std_out_of_range (what_arg : string)
| json_parse_error (what_arg : string)
| std_exception (what_arg : string)
| non_std_exception.

(** [e.what()] for the exceptions derived from [std::exception]. *)
Definition what (e : exception) : option string :=
  match e with
  | std_out_of_range s | json_parse_error s | std_exception s => Some s
  | non_std_exception => None
  end.

(** How a call ends.  [Crash] is undefined behaviour (a null or dangling
    pointer was dereferenced); no handler catches it. *)
Inductive Res (A : Type) :=
| Return (a : A)
| Throw (e : exception)
| Crash.
Arguments Return {A} a.
Arguments Throw {A} e.
Arguments Crash {A}.

(** How a call into a library ends: it returns or throws.  (A crash inside
    a library is not the boundary's to answer for.) *)
Inductive Except (A : Type) :=
| Ok (a : A)
| Raise (e : exception).
Arguments Ok {A} a.
Arguments Raise {A} e.

Definition Res_of_Except {A} (r : Except A) : Res A :=
  match r with
  | Ok a => Return a
  | Raise e => Throw e
  end.

(** A procedure of flow-core, run to its return: it acts on the engine's
    objects.  The callbacks that flow-core would invoke on the way are the
    caller's code and are not run. *)
Definition EngineProc (A : Type) : Type := Core → Except A * Core.

(* ===================================================================== *)
(** * src/handle_manager.hpp: the objects behind a handle *)
(* ===================================================================== *)

(** The wrapper structures of the bridge files. *)
Record EnvWrapper := { EnvWrapper_env : shared_ptr }.
Record NodeFactoryWrapper := { NodeFactoryWrapper_factory : shared_ptr }.
Record NodeWrapper := { NodeWrapper_node : shared_ptr }.
Record NodeDataWrapper := { NodeDataWrapper_data : SharedNodeData }.

(** [std::shared_ptr<Graph>] and [std::shared_ptr<Module>], the handle
    types of [graph_bridge.cpp] and [module_bridge.cpp], and
    [std::shared_ptr<Node>] and [SharedNodeData], the types of the handles
    that the lambdas of [event_bridge.cpp] make for a callback. *)
Record shared_ptr_Graph := { get_Graph : shared_ptr }.
Record shared_ptr_Module := { get_Module : shared_ptr }.
Record shared_ptr_Node := { get_Node : shared_ptr }.
Record shared_ptr_NodeData := { get_NodeData : SharedNodeData }.

(** The instances [Handle<T>] the bridge creates, by their [T]. *)
Inductive Object :=
| Handle_EnvWrapper (object_ : EnvWrapper)
| Handle_NodeFactoryWrapper (object_ : NodeFactoryWrapper)
| Handle_NodeWrapper (object_ : NodeWrapper)
| Handle_NodeDataWrapper (object_ : NodeDataWrapper)
| Handle_shared_ptr_Graph (object_ : shared_ptr_Graph)
| Handle_shared_ptr_Module (object_ : shared_ptr_Module)
| Handle_SharedConnection (object_ : SharedConnection)
| Handle_shared_ptr_Node (object_ : shared_ptr_Node)
| Handle_shared_ptr_NodeData (object_ : shared_ptr_NodeData).

(** [typeid(T)], the dynamic type of a [Handle<T>]. *)
Inductive type_info :=
| typeid_EnvWrapper
| typeid_NodeFactoryWrapper
| typeid_NodeWrapper
| typeid_NodeDataWrapper
| typeid_shared_ptr_Graph
| typeid_shared_ptr_Module
| typeid_SharedConnection
| typeid_shared_ptr_Node
| typeid_shared_ptr_NodeData.

#[global] Instance type_info_eq_dec : EqDecision type_info.
Proof. solve_decision. Defined.

Definition typeid (o : Object) : type_info :=
  match o with
  | Handle_EnvWrapper _ => typeid_EnvWrapper
  | Handle_NodeFactoryWrapper _ => typeid_NodeFactoryWrapper
  | Handle_NodeWrapper _ => typeid_NodeWrapper
  | Handle_NodeDataWrapper _ => typeid_NodeDataWrapper
  | Handle_shared_ptr_Graph _ => typeid_shared_ptr_Graph
  | Handle_shared_ptr_Module _ => typeid_shared_ptr_Module
  | Handle_SharedConnection _ => typeid_SharedConnection
  | Handle_shared_ptr_Node _ => typeid_shared_ptr_Node
  | Handle_shared_ptr_NodeData _ => typeid_shared_ptr_NodeData
  end.

(** [class HandleBase]: the reference count, and the object of the derived
    [Handle<T>]. *)
Record HandleBase := {
  ref_count_ : Z;
  handle_object : Object;
}.

(** A type [T] a handle can be asked for: [Handle<T>(args)] builds the
    object, [dynamic_cast<Handle<T>*>] recovers it from a [HandleBase] of
    that dynamic type and yields null on any other. *)
Class HandleType (T : Type) := {
  handle_typeid : type_info;
  make_Handle : T → Object;
  dynamic_cast : Object → option T;
  dynamic_cast_make : ∀ t, dynamic_cast (make_Handle t) = Some t;
  dynamic_cast_typeid : ∀ o, is_Some (dynamic_cast o) ↔ typeid o = handle_typeid;
}.

Ltac solve_HandleType :=
  first [ done
        | intros o; split;
          [ intros [? Hc]; destruct o; by simplify_eq/=
          | intros Ht; destruct o; by simplify_eq/= ] ].

Definition dynamic_cast_EnvWrapper (o : Object) : option EnvWrapper :=
  match o with
  | Handle_EnvWrapper w => Some w
  | _ => None
  end.

#[global, program] Instance HandleType_EnvWrapper : HandleType EnvWrapper := {
  handle_typeid := typeid_EnvWrapper;
  make_Handle := Handle_EnvWrapper;
  dynamic_cast := dynamic_cast_EnvWrapper;
}.
Solve All Obligations with solve_HandleType.

Definition dynamic_cast_NodeFactoryWrapper (o : Object) : option NodeFactoryWrapper :=
  match o with
  | Handle_NodeFactoryWrapper w => Some w
  | _ => None
  end.

#[global, program] Instance HandleType_NodeFactoryWrapper : HandleType NodeFactoryWrapper := {
  handle_typeid := typeid_NodeFactoryWrapper;
  make_Handle := Handle_NodeFactoryWrapper;
  dynamic_cast := dynamic_cast_NodeFactoryWrapper;
}.
Solve All Obligations with solve_HandleType.

Definition dynamic_cast_NodeWrapper (o : Object) : option NodeWrapper :=
  match o with
  | Handle_NodeWrapper w => Some w
  | _ => None
  end.

#[global, program] Instance HandleType_NodeWrapper : HandleType NodeWrapper := {
  handle_typeid := typeid_NodeWrapper;
  make_Handle := Handle_NodeWrapper;
  dynamic_cast := dynamic_cast_NodeWrapper;
}.
Solve All Obligations with solve_HandleType.

Definition dynamic_cast_NodeDataWrapper (o : Object) : option NodeDataWrapper :=
  match o with
  | Handle_NodeDataWrapper w => Some w
  | _ => None
  end.

#[global, program] Instance HandleType_NodeDataWrapper : HandleType NodeDataWrapper := {
  handle_typeid := typeid_NodeDataWrapper;
  make_Handle := Handle_NodeDataWrapper;
  dynamic_cast := dynamic_cast_NodeDataWrapper;
}.
Solve All Obligations with solve_HandleType.

Definition dynamic_cast_shared_ptr_Graph (o : Object) : option shared_ptr_Graph :=
  match o with
  | Handle_shared_ptr_Graph w => Some w
  | _ => None
  end.

#[global, program] Instance HandleType_shared_ptr_Graph : HandleType shared_ptr_Graph := {
  handle_typeid := typeid_shared_ptr_Graph;
  make_Handle := Handle_shared_ptr_Graph;
  dynamic_cast := dynamic_cast_shared_ptr_Graph;
}.
Solve All Obligations with solve_HandleType.

Definition dynamic_cast_shared_ptr_Module (o : Object) : option shared_ptr_Module :=
  match o with
  | Handle_shared_ptr_Module w => Some w
  | _ => None
  end.

#[global, program] Instance HandleType_shared_ptr_Module : HandleType shared_ptr_Module := {
  handle_typeid := typeid_shared_ptr_Module;
  make_Handle := Handle_shared_ptr_Module;
  dynamic_cast := dynamic_cast_shared_ptr_Module;
}.
Solve All Obligations with solve_HandleType.

Definition dynamic_cast_SharedConnection (o : Object) : option SharedConnection :=
  match o with
  | Handle_SharedConnection w => Some w
  | _ => None
  end.

#[global, program] Instance HandleType_SharedConnection : HandleType SharedConnection := {
  handle_typeid := typeid_SharedConnection;
  make_Handle := Handle_SharedConnection;
  dynamic_cast := dynamic_cast_SharedConnection;
}.
Solve All Obligations with solve_HandleType.

Definition dynamic_cast_shared_ptr_Node (o : Object) : option shared_ptr_Node :=
  match o with
  | Handle_shared_ptr_Node w => Some w
  | _ => None
  end.

#[global, program] Instance HandleType_shared_ptr_Node : HandleType shared_ptr_Node := {
  handle_typeid := typeid_shared_ptr_Node;
  make_Handle := Handle_shared_ptr_Node;
  dynamic_cast := dynamic_cast_shared_ptr_Node;
}.
Solve All Obligations with solve_HandleType.

Definition dynamic_cast_shared_ptr_NodeData (o : Object) : option shared_ptr_NodeData :=
  match o with
  | Handle_shared_ptr_NodeData w => Some w
  | _ => None
  end.

#[global, program] Instance HandleType_shared_ptr_NodeData
    : HandleType shared_ptr_NodeData := {
  handle_typeid := typeid_shared_ptr_NodeData;
  make_Handle := Handle_shared_ptr_NodeData;
  dynamic_cast := dynamic_cast_shared_ptr_NodeData;
}.
Solve All Obligations with solve_HandleType.

(* ===================================================================== *)
(** * src/event_bridge.cpp: registrations *)
(* ===================================================================== *)

(** [flow::IndexableName], by its name. *)
Abbreviation IndexableName := string (only parsing).

(** [FlowEventRegistration::Type]. *)
Inductive FlowEventRegistration_Type :=
| GraphNodeAdded
| GraphNodeRemoved
| GraphNodesConnected
| GraphNodesDisconnected
| GraphError
| NodeCompute
| NodeError
| NodeSetInput
| NodeSetOutput.

#[global] Instance FlowEventRegistration_Type_eq_dec : EqDecision FlowEventRegistration_Type.
Proof. solve_decision. Defined.

(** [struct FlowEventRegistration]. *)
Record FlowEventRegistration := {
  reg_type : FlowEventRegistration_Type;
  reg_handle : N;        (* Graph or Node handle *)
  reg_callback : N;      (* Callback function pointer *)
  reg_user_data : N;     (* User data *)
  reg_event_id : IndexableName;
}.

(** A lambda that a registering function binds, by what it captures: the
    callback, the user data and, in the lambdas of a node, the node handle.
    Its body is fixed by the function that binds it. *)
Record EventLambda := {
  lambda_callback : N;
  lambda_user_data : N;
  lambda_node : option N;
}.

(* ===================================================================== *)
(** * The procedures of flow-core

    The bodies of these procedures are flow-core's and outside the
    repository.  The bridge is verified against any implementation of them:
    each may return or throw, and may change the engine's objects. *)
(* ===================================================================== *)

(** A [nlohmann::json] value as [CreateInterworkingJson] builds it: an
    object of string members. *)
Abbreviation json := (gmap string string) (only parsing).

Class FlowCore := {
  (** the characters of [TypeName_v<T>], as [Type()] returns them *)
  TypeName_view : TypeName → string;
  (** [NodeData::ToString()] *)
  NodeData_ToString : NodeData → Except string;
  (** [UUID(str)] for a C string, and [std::string(uuid)] *)
  UUID_parse : string → Except UUID;
  UUID_string : UUID → string;
  (** [json::dump()] *)
  json_dump : json → Except string;
  (** [Node::SetInputData(key, data, autoCompute)] and its siblings *)
  Node_SetInputData : N → string → SharedNodeData → bool → EngineProc unit;
  Node_SetOutputData : N → string → SharedNodeData → bool → EngineProc unit;
  Node_InvokeCompute : N → EngineProc unit;
  Node_SetName : N → string → EngineProc unit;
  (** [Graph::DisconnectNodes], [RemoveNodeByID], [Run], [Clear] *)
  Graph_DisconnectNodes : N → UUID → string → UUID → string → EngineProc unit;
  Graph_RemoveNodeByID : N → UUID → EngineProc unit;
  Graph_Run : N → EngineProc unit;
  Graph_Clear : N → EngineProc unit;
  (** [Env::Wait()] and [Env::GetVar(name)] *)
  Env_Wait : N → EngineProc unit;
  Env_GetVar : N → string → EngineProc string;
  (** [Module::Load], [Unload], [RegisterModuleNodes], [UnregisterModuleNodes] *)
  Module_Load : N → string → EngineProc bool;
  Module_Unload : N → EngineProc bool;
  Module_RegisterModuleNodes : N → EngineProc unit;
  Module_UnregisterModuleNodes : N → EngineProc unit;
  (** [std::filesystem::exists] *)
  fs_exists : string → Except bool;
  (** [UUID()], a new random identity *)
  UUID_generate : EngineProc UUID;
  (** [NodeFactory::CreateNode(class, uuid, name, env)], [GetFriendlyName]
      and [IsConvertible] *)
  Factory_CreateNode : N → string → UUID → string → shared_ptr → EngineProc shared_ptr;
  Factory_GetFriendlyName : N → string → EngineProc string;
  Factory_IsConvertible : N → string → string → EngineProc bool;
  (** [Graph::AddNode], [ConnectNodes] and [CanConnectNode] *)
  Graph_AddNode : N → shared_ptr → EngineProc unit;
  Graph_ConnectNodes : N → UUID → string → UUID → string → EngineProc SharedConnection;
  Graph_CanConnectNode : N → UUID → string → UUID → string → EngineProc bool;
  (** a [nlohmann::json] document, [json::parse] and [dump(indent)]
      ([None] for [dump()]) *)
  json_document : Type;
  json_parse : string → Except json_document;
  json_document_dump : json_document → option nat → Except string;
  (** [to_json(j, graph)], [from_json(j, graph)], [Node::Save()] and
      [Node::Restore(j)] *)
  Graph_to_json : N → EngineProc json_document;
  Graph_from_json : N → json_document → EngineProc unit;
  Node_Save : N → EngineProc json_document;
  Node_Restore : N → json_document → EngineProc unit;
  (** [dispatcher.Bind(id, f)] and [dispatcher.Unbind(id)] on the event
      dispatcher that a registration type names, of the graph or node at an
      address *)
  EventDispatcher_Bind :
    FlowEventRegistration_Type → N → IndexableName → EventLambda → EngineProc unit;
  EventDispatcher_Unbind : FlowEventRegistration_Type → N → IndexableName → EngineProc unit;
  (** [~Handle<T>()]: the object of the handle is destroyed, the shared
      pointers it holds are released, and flow-core destroys what had no
      other owner; a destructor does not throw *)
  Handle_dtor : Object → Core → Core;
}.

(* ===================================================================== *)
(** * The state of the process and the monad of C++ calls *)
(* ===================================================================== *)

(** [struct ErrorInfo] of [ErrorManager]. *)
Record ErrorInfo := {
  code : FlowError;
  message : string;
}.

(** What a cell of caller memory holds.  [V_struct] is a record by the
    fields written so far, in the order of their declaration; [V_array None]
    is a null array pointer and [V_array (Some l)] points to a new array
    whose elements written so far are [l]. *)
#[warnings="-register-all"] Inductive Value :=
| V_int32 (z : Z)
| V_double (f : float)
| V_bool (b : bool)
| V_cstring (s : cstring)
| V_size (n : nat)
| V_handle (p : N)
| V_struct (fields : list Value)
| V_array (elements : option (list Value)).

(** A cell: the address of an object and the index of a field in it ([0]
    for a scalar). *)
Abbreviation loc := (ptr * nat)%type (only parsing).

(** The globals of [event_bridge.cpp]: the registrations that
    [g_event_registrations] owns, by address, and the counter of
    [generate_event_id]. *)
Record EventRegistrations := {
  g_event_registrations : gmap ptr FlowEventRegistration;
  counter : N;
}.

Definition no_registrations : EventRegistrations :=
  {| g_event_registrations := ∅; counter := 0 |}.

Record World := {
  errors_ : gmap thread_id ErrorInfo;   (* ErrorManager::errors_ *)
  handles_ : gmap ptr HandleBase;       (* HandleRegistry::handles_ *)
  core : Core;                          (* the objects of flow-core *)
  memory : gmap loc Value;              (* the caller's out-parameters *)
  events : EventRegistrations;          (* the globals of event_bridge.cpp *)
}.

Definition set_errors_ (f : gmap thread_id ErrorInfo → gmap thread_id ErrorInfo)
    (w : World) : World :=
  {| errors_ := f (errors_ w); handles_ := handles_ w; core := core w; memory := memory w;
     events := events w |}.

Definition set_handles_ (f : gmap ptr HandleBase → gmap ptr HandleBase)
    (w : World) : World :=
  {| errors_ := errors_ w; handles_ := f (handles_ w); core := core w; memory := memory w;
     events := events w |}.

Definition set_core (c : Core) (w : World) : World :=
  {| errors_ := errors_ w; handles_ := handles_ w; core := c; memory := memory w;
     events := events w |}.

Definition set_memory (f : gmap loc Value → gmap loc Value) (w : World) : World :=
  {| errors_ := errors_ w; handles_ := handles_ w; core := core w; memory := f (memory w);
     events := events w |}.

Definition set_events (e : EventRegistrations) (w : World) : World :=
  {| errors_ := errors_ w; handles_ := handles_ w; core := core w; memory := memory w;
     events := e |}.

Definition empty_world : World :=
  {| errors_ := ∅; handles_ := ∅; core := empty_core; memory := ∅;
     events := no_registrations |}.

Definition M (A : Type) : Type := thread_id → World → Res A * World.

Definition ret {A} (a : A) : M A := λ _ w, (Return a, w).

Definition bind {A B} (c : M A) (k : A → M B) : M B :=
  λ tid w,
    match c tid w with
    | (Return a, w') => k a tid w'
    | (Throw e, w') => (Throw e, w')
    | (Crash, w') => (Crash, w')
    end.

Notation "x <- c ;; k" := (bind c (λ x, k))
  (at level 20, c at level 99, k at level 200, only parsing).
Notation "c ;; k" := (bind c (λ _, k))
  (at level 100, k at level 200, right associativity, only parsing).

Definition throw {A} (e : exception) : M A := λ _ w, (Throw e, w).
Definition crash {A} : M A := λ _ w, (Crash, w).

(** [try { body } catch ...]: [handler e] is the clause that catches [e],
    or [None] when no clause does and [e] propagates. *)
Definition try_catch {A} (body : M A) (handler : exception → option (M A)) : M A :=
  λ tid w,
    match body tid w with
    | (Throw e, w') =>
        match handler e with
        | Some h => h tid w'
        | None => (Throw e, w')
        end
    | r => r
    end.

(** [std::this_thread::get_id()]. *)
Definition this_thread_get_id : M thread_id := λ tid w, (Return tid, w).

(** A call into flow-core. *)
Definition call {A} (f : EngineProc A) : M A :=
  λ _ w, let '(r, c) := f (core w) in (Res_of_Except r, set_core c w).

(** [*p] for a shared pointer into one of the stores of flow-core. *)
Definition deref {T} (store : Core → gmap N T) (p : shared_ptr) : M T :=
  λ _ w,
    match p ≫= (λ a, store (core w) !! a) with
    | Some t => (Return t, w)
    | None => (Crash, w)
    end.

(** [*p = v] and [p->field = v] through a caller's pointer. *)
Definition store (p : ptr) (field : nat) (v : Value) : M unit :=
  λ _ w, (Return tt, set_memory <[(p, field) := v]> w).

(* ===================================================================== *)
(** * src/error_handling.hpp *)
(* ===================================================================== *)

Module ErrorManager.

Definition set_error (code : FlowError) (message : string) : M unit :=
  thread_id <- this_thread_get_id;;
  λ _ w, (Return tt,
          set_errors_ <[thread_id := {| code := code; message := message |}]> w).

Definition clear_error : M unit :=
  thread_id <- this_thread_get_id;;
  λ _ w, (Return tt, set_errors_ (delete thread_id) w).

Definition get_last_error : M cstring :=
  thread_id <- this_thread_get_id;;
  λ _ w,
    match errors_ w !! thread_id with
    | Some it => (Return (Some (message it)), w)
    | None => (Return None, w)
    end.

Definition get_last_error_code : M FlowError :=
  thread_id <- this_thread_get_id;;
  λ _ w,
    match errors_ w !! thread_id with
    | Some it => (Return (code it), w)
    | None => (Return FLOW_SUCCESS, w)
    end.

End ErrorManager.

(** [class ErrorSetter]: the object is its flag [error_set_]; a method that
    changes the flag returns the object after the call. *)
Record ErrorSetter := { error_set_ : bool }.

Module ErrorSetter_.

Definition ctor : ErrorSetter := {| error_set_ := false |}.

Definition set_error (this : ErrorSetter) (code : FlowError) (message : string)
    : M ErrorSetter :=
  ErrorManager.set_error code message;;
  ret {| error_set_ := true |}.

Definition clear_error (this : ErrorSetter) : M ErrorSetter :=
  ErrorManager.clear_error;;
  ret {| error_set_ := true |}.

(** The destructor; [uncaught_exceptions] is the value of
    [std::uncaught_exceptions()] where the object goes out of scope. *)
Definition dtor (this : ErrorSetter) (uncaught_exceptions : nat) : M unit :=
  if negb (error_set_ this) && (0 <? uncaught_exceptions)%nat then
    _ <- set_error this FLOW_ERROR_UNKNOWN "Unhandled C++ exception occurred";;
    ret tt
  else ret tt.

End ErrorSetter_.

(** The body shared by [FLOW_API_CALL], [FLOW_API_CALL_HANDLE] and
    [FLOW_API_CALL_VOID]; they differ in the value [failure] that the two
    handlers return.  Both handlers run with the exception caught, and a
    normal return has none in flight: the [error_setter] always goes out of
    scope with [std::uncaught_exceptions() = 0]. *)
Definition FLOW_API_CALL_ {A} (failure : A) (code : M A) : M A :=
  let error_setter := ErrorSetter_.ctor in
  r <- try_catch
         (a <- code;; ret (error_setter, a))
         (λ e, match e with
               | std_out_of_range w | json_parse_error w | std_exception w =>
                   Some (error_setter <-
                           ErrorSetter_.set_error error_setter FLOW_ERROR_UNKNOWN w;;
                         ret (error_setter, failure))
               | non_std_exception =>
                   Some (error_setter <-
                           ErrorSetter_.set_error error_setter FLOW_ERROR_UNKNOWN
                             "Unknown exception occurred";;
                         ret (error_setter, failure))
               end);;
  ErrorSetter_.dtor r.1 0;;
  ret r.2.

Definition FLOW_API_CALL (code : M FlowError) : M FlowError :=
  FLOW_API_CALL_ FLOW_ERROR_UNKNOWN code.

(** The null of a handle and of a string. *)
Class Null (A : Type) := null : A.
#[global] Instance Null_ptr : Null N := 0%N.
#[global] Instance Null_cstring : Null (option string) := None.

Definition FLOW_API_CALL_HANDLE {A} `{Null A} (code : M A) : M A :=
  FLOW_API_CALL_ null code.

Definition FLOW_API_CALL_VOID (code : M unit) : M unit :=
  FLOW_API_CALL_ tt code.

(* ===================================================================== *)
(** * src/handle_manager.hpp *)
(* ===================================================================== *)

(** The reference count is a [std::atomic<int32_t>]: it wraps around. *)
Definition wrap_int32 (z : Z) : Z := ((z + 2 ^ 31) mod 2 ^ 32 - 2 ^ 31)%Z.

Module HandleBase_.

(** [HandleBase()]: the count starts at one. *)
Definition ctor (o : Object) : HandleBase := {| ref_count_ := 1; handle_object := o |}.

Definition retain (this : HandleBase) : HandleBase :=
  {| ref_count_ := wrap_int32 (ref_count_ this + 1); handle_object := handle_object this |}.

(** [release()]: the object after the call, and whether this was the last
    reference. *)
Definition release (this : HandleBase) : HandleBase * bool :=
  let old_count := ref_count_ this in
  ({| ref_count_ := wrap_int32 (ref_count_ this - 1); handle_object := handle_object this |},
   bool_decide (old_count = 1%Z)).

Definition get_ref_count (this : HandleBase) : Z := ref_count_ this.

End HandleBase_.

Module HandleRegistry.

(** The address of a newly made [Handle<T>]: not null, and not the address
    of a handle the registry still owns. *)
Definition new_address (handles : gmap ptr HandleBase) : ptr :=
  fresh (dom handles ∪ {[ 0%N ]}).

Definition register_handle (handle : HandleBase) : M ptr :=
  λ _ w,
    let ptr := new_address (handles_ w) in
    (Return ptr, set_handles_ <[ptr := handle]> w).

(** [get_handle<T>]: [nullptr] if not found or wrong type. *)
Definition get_handle {T} `{HandleType T} (ptr : ptr) : M (option T) :=
  λ _ w,
    match handles_ w !! ptr with
    | None => (Return None, w)
    | Some it =>
        match dynamic_cast (handle_object it) with
        | None => (Return None, w)
        | Some handle => (Return (Some handle), w)
        end
    end.

Definition get_handle_base (ptr : ptr) : M (option HandleBase) :=
  λ _ w, (Return (handles_ w !! ptr), w).

Definition is_valid_handle (ptr : ptr) : M bool :=
  λ _ w, (Return (bool_decide (is_Some (handles_ w !! ptr))), w).

(** [handles_.erase(ptr)]: the registry owns the handle, so erasing the
    entry destroys the [Handle<T>] behind it. *)
Definition unregister_handle {flow_core : FlowCore} (ptr : ptr) : M unit :=
  λ _ w,
    match handles_ w !! ptr with
    | Some it =>
        (Return tt,
         set_core (Handle_dtor (handle_object it) (core w)) (set_handles_ (delete ptr) w))
    | None => (Return tt, w)
    end.

Definition get_handle_count : M nat :=
  λ _ w, (Return (size (handles_ w)), w).

(** [handle->retain()] and [handle->release()] act on the object the
    registry owns. *)
Definition update_handle_base (ptr : ptr) (handle : HandleBase) : M unit :=
  λ _ w, (Return tt, set_handles_ <[ptr := handle]> w).

End HandleRegistry.

Definition create_handle {T} `{HandleType T} (args : T) : M ptr :=
  let handle := HandleBase_.ctor (make_Handle args) in
  HandleRegistry.register_handle handle.

Definition get_handle {T} `{HandleType T} (ptr : ptr) : M (option T) :=
  HandleRegistry.get_handle ptr.

Definition is_valid_handle (ptr : ptr) : M bool :=
  HandleRegistry.is_valid_handle ptr.

Definition retain_handle (ptr : ptr) : M unit :=
  h <- HandleRegistry.get_handle_base ptr;;
  match h with
  | Some handle => HandleRegistry.update_handle_base ptr (HandleBase_.retain handle)
  | None => ret tt
  end.

Definition release_handle {flow_core : FlowCore} (ptr : ptr) : M bool :=
  h <- HandleRegistry.get_handle_base ptr;;
  match h with
  | Some handle =>
      let '(handle, last) := HandleBase_.release handle in
      HandleRegistry.update_handle_base ptr handle;;
      if last then
        HandleRegistry.unregister_handle ptr;;
        ret true
      else ret false
  | None => ret false
  end.

Definition get_ref_count (ptr : ptr) : M Z :=
  h <- HandleRegistry.get_handle_base ptr;;
  match h with
  | Some handle => ret (HandleBase_.get_ref_count handle)
  | None => ret 0%Z
  end.

(* ===================================================================== *)
(** * src/handle_manager.cpp *)
(* ===================================================================== *)

Definition flow_is_valid_handle (handle : ptr) : M bool := is_valid_handle handle.
Definition flow_retain_handle (handle : ptr) : M unit := retain_handle handle.
Definition flow_release_handle {flow_core : FlowCore} (handle : ptr) : M unit :=
  _ <- release_handle handle;; ret tt.
Definition flow_get_ref_count (handle : ptr) : M Z := get_ref_count handle.

(* ===================================================================== *)
(** * src/error_handling.hpp: validation helpers *)
(* ===================================================================== *)

Definition validate_handle (handle : ptr) (handle_name : string) : M bool :=
  if bool_decide (handle = 0%N) then
    ErrorManager.set_error FLOW_ERROR_INVALID_HANDLE
      ("Invalid handle: " +:+ handle_name +:+ " is null");;
    ret false
  else
    valid <- flow_is_valid_handle handle;;
    if negb valid then
      ErrorManager.set_error FLOW_ERROR_INVALID_HANDLE
        ("Invalid handle: " +:+ handle_name +:+ " is not registered");;
      ret false
    else ret true.

Definition validate_string (str : cstring) (param_name : string) : M bool :=
  match str with
  | None =>
      ErrorManager.set_error FLOW_ERROR_INVALID_ARGUMENT
        ("Invalid argument: " +:+ param_name +:+ " is null");;
      ret false
  | Some _ => ret true
  end.

Definition validate_pointer (ptr : ptr) (param_name : string) : M bool :=
  if bool_decide (ptr = 0%N) then
    ErrorManager.set_error FLOW_ERROR_INVALID_ARGUMENT
      ("Invalid argument: " +:+ param_name +:+ " is null");;
    ret false
  else ret true.

(* ===================================================================== *)
(** * src/error_handling.cpp *)
(* ===================================================================== *)

Definition flow_get_last_error : M cstring := ErrorManager.get_last_error.

Definition flow_clear_error : M unit := ErrorManager.clear_error.

Definition flow_set_error (code : FlowError) (message : cstring) : M unit :=
  match message with
  | Some message => ErrorManager.set_error code message
  | None => ErrorManager.set_error code "Unknown error"
  end.

(* ===================================================================== *)
(** * Handlers and library results *)
(* ===================================================================== *)

(** The handlers [catch (const std::exception& e)] of the bridge: the
    clause [h] receives [e.what()]. *)
Definition catch_std_exception {A} (h : string → M A) (e : exception) : option (M A) :=
  match e with
  | std_out_of_range w | json_parse_error w | std_exception w => Some (h w)
  | non_std_exception => None
  end.

(** A result of a pure library function, in the monad. *)
Definition lift {A} (r : Except A) : M A := λ _ w, (Res_of_Except r, w).

(* ===================================================================== *)
(** * src/type_conversions.cpp *)
(* ===================================================================== *)

(** [CreateTypedData<T>(value)], one definition per [T] the file uses. *)
Definition CreateTypedData_int (value : Z) : SharedNodeData := Some (NodeData_int value).
Definition CreateTypedData_double (value : float) : SharedNodeData := Some (NodeData_double value).
Definition CreateTypedData_bool (value : bool) : SharedNodeData := Some (NodeData_bool value).
Definition CreateTypedData_string (value : string) : SharedNodeData := Some (NodeData_string value).

(** [static_cast<detail::NodeData<T>*>(p)->Get()]: reading the payload of
    an object of another type is undefined. *)
Definition Get_int (d : NodeData) : M Z :=
  match d with NodeData_int v => ret v | _ => crash end.
Definition Get_double (d : NodeData) : M float :=
  match d with NodeData_double v => ret v | _ => crash end.
Definition Get_bool (d : NodeData) : M bool :=
  match d with NodeData_bool v => ret v | _ => crash end.
Definition Get_string (d : NodeData) : M string :=
  match d with NodeData_string v => ret v | _ => crash end.

Section type_conversions.
Context {flow_core : FlowCore}.

(** [int32_t] and [int] have the same width: the two [static_cast]s are the
    identity. *)
Definition flow_data_create_int (value : Z) : M ptr :=
  FLOW_API_CALL_HANDLE (
    let data := CreateTypedData_int value in
    let wrapper := {| NodeDataWrapper_data := data |} in
    create_handle wrapper).

Definition flow_data_create_double (value : float) : M ptr :=
  FLOW_API_CALL_HANDLE (
    let data := CreateTypedData_double value in
    let wrapper := {| NodeDataWrapper_data := data |} in
    create_handle wrapper).

Definition flow_data_create_bool (value : bool) : M ptr :=
  FLOW_API_CALL_HANDLE (
    let data := CreateTypedData_bool value in
    let wrapper := {| NodeDataWrapper_data := data |} in
    create_handle wrapper).

Definition flow_data_create_string (value : cstring) : M ptr :=
  FLOW_API_CALL_HANDLE (
    ok <- validate_string value "value";;
    if negb ok then ret 0%N else
    match value with
    | None => crash
    | Some value =>
        let data := CreateTypedData_string value in
        let wrapper := {| NodeDataWrapper_data := data |} in
        create_handle wrapper
    end).

(** The four readers share their shape; [expected] is the type name of the
    message, [T] the type asked for, [read] the cast and the store. *)
Definition flow_data_get_ (expected : string) (T : TypeName)
    (read : NodeData → M Value) (data value : ptr) : M FlowError :=
  FLOW_API_CALL (
    ok <- validate_handle data "data";;
    if negb ok then ret FLOW_ERROR_INVALID_HANDLE else
    ok <- validate_pointer value "value";;
    if negb ok then ret FLOW_ERROR_INVALID_ARGUMENT else
    data_wrapper <- get_handle (T := NodeDataWrapper) data;;
    match data_wrapper with
    | None =>
        ErrorManager.set_error FLOW_ERROR_INVALID_HANDLE "Invalid data handle";;
        ret FLOW_ERROR_INVALID_HANDLE
    | Some data_wrapper =>
        match NodeDataWrapper_data data_wrapper with
        | None =>
            ErrorManager.set_error FLOW_ERROR_INVALID_ARGUMENT "Data is null";;
            ret FLOW_ERROR_INVALID_ARGUMENT
        | Some d =>
            if negb (bool_decide (Type_ d = T)) then
              ErrorManager.set_error FLOW_ERROR_TYPE_MISMATCH
                ("Expected " +:+ expected +:+ ", got " +:+ TypeName_view (Type_ d));;
              ret FLOW_ERROR_TYPE_MISMATCH
            else
              try_catch
                (v <- read d;;
                 store value 0 v;;
                 ret FLOW_SUCCESS)
                (catch_std_exception (λ w,
                   ErrorManager.set_error FLOW_ERROR_UNKNOWN
                     ("Failed to get " +:+ expected +:+ " value: " +:+ w);;
                   ret FLOW_ERROR_UNKNOWN))
        end
    end).

Definition flow_data_get_int : ptr → ptr → M FlowError :=
  flow_data_get_ "int" TypeName_int (λ d, v <- Get_int d;; ret (V_int32 v)).

Definition flow_data_get_double : ptr → ptr → M FlowError :=
  flow_data_get_ "double" TypeName_double (λ d, v <- Get_double d;; ret (V_double v)).

Definition flow_data_get_bool : ptr → ptr → M FlowError :=
  flow_data_get_ "bool" TypeName_bool (λ d, v <- Get_bool d;; ret (V_bool v)).

(** The string is copied to a new [char] array whose address is stored
    through [value]: the cell receives the copy. *)
Definition flow_data_get_string : ptr → ptr → M FlowError :=
  flow_data_get_ "string" TypeName_string
    (λ d, v <- Get_string d;; ret (V_cstring (Some v))).

Definition flow_data_get_type (data : ptr) : M cstring :=
  FLOW_API_CALL_HANDLE (
    ok <- validate_handle data "data";;
    if negb ok then ret None else
    data_wrapper <- get_handle (T := NodeDataWrapper) data;;
    match data_wrapper with
    | None =>
        ErrorManager.set_error FLOW_ERROR_INVALID_HANDLE "Invalid data handle";;
        ret None
    | Some data_wrapper =>
        match NodeDataWrapper_data data_wrapper with
        | None =>
            ErrorManager.set_error FLOW_ERROR_INVALID_ARGUMENT "Data is null";;
            ret None
        | Some d =>
            try_catch
              (let type_name := TypeName_view (Type_ d) in
               ret (Some type_name))
              (catch_std_exception (λ w,
                 ErrorManager.set_error FLOW_ERROR_UNKNOWN
                   ("Failed to get data type: " +:+ w);;
                 ret None))
        end
    end).

Definition flow_data_destroy (data : ptr) : M unit :=
  FLOW_API_CALL_VOID (
    ok <- validate_handle data "data";;
    if negb ok then ret tt else
    _ <- release_handle data;;
    ret tt).

Definition flow_data_to_string (data : ptr) : M cstring :=
  FLOW_API_CALL_HANDLE (
    ok <- validate_handle data "data";;
    if negb ok then ret None else
    data_wrapper <- get_handle (T := NodeDataWrapper) data;;
    match data_wrapper with
    | None =>
        ErrorManager.set_error FLOW_ERROR_INVALID_HANDLE "Invalid data handle";;
        ret None
    | Some data_wrapper =>
        match NodeDataWrapper_data data_wrapper with
        | None =>
            ErrorManager.set_error FLOW_ERROR_INVALID_ARGUMENT "Data is null";;
            ret None
        | Some d =>
            try_catch
              (str_value <- lift (NodeData_ToString d);;
               ret (Some str_value))
              (catch_std_exception (λ w,
                 ErrorManager.set_error FLOW_ERROR_UNKNOWN
                   ("Failed to convert data to string: " +:+ w);;
                 ret None))
        end
    end).

End type_conversions.

(* ===================================================================== *)
(** * Object construction and the accessors of flow-core *)
(* ===================================================================== *)

(** Modelled from the spec: [std::make_shared<NodeFactory>()] (section 3,
    "NodeFactory": "populated at module-registration time"): a new factory
    with empty tables. *)
Definition make_shared_NodeFactory : EngineProc shared_ptr :=
  λ c,
    let a := fresh (dom (factories c)) in
    (Ok (Some a),
     {| nodes := nodes c; graphs := graphs c; envs := envs c;
        factories := <[a := {| factory_categories := [] |}]> (factories c);
        modules := modules c |}).

(** Modelled from the spec: [std::make_shared<Graph>(name, env)] (section
    3, "Graph": it owns its nodes and connections and is "created bound to
    one Env"): a new graph without nodes and connections. *)
Definition make_shared_Graph (name : string) (env : shared_ptr) : EngineProc shared_ptr :=
  λ c,
    let a := fresh (dom (graphs c)) in
    (Ok (Some a),
     {| nodes := nodes c;
        graphs := <[a := {| graph_name := name; graph_env := env;
                            graph_nodes := ∅; graph_connections := [] |}]> (graphs c);
        envs := envs c; factories := factories c; modules := modules c |}).

(** Modelled from the spec: [std::make_shared<Module>(factory)] (section
    6, "Module loader": [IsLoaded()] and the read-only metadata): a module
    that is not loaded and has no metadata, which is what the repository's
    tests [ModuleCreationAndDestruction] and [ModuleUnloadWhenNotLoaded]
    expect of one. *)
Definition make_shared_Module (factory : shared_ptr) : EngineProc shared_ptr :=
  λ c,
    let a := fresh (dom (modules c)) in
    (Ok (Some a),
     {| nodes := nodes c; graphs := graphs c; envs := envs c; factories := factories c;
        modules := <[a := {| module_factory := factory; module_loaded := false;
                             module_metadata := None |}]> (modules c) |}).

(** Modelled from the spec: [Env::Create(factory, settings)] (section 4.6:
    "settings carry MaxThreads (must be > 0, else InvalidArgument)"). *)
Definition Env_Create (factory : shared_ptr) (settings : Settings) : EngineProc shared_ptr :=
  λ c,
    if (MaxThreads settings <=? 0)%Z then (Raise (std_exception "InvalidArgument"), c)
    else
      let a := fresh (dom (envs c)) in
      (Ok (Some a),
       {| nodes := nodes c; graphs := graphs c;
          envs := <[a := {| env_factory := factory; env_settings := settings |}]> (envs c);
          factories := factories c; modules := modules c |}).

(** [p->] for a shared pointer whose object a procedure of flow-core is
    called on: the address of the object. *)
Definition arrow {T} (store : Core → gmap N T) (p : shared_ptr) : M N :=
  λ _ w,
    match p with
    | Some a => if bool_decide (is_Some (store (core w) !! a)) then (Return a, w) else (Crash, w)
    | None => (Crash, w)
    end.

(** The text of the [std::out_of_range] a failed [at()] throws. *)
Definition out_of_range_what : string := "unordered_map::at".

(** Modelled from the spec: [Node::GetInputPorts()], [GetInputPort(key)],
    [GetInputData(key)] and the output twins (section 4.3: they "fail with
    PortNotFound if key is absent", a [std::out_of_range] to the bridge). *)
Definition GetInputPorts (n : Node) : list (string * Port) :=
  map_to_list (node_input_ports n).

Definition GetOutputPorts (n : Node) : list (string * Port) :=
  map_to_list (node_output_ports n).

Definition GetInputPort (n : Node) (k : string) : M (option Port) :=
  match node_input_ports n !! k with
  | Some port => ret (Some port)
  | None => throw (std_out_of_range out_of_range_what)
  end.

Definition GetOutputPort (n : Node) (k : string) : M (option Port) :=
  match node_output_ports n !! k with
  | Some port => ret (Some port)
  | None => throw (std_out_of_range out_of_range_what)
  end.

Definition GetInputData (n : Node) (k : string) : M SharedNodeData :=
  match node_input_ports n !! k with
  | Some port => ret (port_data port)
  | None => throw (std_out_of_range out_of_range_what)
  end.

Definition GetOutputData (n : Node) (k : string) : M SharedNodeData :=
  match node_output_ports n !! k with
  | Some port => ret (port_data port)
  | None => throw (std_out_of_range out_of_range_what)
  end.

(** Modelled from the spec: [Graph::GetNode(id)], null when the graph has
    no such node, and [Graph::GetConnections()]. *)
Definition GetNode (g : Graph) (id : UUID) : shared_ptr := graph_nodes g !! id.

Definition GetConnections (g : Graph) : list (UUID * Connection) := graph_connections g.

(** Modelled from the spec: [Graph::GetNodes()], the nodes of the graph by
    id, in the order the bridge iterates them. *)
Definition GetNodes (g : Graph) : list (UUID * N) := map_to_list (graph_nodes g).

(** Modelled from the spec: [NodeFactory::GetCategories()], the category
    table. *)
Definition GetCategories (f : NodeFactory) : list (string * string) :=
  factory_categories f.

(** The order of [std::string] in a [std::set]. *)
Definition string_le (x y : string) : Prop := String.leb x y = true.

#[global] Instance string_le_dec x y : Decision (string_le x y).
Proof. unfold string_le. apply _. Defined.

(** The loop that fills a new [char*] array with copies of [strs]:
    [filled] are the elements written so far. *)
Fixpoint copy_strings (array : ptr) (filled : list Value) (strs : list string) : M unit :=
  match strs with
  | [] => ret tt
  | s :: strs =>
      let filled := filled ++ [V_cstring (Some s)] in
      store array 0 (V_array (Some filled));;
      copy_strings array filled strs
  end.

(** [static_cast<std::size_t>(x)] of an [int32_t]. *)
Definition static_cast_size_t (x : Z) : Z := (x mod 2 ^ 64)%Z.

(* ===================================================================== *)
(** * src/env_bridge.cpp *)
(* ===================================================================== *)

Section env_bridge.
Context {flow_core : FlowCore}.

Definition flow_env_create (max_threads : Z) : M ptr :=
  FLOW_API_CALL_HANDLE (
    if (max_threads <=? 0)%Z then
      ErrorManager.set_error FLOW_ERROR_INVALID_ARGUMENT "max_threads must be positive";;
      ret 0%N
    else
      factory <- call make_shared_NodeFactory;;
      let settings := {| MaxThreads := static_cast_size_t max_threads |} in
      env <- call (Env_Create factory settings);;
      let wrapper := {| EnvWrapper_env := env |} in
      create_handle wrapper).

Definition flow_env_destroy (env : ptr) : M unit :=
  FLOW_API_CALL_VOID (
    ok <- validate_handle env "env";;
    if negb ok then ret tt else
    _ <- release_handle env;;
    ret tt).

Definition flow_env_get_factory (env : ptr) : M ptr :=
  FLOW_API_CALL_HANDLE (
    ok <- validate_handle env "env";;
    if negb ok then ret 0%N else
    env_wrapper <- get_handle (T := EnvWrapper) env;;
    match env_wrapper with
    | None =>
        ErrorManager.set_error FLOW_ERROR_INVALID_HANDLE "Invalid environment handle";;
        ret 0%N
    | Some env_wrapper =>
        e <- deref envs (EnvWrapper_env env_wrapper);;
        let factory := env_factory e in
        match factory with
        | None =>
            ErrorManager.set_error FLOW_ERROR_UNKNOWN "Environment has no factory";;
            ret 0%N
        | Some _ =>
            let wrapper := {| NodeFactoryWrapper_factory := factory |} in
            create_handle wrapper
        end
    end).

Definition flow_env_wait (env : ptr) : M FlowError :=
  FLOW_API_CALL (
    ok <- validate_handle env "env";;
    if negb ok then ret FLOW_ERROR_INVALID_HANDLE else
    env_wrapper <- get_handle (T := EnvWrapper) env;;
    match env_wrapper with
    | None =>
        ErrorManager.set_error FLOW_ERROR_INVALID_HANDLE "Invalid environment handle";;
        ret FLOW_ERROR_INVALID_HANDLE
    | Some env_wrapper =>
        e <- arrow envs (EnvWrapper_env env_wrapper);;
        call (Env_Wait e);;
        ret FLOW_SUCCESS
    end).

Definition flow_env_get_var (env : ptr) (name : cstring) : M cstring :=
  FLOW_API_CALL_HANDLE (
    ok <- validate_handle env "env";;
    if negb ok then ret None else
    ok <- validate_string name "name";;
    if negb ok then ret None else
    env_wrapper <- get_handle (T := EnvWrapper) env;;
    match env_wrapper, name with
    | None, _ =>
        ErrorManager.set_error FLOW_ERROR_INVALID_HANDLE "Invalid environment handle";;
        ret None
    | Some _, None => crash
    | Some env_wrapper, Some name =>
        try_catch
          (e <- arrow envs (EnvWrapper_env env_wrapper);;
           value <- call (Env_GetVar e name);;
           ret (Some value))
          (catch_std_exception (λ w,
             ErrorManager.set_error FLOW_ERROR_UNKNOWN
               ("Failed to get environment variable: " +:+ w);;
             ret None))
    end).

End env_bridge.

(* ===================================================================== *)
(** * src/node_bridge.cpp *)
(* ===================================================================== *)

(** Helper function to map flow-core type strings to interworking types. *)
Definition MapTypeToInterworkingType (flow_type : string) : string :=
  if String.eqb flow_type "int" || String.eqb flow_type "int32_t" ||
     String.eqb flow_type "int64_t" || String.eqb flow_type "uint32_t" ||
     String.eqb flow_type "uint64_t" || String.eqb flow_type "size_t" then
    "integer"
  else if String.eqb flow_type "float" || String.eqb flow_type "double" then
    "float"
  else if String.eqb flow_type "bool" then
    "boolean"
  else if String.eqb flow_type "std::string" || String.eqb flow_type "string" ||
          String.eqb flow_type "const char*" then
    "string"
  else
    "none".

(** [data->] for a [SharedNodeData]. *)
Definition arrow_data (data : SharedNodeData) : M NodeData :=
  match data with
  | Some d => ret d
  | None => crash
  end.

Section node_bridge.
Context {flow_core : FlowCore}.

(** Helper function to create interworking JSON for a port.  The handler
    around [ToString] is [catch (...)]: it swallows every exception. *)
Definition CreateInterworkingJson (port : Port) : M string :=
  let j : json := ∅ in
  let data_type := port_data_type port in
  let interworking_type := MapTypeToInterworkingType data_type in
  let j := <["type" := interworking_type]> j in
  (* If port has default data and it's an editable type, include the value *)
  j <- (if negb (String.eqb interworking_type "none") &&
           bool_decide (is_Some (port_data port)) then
          try_catch
            (d <- arrow_data (port_data port);;
             value_str <- lift (NodeData_ToString d);;
             ret (<["value" := value_str]> j))
            (λ _, Some (ret j))
        else ret j);;
  lift (json_dump j).

(* ------------------------------------------------------------------ *)
(** ** Node property access *)

Definition flow_node_get_id (node : ptr) : M cstring :=
  FLOW_API_CALL_HANDLE (
    ok <- validate_handle node "node";;
    if negb ok then ret None else
    node_wrapper <- get_handle (T := NodeWrapper) node;;
    match node_wrapper with
    | None =>
        ErrorManager.set_error FLOW_ERROR_INVALID_HANDLE "Invalid node handle";;
        ret None
    | Some node_wrapper =>
        n <- deref nodes (NodeWrapper_node node_wrapper);;
        let id_str := UUID_string (node_id n) in
        ret (Some id_str)
    end).

Definition flow_node_get_name (node : ptr) : M cstring :=
  FLOW_API_CALL_HANDLE (
    ok <- validate_handle node "node";;
    if negb ok then ret None else
    node_wrapper <- get_handle (T := NodeWrapper) node;;
    match node_wrapper with
    | None =>
        ErrorManager.set_error FLOW_ERROR_INVALID_HANDLE "Invalid node handle";;
        ret None
    | Some node_wrapper =>
        n <- deref nodes (NodeWrapper_node node_wrapper);;
        ret (Some (node_name n))
    end).

Definition flow_node_get_class (node : ptr) : M cstring :=
  FLOW_API_CALL_HANDLE (
    ok <- validate_handle node "node";;
    if negb ok then ret None else
    node_wrapper <- get_handle (T := NodeWrapper) node;;
    match node_wrapper with
    | None =>
        ErrorManager.set_error FLOW_ERROR_INVALID_HANDLE "Invalid node handle";;
        ret None
    | Some node_wrapper =>
        n <- deref nodes (NodeWrapper_node node_wrapper);;
        ret (Some (node_class n))
    end).

Definition flow_node_set_name (node : ptr) (name : cstring) : M FlowError :=
  FLOW_API_CALL (
    ok <- validate_handle node "node";;
    if negb ok then ret FLOW_ERROR_INVALID_HANDLE else
    ok <- validate_string name "name";;
    if negb ok then ret FLOW_ERROR_INVALID_ARGUMENT else
    node_wrapper <- get_handle (T := NodeWrapper) node;;
    match node_wrapper, name with
    | None, _ =>
        ErrorManager.set_error FLOW_ERROR_INVALID_HANDLE "Invalid node handle";;
        ret FLOW_ERROR_INVALID_HANDLE
    | Some _, None => crash
    | Some node_wrapper, Some name =>
        n <- arrow nodes (NodeWrapper_node node_wrapper);;
        call (Node_SetName n name);;
        ret FLOW_SUCCESS
    end).

(* ------------------------------------------------------------------ *)
(** ** Node data operations *)

Definition flow_node_set_input_data (node : ptr) (port_key : cstring) (data : ptr)
    : M FlowError :=
  FLOW_API_CALL (
    ok <- validate_handle node "node";;
    if negb ok then ret FLOW_ERROR_INVALID_HANDLE else
    ok <- validate_string port_key "port_key";;
    if negb ok then ret FLOW_ERROR_INVALID_ARGUMENT else
    ok <- validate_handle data "data";;
    if negb ok then ret FLOW_ERROR_INVALID_HANDLE else
    node_wrapper <- get_handle (T := NodeWrapper) node;;
    match node_wrapper with
    | None =>
        ErrorManager.set_error FLOW_ERROR_INVALID_HANDLE "Invalid node handle";;
        ret FLOW_ERROR_INVALID_HANDLE
    | Some node_wrapper =>
        data_wrapper <- get_handle (T := NodeDataWrapper) data;;
        match data_wrapper, port_key with
        | None, _ =>
            ErrorManager.set_error FLOW_ERROR_INVALID_HANDLE "Invalid data handle";;
            ret FLOW_ERROR_INVALID_HANDLE
        | Some _, None => crash
        | Some data_wrapper, Some port_key =>
            try_catch
              (n <- arrow nodes (NodeWrapper_node node_wrapper);;
               (* Don't auto-compute *)
               call (Node_SetInputData n port_key (NodeDataWrapper_data data_wrapper) false);;
               ret FLOW_SUCCESS)
              (λ e, match e with
                    | std_out_of_range _ =>
                        Some (ErrorManager.set_error FLOW_ERROR_PORT_NOT_FOUND
                                ("Input port not found: " +:+ port_key);;
                              ret FLOW_ERROR_PORT_NOT_FOUND)
                    | json_parse_error w | std_exception w =>
                        Some (ErrorManager.set_error FLOW_ERROR_UNKNOWN
                                ("Failed to set input data: " +:+ w);;
                              ret FLOW_ERROR_UNKNOWN)
                    | non_std_exception => None
                    end)
        end
    end).

(** The two readers of a port's data share their shape; [GetData] is
    [GetInputData] or [GetOutputData], [which] the word of the messages. *)
Definition flow_node_get_data_ (GetData : Node → string → M SharedNodeData)
    (Which which : string) (node : ptr) (port_key : cstring) : M ptr :=
  FLOW_API_CALL_HANDLE (
    ok <- validate_handle node "node";;
    if negb ok then ret 0%N else
    ok <- validate_string port_key "port_key";;
    if negb ok then ret 0%N else
    node_wrapper <- get_handle (T := NodeWrapper) node;;
    match node_wrapper, port_key with
    | None, _ =>
        ErrorManager.set_error FLOW_ERROR_INVALID_HANDLE "Invalid node handle";;
        ret 0%N
    | Some _, None => crash
    | Some node_wrapper, Some port_key =>
        try_catch
          (n <- deref nodes (NodeWrapper_node node_wrapper);;
           data <- GetData n port_key;;
           match data with
           | None => ret 0%N (* No data in port *)
           | Some _ =>
               let wrapper := {| NodeDataWrapper_data := data |} in
               create_handle wrapper
           end)
          (λ e, match e with
                | std_out_of_range _ =>
                    Some (ErrorManager.set_error FLOW_ERROR_PORT_NOT_FOUND
                            (Which +:+ " port not found: " +:+ port_key);;
                          ret 0%N)
                | json_parse_error w | std_exception w =>
                    Some (ErrorManager.set_error FLOW_ERROR_UNKNOWN
                            ("Failed to get " +:+ which +:+ " data: " +:+ w);;
                          ret 0%N)
                | non_std_exception => None
                end)
    end).

Definition flow_node_get_input_data : ptr → cstring → M ptr :=
  flow_node_get_data_ GetInputData "Input" "input".

Definition flow_node_get_output_data : ptr → cstring → M ptr :=
  flow_node_get_data_ GetOutputData "Output" "output".

(** The two clearing functions share their shape; [SetData] is
    [Node_SetInputData] or [Node_SetOutputData]. *)
Definition flow_node_clear_data_
    (SetData : N → string → SharedNodeData → bool → EngineProc unit)
    (Which which : string) (node : ptr) (port_key : cstring) : M FlowError :=
  FLOW_API_CALL (
    ok <- validate_handle node "node";;
    if negb ok then ret FLOW_ERROR_INVALID_HANDLE else
    ok <- validate_string port_key "port_key";;
    if negb ok then ret FLOW_ERROR_INVALID_ARGUMENT else
    node_wrapper <- get_handle (T := NodeWrapper) node;;
    match node_wrapper, port_key with
    | None, _ =>
        ErrorManager.set_error FLOW_ERROR_INVALID_HANDLE "Invalid node handle";;
        ret FLOW_ERROR_INVALID_HANDLE
    | Some _, None => crash
    | Some node_wrapper, Some port_key =>
        try_catch
          (n <- arrow nodes (NodeWrapper_node node_wrapper);;
           (* Clear with null data *)
           call (SetData n port_key None false);;
           ret FLOW_SUCCESS)
          (λ e, match e with
                | std_out_of_range _ =>
                    Some (ErrorManager.set_error FLOW_ERROR_PORT_NOT_FOUND
                            (Which +:+ " port not found: " +:+ port_key);;
                          ret FLOW_ERROR_PORT_NOT_FOUND)
                | json_parse_error w | std_exception w =>
                    Some (ErrorManager.set_error FLOW_ERROR_UNKNOWN
                            ("Failed to clear " +:+ which +:+ " data: " +:+ w);;
                          ret FLOW_ERROR_UNKNOWN)
                | non_std_exception => None
                end)
    end).

Definition flow_node_clear_input_data : ptr → cstring → M FlowError :=
  flow_node_clear_data_ Node_SetInputData "Input" "input".

Definition flow_node_clear_output_data : ptr → cstring → M FlowError :=
  flow_node_clear_data_ Node_SetOutputData "Output" "output".

(* ------------------------------------------------------------------ *)
(** ** Node computation *)

Definition flow_node_invoke_compute (node : ptr) : M FlowError :=
  FLOW_API_CALL (
    ok <- validate_handle node "node";;
    if negb ok then ret FLOW_ERROR_INVALID_HANDLE else
    node_wrapper <- get_handle (T := NodeWrapper) node;;
    match node_wrapper with
    | None =>
        ErrorManager.set_error FLOW_ERROR_INVALID_HANDLE "Invalid node handle";;
        ret FLOW_ERROR_INVALID_HANDLE
    | Some node_wrapper =>
        try_catch
          (n <- arrow nodes (NodeWrapper_node node_wrapper);;
           call (Node_InvokeCompute n);;
           ret FLOW_SUCCESS)
          (catch_std_exception (λ w,
             ErrorManager.set_error FLOW_ERROR_COMPUTATION_FAILED
               ("Node computation failed: " +:+ w);;
             ret FLOW_ERROR_COMPUTATION_FAILED))
    end).

(** The loop of [flow_node_validate_required_inputs] over the input ports:
    it returns [false] at the first port without data. *)
Fixpoint validate_required_inputs_loop (n : Node) (input_ports : list (string * Port))
    : M bool :=
  match input_ports with
  | [] => ret true
  | (k, port) :: input_ports =>
      returned <-
        try_catch
          (data <- GetInputData n k;;
           match data with
           | None => ret (Some false) (* Missing required input *)
           | Some _ => ret None
           end)
          (λ e, match e with
                | std_out_of_range _ => Some (ret (Some false))
                | _ => None
                end);;
      match returned with
      | Some b => ret b
      | None => validate_required_inputs_loop n input_ports
      end
  end.

Definition flow_node_validate_required_inputs (node : ptr) : M bool :=
  ok <- validate_handle node "node";;
  if negb ok then ret false else
  node_wrapper <- get_handle (T := NodeWrapper) node;;
  match node_wrapper with
  | None =>
      ErrorManager.set_error FLOW_ERROR_INVALID_HANDLE "Invalid node handle";;
      ret false
  | Some node_wrapper =>
      try_catch
        (n <- deref nodes (NodeWrapper_node node_wrapper);;
         (* Check if all input ports have data *)
         let input_ports := GetInputPorts n in
         validate_required_inputs_loop n input_ports)
        (catch_std_exception (λ w,
           ErrorManager.set_error FLOW_ERROR_UNKNOWN ("Failed to validate inputs: " +:+ w);;
           ret false))
  end.

(* ------------------------------------------------------------------ *)
(** ** Node connection status *)

(** The loop of [flow_node_has_connected_inputs] and of its output twin:
    it returns [true] at the first port with data. *)
Fixpoint has_connected_loop (GetData : Node → string → M SharedNodeData) (n : Node)
    (ports : list (string * Port)) : M bool :=
  match ports with
  | [] => ret false
  | (k, port) :: ports =>
      returned <-
        try_catch
          (data <- GetData n k;;
           match data with
           | Some _ => ret (Some true)
           | None => ret None
           end)
          (λ e, match e with
                | std_out_of_range _ => Some (ret None)
                | _ => None
                end);;
      match returned with
      | Some b => ret b
      | None => has_connected_loop GetData n ports
      end
  end.

Definition flow_node_has_connected_ (GetPorts : Node → list (string * Port))
    (GetData : Node → string → M SharedNodeData) (which : string) (node : ptr) : M bool :=
  ok <- validate_handle node "node";;
  if negb ok then ret false else
  node_wrapper <- get_handle (T := NodeWrapper) node;;
  match node_wrapper with
  | None =>
      ErrorManager.set_error FLOW_ERROR_INVALID_HANDLE "Invalid node handle";;
      ret false
  | Some node_wrapper =>
      try_catch
        (n <- deref nodes (NodeWrapper_node node_wrapper);;
         let ports := GetPorts n in
         has_connected_loop GetData n ports)
        (catch_std_exception (λ w,
           ErrorManager.set_error FLOW_ERROR_UNKNOWN
             ("Failed to check " +:+ which +:+ " connections: " +:+ w);;
           ret false))
  end.

Definition flow_node_has_connected_inputs : ptr → M bool :=
  flow_node_has_connected_ GetInputPorts GetInputData "input".

Definition flow_node_has_connected_outputs : ptr → M bool :=
  flow_node_has_connected_ GetOutputPorts GetOutputData "output".

(* ------------------------------------------------------------------ *)
(** ** Node serialization *)

Definition flow_node_save_to_json (node : ptr) : M cstring :=
  FLOW_API_CALL_HANDLE (
    ok <- validate_handle node "node";;
    if negb ok then ret None else
    node_wrapper <- get_handle (T := NodeWrapper) node;;
    match node_wrapper with
    | None =>
        ErrorManager.set_error FLOW_ERROR_INVALID_HANDLE "Invalid node handle";;
        ret None
    | Some node_wrapper =>
        try_catch
          (n <- arrow nodes (NodeWrapper_node node_wrapper);;
           j <- call (Node_Save n);;
           json_str <- lift (json_document_dump j None);;
           ret (Some json_str))
          (catch_std_exception (λ w,
             ErrorManager.set_error FLOW_ERROR_UNKNOWN
               ("Failed to serialize node: " +:+ w);;
             ret None))
    end).

Definition flow_node_load_from_json (node : ptr) (json_str : cstring) : M FlowError :=
  FLOW_API_CALL (
    ok <- validate_handle node "node";;
    if negb ok then ret FLOW_ERROR_INVALID_HANDLE else
    ok <- validate_string json_str "json_str";;
    if negb ok then ret FLOW_ERROR_INVALID_ARGUMENT else
    node_wrapper <- get_handle (T := NodeWrapper) node;;
    match node_wrapper, json_str with
    | None, _ =>
        ErrorManager.set_error FLOW_ERROR_INVALID_HANDLE "Invalid node handle";;
        ret FLOW_ERROR_INVALID_HANDLE
    | Some _, None => crash
    | Some node_wrapper, Some json_str =>
        try_catch
          (j <- lift (json_parse json_str);;
           n <- arrow nodes (NodeWrapper_node node_wrapper);;
           call (Node_Restore n j);;
           ret FLOW_SUCCESS)
          (λ e, match e with
                | json_parse_error w =>
                    Some (ErrorManager.set_error FLOW_ERROR_INVALID_ARGUMENT
                            ("JSON parse error: " +:+ w);;
                          ret FLOW_ERROR_INVALID_ARGUMENT)
                | std_out_of_range w | std_exception w =>
                    Some (ErrorManager.set_error FLOW_ERROR_UNKNOWN
                            ("Failed to deserialize node: " +:+ w);;
                          ret FLOW_ERROR_UNKNOWN)
                | non_std_exception => None
                end)
    end).

(* ------------------------------------------------------------------ *)
(** ** Port introspection *)

(** The two key queries share their shape; [GetPorts] is [GetInputPorts]
    or [GetOutputPorts]. *)
Definition flow_node_get_port_keys_ (GetPorts : Node → list (string * Port))
    (which : string) (node port_keys count : ptr) : M FlowError :=
  FLOW_API_CALL (
    ok <- validate_handle node "node";;
    ok <- (if ok then validate_pointer port_keys "port_keys" else ret false);;
    ok <- (if ok then validate_pointer count "count" else ret false);;
    if negb ok then ret FLOW_ERROR_INVALID_ARGUMENT else
    node_wrapper <- get_handle (T := NodeWrapper) node;;
    match node_wrapper with
    | None =>
        ErrorManager.set_error FLOW_ERROR_INVALID_HANDLE "Invalid node handle";;
        ret FLOW_ERROR_INVALID_HANDLE
    | Some node_wrapper =>
        try_catch
          (n <- deref nodes (NodeWrapper_node node_wrapper);;
           let ports := GetPorts n in
           store count 0 (V_size (length ports));;
           if bool_decide (length ports = 0) then
             store port_keys 0 (V_array None);;
             ret FLOW_SUCCESS
           else
             (* Allocate array of char* pointers *)
             store port_keys 0 (V_array (Some []));;
             copy_strings port_keys [] ports.*1;;
             ret FLOW_SUCCESS)
          (catch_std_exception (λ w,
             ErrorManager.set_error FLOW_ERROR_UNKNOWN
               ("Failed to get " +:+ which +:+ " port keys: " +:+ w);;
             ret FLOW_ERROR_UNKNOWN))
    end).

Definition flow_node_get_input_port_keys : ptr → ptr → ptr → M FlowError :=
  flow_node_get_port_keys_ GetInputPorts "input".

Definition flow_node_get_output_port_keys : ptr → ptr → ptr → M FlowError :=
  flow_node_get_port_keys_ GetOutputPorts "output".

(* ------------------------------------------------------------------ *)
(** ** Port type and description *)

(** [port->]: a null [SharedPort] must not be dereferenced. *)
Definition arrow_port (port : option Port) : M Port :=
  match port with
  | Some p => ret p
  | None => crash
  end.

(** The two type queries share their shape; [GetPort] is [GetInputPort] or
    [GetOutputPort].  The null test on [port_key] is [validate_pointer]'s,
    whose message is that of [validate_string]. *)
Definition flow_node_get_port_type_ (GetPort : Node → string → M (option Port))
    (which : string) (node : ptr) (port_key : cstring) : M cstring :=
  FLOW_API_CALL_HANDLE (
    ok <- validate_handle node "node";;
    ok <- (if ok then validate_string port_key "port_key" else ret false);;
    if negb ok then ret None else
    node_wrapper <- get_handle (T := NodeWrapper) node;;
    match node_wrapper, port_key with
    | None, _ =>
        ErrorManager.set_error FLOW_ERROR_INVALID_HANDLE "Invalid node handle";;
        ret None
    | Some _, None => crash
    | Some node_wrapper, Some port_key =>
        try_catch
          (n <- deref nodes (NodeWrapper_node node_wrapper);;
           port <- GetPort n port_key;;
           port <- arrow_port port;;
           let type_str := port_data_type port in
           ErrorManager.clear_error;;
           ret (Some type_str))
          (catch_std_exception (λ w,
             ErrorManager.set_error FLOW_ERROR_PORT_NOT_FOUND
               ("Failed to get " +:+ which +:+ " port type: " +:+ w);;
             ret None))
    end).

Definition flow_node_get_input_port_type : ptr → cstring → M cstring :=
  flow_node_get_port_type_ GetInputPort "input".

Definition flow_node_get_output_port_type : ptr → cstring → M cstring :=
  flow_node_get_port_type_ GetOutputPort "output".

Definition flow_node_get_port_description (node : ptr) (port_key : cstring)
    (is_input_port : bool) : M cstring :=
  FLOW_API_CALL_HANDLE (
    ok <- validate_handle node "node";;
    ok <- (if ok then validate_string port_key "port_key" else ret false);;
    if negb ok then ret None else
    node_wrapper <- get_handle (T := NodeWrapper) node;;
    match node_wrapper, port_key with
    | None, _ =>
        ErrorManager.set_error FLOW_ERROR_INVALID_HANDLE "Invalid node handle";;
        ret None
    | Some _, None => crash
    | Some node_wrapper, Some port_key =>
        try_catch
          (n <- deref nodes (NodeWrapper_node node_wrapper);;
           caption_str <-
             (if is_input_port then
                input_port <- GetInputPort n port_key;;
                input_port <- arrow_port input_port;;
                ret (port_caption input_port)
              else
                output_port <- GetOutputPort n port_key;;
                output_port <- arrow_port output_port;;
                ret (port_caption output_port));;
           ErrorManager.clear_error;;
           ret (Some caption_str))
          (catch_std_exception (λ w,
             ErrorManager.set_error FLOW_ERROR_PORT_NOT_FOUND
               ("Failed to get port description: " +:+ w);;
             ret None))
    end).

(* ------------------------------------------------------------------ *)
(** ** Port metadata *)

(** The fields of a [FlowPortMetadata] in caller memory, by index:
    [key], [interworking_value_json], [has_default]. *)
Definition field_key : nat := 0.
Definition field_interworking_value_json : nat := 1.
Definition field_has_default : nat := 2.

(** The lookup of [flow_node_get_port_metadata]: the input port first, the
    output port when there is no such input port.  [inl err] is the early
    return of the innermost handler. *)
Definition lookup_port (n : Node) (port_key : string) : M (FlowError + option Port) :=
  try_catch
    (port <- GetInputPort n port_key;;
     ret (inr port))
    (λ e, match e with
          | std_out_of_range _ =>
              (* Not an input port, try output *)
              Some (try_catch
                      (port <- GetOutputPort n port_key;;
                       ret (inr port))
                      (λ e, match e with
                            | std_out_of_range _ =>
                                Some (ErrorManager.set_error FLOW_ERROR_PORT_NOT_FOUND
                                        ("Port not found: " +:+ port_key);;
                                      ret (inl FLOW_ERROR_PORT_NOT_FOUND))
                            | _ => None
                            end))
          | _ => None
          end).

Definition flow_node_get_port_metadata (node : ptr) (port_key : cstring) (metadata : ptr)
    : M FlowError :=
  FLOW_API_CALL (
    ok <- validate_handle node "node";;
    if negb ok then ret FLOW_ERROR_INVALID_HANDLE else
    ok <- validate_string port_key "port_key";;
    if negb ok then ret FLOW_ERROR_INVALID_ARGUMENT else
    ok <- validate_pointer metadata "metadata";;
    if negb ok then ret FLOW_ERROR_INVALID_ARGUMENT else
    node_wrapper <- get_handle (T := NodeWrapper) node;;
    match node_wrapper, port_key with
    | None, _ =>
        ErrorManager.set_error FLOW_ERROR_INVALID_HANDLE "Invalid node handle";;
        ret FLOW_ERROR_INVALID_HANDLE
    | Some _, None => crash
    | Some node_wrapper, Some port_key =>
        try_catch
          (n <- deref nodes (NodeWrapper_node node_wrapper);;
           (* Try to get input port first *)
           found <- lookup_port n port_key;;
           match found with
           | inl err => ret err
           | inr None =>
               ErrorManager.set_error FLOW_ERROR_PORT_NOT_FOUND
                 ("Port not found: " +:+ port_key);;
               ret FLOW_ERROR_PORT_NOT_FOUND
           | inr (Some port) =>
               (* Allocate and copy the port key *)
               store metadata field_key (V_cstring (Some port_key));;
               (* Create interworking JSON *)
               json_str <- CreateInterworkingJson port;;
               store metadata field_interworking_value_json (V_cstring (Some json_str));;
               (* Check if port has default data *)
               store metadata field_has_default
                 (V_bool (bool_decide (is_Some (port_data port))));;
               ret FLOW_SUCCESS
           end)
          (catch_std_exception (λ w,
             ErrorManager.set_error FLOW_ERROR_UNKNOWN
               ("Failed to get port metadata: " +:+ w);;
             ret FLOW_ERROR_UNKNOWN))
    end).

(** The loop of [flow_node_get_input_ports_metadata]: it fills the new
    array one record at a time, and each record one field at a time. *)
Fixpoint ports_metadata_loop (metadata_array : ptr) (filled : list Value)
    (input_ports : list (string * Port)) : M unit :=
  match input_ports with
  | [] => ret tt
  | (key, port) :: input_ports =>
      (* Allocate and copy the port key *)
      let key_copy := V_cstring (Some key) in
      store metadata_array 0 (V_array (Some (filled ++ [V_struct [key_copy]])));;
      (* Create interworking JSON *)
      json_str <- CreateInterworkingJson port;;
      let json_copy := V_cstring (Some json_str) in
      store metadata_array 0 (V_array (Some (filled ++ [V_struct [key_copy; json_copy]])));;
      (* Check if port has default data *)
      let has_default := V_bool (bool_decide (is_Some (port_data port))) in
      let filled := filled ++ [V_struct [key_copy; json_copy; has_default]] in
      store metadata_array 0 (V_array (Some filled));;
      ports_metadata_loop metadata_array filled input_ports
  end.

Definition flow_node_get_input_ports_metadata (node metadata_array count : ptr)
    : M FlowError :=
  FLOW_API_CALL (
    ok <- validate_handle node "node";;
    if negb ok then ret FLOW_ERROR_INVALID_HANDLE else
    ok <- validate_pointer metadata_array "metadata_array";;
    if negb ok then ret FLOW_ERROR_INVALID_ARGUMENT else
    ok <- validate_pointer count "count";;
    if negb ok then ret FLOW_ERROR_INVALID_ARGUMENT else
    node_wrapper <- get_handle (T := NodeWrapper) node;;
    match node_wrapper with
    | None =>
        ErrorManager.set_error FLOW_ERROR_INVALID_HANDLE "Invalid node handle";;
        ret FLOW_ERROR_INVALID_HANDLE
    | Some node_wrapper =>
        try_catch
          (n <- deref nodes (NodeWrapper_node node_wrapper);;
           let input_ports := GetInputPorts n in
           store count 0 (V_size (length input_ports));;
           if bool_decide (length input_ports = 0) then
             store metadata_array 0 (V_array None);;
             ret FLOW_SUCCESS
           else
             (* Allocate array of metadata structures *)
             store metadata_array 0 (V_array (Some []));;
             ports_metadata_loop metadata_array [] input_ports;;
             ret FLOW_SUCCESS)
          (catch_std_exception (λ w,
             ErrorManager.set_error FLOW_ERROR_UNKNOWN
               ("Failed to get input ports metadata: " +:+ w);;
             ret FLOW_ERROR_UNKNOWN))
    end).

End node_bridge.

(* ===================================================================== *)
(** * src/graph_bridge.cpp *)
(* ===================================================================== *)

Section graph_bridge.
Context {flow_core : FlowCore}.

(** [graph_ptr] after the test [!graph_ptr || !*graph_ptr]: the address of
    the graph, or [None] when the test fails. *)
Definition checked_graph (graph_ptr : option shared_ptr_Graph) : shared_ptr :=
  match graph_ptr with
  | None => None
  | Some graph_ptr => get_Graph graph_ptr
  end.

Definition flow_graph_create (env : ptr) : M ptr :=
  FLOW_API_CALL_HANDLE (
    ok <- validate_handle env "env";;
    if negb ok then ret 0%N else
    env_wrapper <- get_handle (T := EnvWrapper) env;;
    match env_wrapper with
    | None =>
        ErrorManager.set_error FLOW_ERROR_INVALID_HANDLE
          "Failed to get EnvWrapper from handle";;
        ret 0%N
    | Some env_wrapper =>
        match EnvWrapper_env env_wrapper with
        | None =>
            ErrorManager.set_error FLOW_ERROR_INVALID_HANDLE
              "EnvWrapper has null env pointer";;
            ret 0%N
        | Some _ =>
            graph <- call (make_shared_Graph "Default Graph" (EnvWrapper_env env_wrapper));;
            handle <- create_handle {| get_Graph := graph |};;
            ErrorManager.clear_error;;
            ret handle
        end
    end).

Definition flow_graph_destroy (graph : ptr) : M unit :=
  FLOW_API_CALL_VOID (
    ok <- validate_handle graph "graph";;
    if negb ok then ret tt else
    _ <- release_handle graph;;
    ErrorManager.clear_error;;
    ret tt).

Definition flow_graph_add_node (graph : ptr) (class_id name : cstring) : M ptr :=
  FLOW_API_CALL_HANDLE (
    ok <- validate_handle graph "graph";;
    ok <- (if ok then validate_string class_id "class_id" else ret false);;
    ok <- (if ok then validate_string name "name" else ret false);;
    if negb ok then ret 0%N else
    graph_ptr <- get_handle (T := shared_ptr_Graph) graph;;
    match checked_graph graph_ptr, class_id, name with
    | None, _, _ =>
        ErrorManager.set_error FLOW_ERROR_INVALID_HANDLE "Failed to get graph from handle";;
        ret 0%N
    | Some _, None, _ | Some _, _, None => crash
    | Some g, Some class_id, Some name =>
        (* Get the node factory from the graph's environment *)
        gr <- deref graphs (Some g);;
        e <- deref envs (graph_env gr);;
        let factory := env_factory e in
        match factory with
        | None =>
            ErrorManager.set_error FLOW_ERROR_INVALID_HANDLE
              "Failed to get node factory from environment";;
            ret 0%N
        | Some _ =>
            (* Step 1: Create the node using the factory *)
            f <- arrow factories factory;;
            uuid <- call UUID_generate;;
            node <- call (Factory_CreateNode f class_id uuid name (graph_env gr));;
            match node with
            | None =>
                ErrorManager.set_error FLOW_ERROR_NODE_NOT_FOUND
                  ("Failed to create node of class: " +:+ class_id);;
                ret 0%N
            | Some _ =>
                (* Step 2: Add the pre-created node to the graph *)
                g <- arrow graphs (Some g);;
                call (Graph_AddNode g node);;
                (* Verify node was added successfully *)
                n <- deref nodes node;;
                gr <- deref graphs (Some g);;
                let verifyNode := GetNode gr (node_id n) in
                match verifyNode with
                | None =>
                    ErrorManager.set_error FLOW_ERROR_NODE_NOT_FOUND
                      "Node was not properly added to graph";;
                    ret 0%N
                | Some _ =>
                    let wrapper := {| NodeWrapper_node := node |} in
                    ErrorManager.clear_error;;
                    create_handle wrapper
                end
            end
        end
    end).

Definition flow_graph_remove_node (graph : ptr) (node_id : cstring) : M FlowError :=
  FLOW_API_CALL (
    ok <- validate_handle graph "graph";;
    ok <- (if ok then validate_string node_id "node_id" else ret false);;
    if negb ok then ret FLOW_ERROR_INVALID_ARGUMENT else
    graph_ptr <- get_handle (T := shared_ptr_Graph) graph;;
    match checked_graph graph_ptr, node_id with
    | None, _ =>
        ErrorManager.set_error FLOW_ERROR_INVALID_HANDLE "Failed to get graph from handle";;
        ret FLOW_ERROR_INVALID_HANDLE
    | Some _, None => crash
    | Some g, Some node_id =>
        (* Parse UUID from string *)
        parsed <- try_catch
                    (uuid <- lift (UUID_parse node_id);;
                     ret (inr uuid))
                    (catch_std_exception (λ w,
                       ErrorManager.set_error FLOW_ERROR_INVALID_ARGUMENT
                         ("Invalid UUID format: " +:+ w);;
                       ret (inl FLOW_ERROR_INVALID_ARGUMENT)));;
        match parsed with
        | inl err => ret err
        | inr uuid =>
            (* Remove node from graph *)
            g <- arrow graphs (Some g);;
            call (Graph_RemoveNodeByID g uuid);;
            ErrorManager.clear_error;;
            ret FLOW_SUCCESS
        end
    end).

Definition flow_graph_get_node (graph : ptr) (node_id : cstring) : M ptr :=
  FLOW_API_CALL_HANDLE (
    ok <- validate_handle graph "graph";;
    ok <- (if ok then validate_string node_id "node_id" else ret false);;
    if negb ok then ret 0%N else
    graph_ptr <- get_handle (T := shared_ptr_Graph) graph;;
    match checked_graph graph_ptr, node_id with
    | None, _ =>
        ErrorManager.set_error FLOW_ERROR_INVALID_HANDLE "Failed to get graph from handle";;
        ret 0%N
    | Some _, None => crash
    | Some g, Some node_id =>
        (* Parse UUID from string *)
        parsed <- try_catch
                    (uuid <- lift (UUID_parse node_id);;
                     ret (Some uuid))
                    (catch_std_exception (λ w,
                       ErrorManager.set_error FLOW_ERROR_INVALID_ARGUMENT
                         ("Invalid UUID format: " +:+ w);;
                       ret None));;
        match parsed with
        | None => ret 0%N
        | Some uuid =>
            (* Get node from graph *)
            g <- deref graphs (Some g);;
            let node := GetNode g uuid in
            match node with
            | None =>
                ErrorManager.set_error FLOW_ERROR_NODE_NOT_FOUND
                  ("Node not found with ID: " +:+ node_id);;
                ret 0%N
            | Some _ =>
                let wrapper := {| NodeWrapper_node := node |} in
                handle <- create_handle wrapper;;
                ErrorManager.clear_error;;
                ret handle
            end
        end
    end).

(** The loop of [flow_graph_get_nodes]: a new handle for each node of the
    graph, written to the new array; [filled] are the elements written so
    far. *)
Fixpoint get_nodes_loop (array : ptr) (filled : list Value) (node_map : list (UUID * N))
    : M unit :=
  match node_map with
  | [] => ret tt
  | (uuid, node) :: node_map =>
      let wrapper := {| NodeWrapper_node := Some node |} in
      handle <- create_handle wrapper;;
      let filled := filled ++ [V_handle handle] in
      store array 0 (V_array (Some filled));;
      get_nodes_loop array filled node_map
  end.

Definition flow_graph_get_nodes (graph nodes count : ptr) : M FlowError :=
  FLOW_API_CALL (
    ok <- validate_handle graph "graph";;
    ok <- (if ok then validate_pointer nodes "nodes" else ret false);;
    ok <- (if ok then validate_pointer count "count" else ret false);;
    if negb ok then ret FLOW_ERROR_INVALID_ARGUMENT else
    graph_ptr <- get_handle (T := shared_ptr_Graph) graph;;
    match checked_graph graph_ptr with
    | None =>
        ErrorManager.set_error FLOW_ERROR_INVALID_HANDLE "Failed to get graph from handle";;
        ret FLOW_ERROR_INVALID_HANDLE
    | Some g =>
        gr <- deref graphs (Some g);;
        let node_map := GetNodes gr in
        store count 0 (V_size (length node_map));;
        if bool_decide (length node_map = 0) then
          store nodes 0 (V_array None);;
          ErrorManager.clear_error;;
          ret FLOW_SUCCESS
        else
          (* Allocate array for node handles *)
          store nodes 0 (V_array (Some []));;
          get_nodes_loop nodes [] node_map;;
          ErrorManager.clear_error;;
          ret FLOW_SUCCESS
    end).

(** [flow_graph_connect_nodes] spells out the body of [FLOW_API_CALL_HANDLE]:
    an [ErrorSetter], the [try] and the two handlers. *)
Definition flow_graph_connect_nodes (graph : ptr)
    (source_id source_port target_id target_port : cstring) : M ptr :=
  FLOW_API_CALL_HANDLE (
    ok <- validate_handle graph "graph";;
    ok <- (if ok then validate_string source_id "source_id" else ret false);;
    ok <- (if ok then validate_string source_port "source_port" else ret false);;
    ok <- (if ok then validate_string target_id "target_id" else ret false);;
    ok <- (if ok then validate_string target_port "target_port" else ret false);;
    if negb ok then ret 0%N else
    graph_ptr <- get_handle (T := shared_ptr_Graph) graph;;
    match checked_graph graph_ptr, source_id, source_port, target_id, target_port with
    | None, _, _, _, _ =>
        ErrorManager.set_error FLOW_ERROR_INVALID_HANDLE "Failed to get graph from handle";;
        ret 0%N
    | Some g, Some source_id, Some source_port, Some target_id, Some target_port =>
        (* Parse UUIDs from strings *)
        parsed <- try_catch
                    (source_uuid <- lift (UUID_parse source_id);;
                     target_uuid <- lift (UUID_parse target_id);;
                     ret (Some (source_uuid, target_uuid)))
                    (catch_std_exception (λ w,
                       ErrorManager.set_error FLOW_ERROR_INVALID_ARGUMENT
                         ("Invalid UUID format: " +:+ w);;
                       ret None));;
        match parsed with
        | None => ret 0%N
        | Some (source_uuid, target_uuid) =>
            (* Create connection *)
            g <- arrow graphs (Some g);;
            connection <- call (Graph_ConnectNodes g source_uuid source_port
                                  target_uuid target_port);;
            match connection with
            | None =>
                ErrorManager.set_error FLOW_ERROR_CONNECTION_FAILED
                  "Failed to create connection between nodes";;
                ret 0%N
            | Some _ =>
                (* Create handle for the connection *)
                handle <- create_handle (T := option Connection) connection;;
                ErrorManager.clear_error;;
                ret handle
            end
        end
    | Some _, _, _, _, _ => crash
    end).

(** The search of [flow_graph_disconnect_nodes]: the first connection of
    the graph with the given id. *)
Fixpoint find_connection (connections : list (UUID * Connection)) (conn_uuid : UUID)
    : SharedConnection :=
  match connections with
  | [] => None
  | (node_uuid, conn) :: connections =>
      if bool_decide (conn_id conn = conn_uuid) then Some conn
      else find_connection connections conn_uuid
  end.

Definition flow_graph_disconnect_nodes (graph : ptr) (connection_id : cstring)
    : M FlowError :=
  FLOW_API_CALL (
    ok <- validate_handle graph "graph";;
    ok <- (if ok then validate_string connection_id "connection_id" else ret false);;
    if negb ok then ret FLOW_ERROR_INVALID_ARGUMENT else
    graph_ptr <- get_handle (T := shared_ptr_Graph) graph;;
    match checked_graph graph_ptr, connection_id with
    | None, _ =>
        ErrorManager.set_error FLOW_ERROR_INVALID_HANDLE "Failed to get graph from handle";;
        ret FLOW_ERROR_INVALID_HANDLE
    | Some _, None => crash
    | Some g, Some connection_id =>
        (* Parse connection UUID from string *)
        parsed <- try_catch
                    (uuid <- lift (UUID_parse connection_id);;
                     ret (inr uuid))
                    (catch_std_exception (λ w,
                       ErrorManager.set_error FLOW_ERROR_INVALID_ARGUMENT
                         ("Invalid UUID format: " +:+ w);;
                       ret (inl FLOW_ERROR_INVALID_ARGUMENT)));;
        match parsed with
        | inl err => ret err
        | inr conn_uuid =>
            (* Find the connection in the graph by iterating through all connections *)
            gr <- deref graphs (Some g);;
            let connections := GetConnections gr in
            let connection := find_connection connections conn_uuid in
            match connection with
            | None =>
                ErrorManager.set_error FLOW_ERROR_CONNECTION_FAILED
                  ("Connection not found with ID: " +:+ connection_id);;
                ret FLOW_ERROR_CONNECTION_FAILED
            | Some connection =>
                (* Disconnect using the connection details *)
                call (Graph_DisconnectNodes g
                        (conn_start_node connection) (conn_start_port connection)
                        (conn_end_node connection) (conn_end_port connection));;
                ErrorManager.clear_error;;
                ret FLOW_SUCCESS
            end
        end
    end).

Definition flow_graph_run (graph : ptr) : M FlowError :=
  FLOW_API_CALL (
    ok <- validate_handle graph "graph";;
    if negb ok then ret FLOW_ERROR_INVALID_ARGUMENT else
    graph_ptr <- get_handle (T := shared_ptr_Graph) graph;;
    match checked_graph graph_ptr with
    | None =>
        ErrorManager.set_error FLOW_ERROR_INVALID_HANDLE "Failed to get graph from handle";;
        ret FLOW_ERROR_INVALID_HANDLE
    | Some g =>
        (* Run the graph *)
        g <- arrow graphs (Some g);;
        call (Graph_Run g);;
        ErrorManager.clear_error;;
        ret FLOW_SUCCESS
    end).

Definition flow_graph_clear (graph : ptr) : M FlowError :=
  FLOW_API_CALL (
    ok <- validate_handle graph "graph";;
    if negb ok then ret FLOW_ERROR_INVALID_ARGUMENT else
    graph_ptr <- get_handle (T := shared_ptr_Graph) graph;;
    match checked_graph graph_ptr with
    | None =>
        ErrorManager.set_error FLOW_ERROR_INVALID_HANDLE "Failed to get graph from handle";;
        ret FLOW_ERROR_INVALID_HANDLE
    | Some g =>
        (* Clear all nodes and connections *)
        g <- arrow graphs (Some g);;
        call (Graph_Clear g);;
        ErrorManager.clear_error;;
        ret FLOW_SUCCESS
    end).

Definition flow_graph_save_to_json (graph : ptr) : M cstring :=
  FLOW_API_CALL_HANDLE (
    ok <- validate_handle graph "graph";;
    if negb ok then ret None else
    graph_ptr <- get_handle (T := shared_ptr_Graph) graph;;
    match checked_graph graph_ptr with
    | None =>
        ErrorManager.set_error FLOW_ERROR_INVALID_HANDLE "Failed to get graph from handle";;
        ret None
    | Some g =>
        (* Serialize graph to JSON *)
        g <- arrow graphs (Some g);;
        j <- call (Graph_to_json g);;
        json_str <- lift (json_document_dump j (Some 2));;
        ErrorManager.clear_error;;
        ret (Some json_str)
    end).

Definition flow_graph_load_from_json (graph : ptr) (json_str : cstring) : M FlowError :=
  FLOW_API_CALL (
    ok <- validate_handle graph "graph";;
    ok <- (if ok then validate_string json_str "json_str" else ret false);;
    if negb ok then ret FLOW_ERROR_INVALID_ARGUMENT else
    graph_ptr <- get_handle (T := shared_ptr_Graph) graph;;
    match checked_graph graph_ptr, json_str with
    | None, _ =>
        ErrorManager.set_error FLOW_ERROR_INVALID_HANDLE "Failed to get graph from handle";;
        ret FLOW_ERROR_INVALID_HANDLE
    | Some _, None => crash
    | Some g, Some json_str =>
        loaded <- try_catch
                    ((* Parse JSON and restore graph state *)
                     j <- lift (json_parse json_str);;
                     g <- arrow graphs (Some g);;
                     call (Graph_from_json g j);;
                     ret true)
                    (catch_std_exception (λ w,
                       ErrorManager.set_error FLOW_ERROR_INVALID_ARGUMENT
                         ("JSON parsing failed: " +:+ w);;
                       ret false));;
        if negb loaded then ret FLOW_ERROR_INVALID_ARGUMENT else
        ErrorManager.clear_error;;
        ret FLOW_SUCCESS
    end).

(** The record [FlowConnectionInfo] of a connection: [id],
    [source_node_id], [source_port_key], [target_node_id],
    [target_port_key]. *)
Definition connection_info (conn : Connection) : Value :=
  let id_str := UUID_string (conn_id conn) in
  let start_id_str := UUID_string (conn_start_node conn) in
  let end_id_str := UUID_string (conn_end_node conn) in
  let start_port_str := conn_start_port conn in
  let end_port_str := conn_end_port conn in
  V_struct [V_cstring (Some id_str); V_cstring (Some start_id_str);
            V_cstring (Some start_port_str); V_cstring (Some end_id_str);
            V_cstring (Some end_port_str)].

(** The loop of [flow_graph_get_connections]. *)
Fixpoint get_connections_loop (array : ptr) (filled : list Value)
    (graph_connections : list (UUID * Connection)) : M unit :=
  match graph_connections with
  | [] => ret tt
  | conn_pair :: graph_connections =>
      let conn := conn_pair.2 in
      let filled := filled ++ [connection_info conn] in
      store array 0 (V_array (Some filled));;
      get_connections_loop array filled graph_connections
  end.

Definition flow_graph_get_connections (graph connections count : ptr) : M FlowError :=
  FLOW_API_CALL (
    ok <- validate_handle graph "graph";;
    if negb ok || bool_decide (connections = 0%N) || bool_decide (count = 0%N) then
      ErrorManager.set_error FLOW_ERROR_INVALID_ARGUMENT
        "Invalid arguments passed to flow_graph_get_connections";;
      ret FLOW_ERROR_INVALID_ARGUMENT
    else
    graph_ptr <- get_handle (T := shared_ptr_Graph) graph;;
    match checked_graph graph_ptr with
    | None =>
        ErrorManager.set_error FLOW_ERROR_INVALID_HANDLE "Failed to get graph from handle";;
        ret FLOW_ERROR_INVALID_HANDLE
    | Some g =>
        gr <- deref graphs (Some g);;
        let graph_connections := GetConnections gr in
        store count 0 (V_size (length graph_connections));;
        if bool_decide (length graph_connections = 0) then
          store connections 0 (V_array None);;
          ErrorManager.clear_error;;
          ret FLOW_SUCCESS
        else
          (* Allocate array of FlowConnectionInfo structs *)
          store connections 0 (V_array (Some []));;
          get_connections_loop connections [] graph_connections;;
          ErrorManager.clear_error;;
          ret FLOW_SUCCESS
    end).

Definition flow_graph_can_connect (graph : ptr)
    (source_id source_port target_id target_port : cstring) : M bool :=
  ok <- validate_handle graph "graph";;
  ok <- (if ok then validate_string source_id "source_id" else ret false);;
  ok <- (if ok then validate_string source_port "source_port" else ret false);;
  ok <- (if ok then validate_string target_id "target_id" else ret false);;
  ok <- (if ok then validate_string target_port "target_port" else ret false);;
  if negb ok then ret false else
  graph_ptr <- get_handle (T := shared_ptr_Graph) graph;;
  match checked_graph graph_ptr, source_id, source_port, target_id, target_port with
  | None, _, _, _, _ =>
      ErrorManager.set_error FLOW_ERROR_INVALID_HANDLE "Failed to get graph from handle";;
      ret false
  | Some g, Some source_id, Some source_port, Some target_id, Some target_port =>
      try_catch
        (start_uuid <- lift (UUID_parse source_id);;
         end_uuid <- lift (UUID_parse target_id);;
         let start_key := source_port in
         let end_key := target_port in
         g <- arrow graphs (Some g);;
         can_connect <- call (Graph_CanConnectNode g start_uuid start_key end_uuid end_key);;
         ErrorManager.clear_error;;
         ret can_connect)
        (catch_std_exception (λ w,
           ErrorManager.set_error FLOW_ERROR_INVALID_ARGUMENT
             ("Failed to validate connection: " +:+ w);;
           ret false))
  | Some _, _, _, _, _ => crash
  end.

End graph_bridge.

(* ===================================================================== *)
(** * src/connection_bridge.cpp *)
(* ===================================================================== *)

Section connection_bridge.
Context {flow_core : FlowCore}.

(** [conn_ptr] after the test [!conn_ptr || !*conn_ptr]. *)
Definition checked_connection (conn_ptr : option SharedConnection) : SharedConnection :=
  match conn_ptr with
  | None => None
  | Some conn_ptr => conn_ptr
  end.

(** The five readers share their shape; [field] is the text they return. *)
Definition flow_connection_get_ (field : Connection → string) (conn : ptr) : M cstring :=
  FLOW_API_CALL_HANDLE (
    ok <- validate_handle conn "conn";;
    if negb ok then ret None else
    conn_ptr <- get_handle (T := option Connection) conn;;
    match checked_connection conn_ptr with
    | None =>
        ErrorManager.set_error FLOW_ERROR_INVALID_HANDLE
          "Failed to get connection from handle";;
        ret None
    | Some c =>
        let str := field c in
        ErrorManager.clear_error;;
        ret (Some str)
    end).

Definition flow_connection_get_id : ptr → M cstring :=
  flow_connection_get_ (λ c, UUID_string (conn_id c)).

Definition flow_connection_get_start_node_id : ptr → M cstring :=
  flow_connection_get_ (λ c, UUID_string (conn_start_node c)).

Definition flow_connection_get_start_port : ptr → M cstring :=
  flow_connection_get_ conn_start_port.

Definition flow_connection_get_end_node_id : ptr → M cstring :=
  flow_connection_get_ (λ c, UUID_string (conn_end_node c)).

Definition flow_connection_get_end_port : ptr → M cstring :=
  flow_connection_get_ conn_end_port.

End connection_bridge.

(* ===================================================================== *)
(** * src/factory_bridge.cpp *)
(* ===================================================================== *)

(** The keys of the category table as a [std::set<std::string>] iterates
    them: each once, in ascending order. *)
Definition unique_categories (category_map : list (string * string)) : list string :=
  merge_sort string_le (remove_dups category_map.*1).

(** [category_map.equal_range(category)]: the classes filed under
    [category]. *)
Definition equal_range (category_map : list (string * string)) (category : string)
    : list string :=
  (filter (λ pair, pair.1 = category) category_map).*2.

Section factory_bridge.
Context {flow_core : FlowCore}.

Definition flow_factory_create_node (factory : ptr) (class_name uuid name : cstring)
    (env : ptr) : M ptr :=
  FLOW_API_CALL_HANDLE (
    ok <- validate_handle factory "factory";;
    if negb ok then ret 0%N else
    ok <- validate_handle env "env";;
    if negb ok then ret 0%N else
    ok <- validate_string class_name "class_name";;
    if negb ok then ret 0%N else
    factory_wrapper <- get_handle (T := NodeFactoryWrapper) factory;;
    match factory_wrapper with
    | None =>
        ErrorManager.set_error FLOW_ERROR_INVALID_HANDLE "Invalid factory handle";;
        ret 0%N
    | Some factory_wrapper =>
        env_wrapper <- get_handle (T := EnvWrapper) env;;
        match env_wrapper, class_name with
        | None, _ =>
            ErrorManager.set_error FLOW_ERROR_INVALID_HANDLE "Invalid environment handle";;
            ret 0%N
        | Some _, None => crash
        | Some env_wrapper, Some class_name =>
            try_catch
              (node_uuid <- match uuid with
                            | Some uuid =>
                                if (0 <? String.length uuid)%nat then lift (UUID_parse uuid)
                                else call UUID_generate
                            | None => call UUID_generate (* Generate new UUID *)
                            end;;
               let node_name := default EmptyString name in
               f <- arrow factories (NodeFactoryWrapper_factory factory_wrapper);;
               node <- call (Factory_CreateNode f class_name node_uuid node_name
                               (EnvWrapper_env env_wrapper));;
               match node with
               | None =>
                   ErrorManager.set_error FLOW_ERROR_NODE_NOT_FOUND
                     ("Failed to create node of class: " +:+ class_name);;
                   ret 0%N
               | Some _ =>
                   (* Create wrapper and handle *)
                   let wrapper := {| NodeWrapper_node := node |} in
                   create_handle wrapper
               end)
              (catch_std_exception (λ w,
                 ErrorManager.set_error FLOW_ERROR_UNKNOWN ("Node creation failed: " +:+ w);;
                 ret 0%N))
        end
    end).

Definition flow_factory_get_categories (factory categories count : ptr) : M FlowError :=
  FLOW_API_CALL (
    ok <- validate_handle factory "factory";;
    if negb ok then ret FLOW_ERROR_INVALID_HANDLE else
    ok <- validate_pointer categories "categories";;
    if negb ok then ret FLOW_ERROR_INVALID_ARGUMENT else
    ok <- validate_pointer count "count";;
    if negb ok then ret FLOW_ERROR_INVALID_ARGUMENT else
    factory_wrapper <- get_handle (T := NodeFactoryWrapper) factory;;
    match factory_wrapper with
    | None =>
        ErrorManager.set_error FLOW_ERROR_INVALID_HANDLE "Invalid factory handle";;
        ret FLOW_ERROR_INVALID_HANDLE
    | Some factory_wrapper =>
        try_catch
          (f <- deref factories (NodeFactoryWrapper_factory factory_wrapper);;
           let category_map := GetCategories f in
           (* Get unique category names *)
           let unique_categories := unique_categories category_map in
           store count 0 (V_size (length unique_categories));;
           if bool_decide (length unique_categories = 0) then
             store categories 0 (V_array None);;
             ret FLOW_SUCCESS
           else
             (* Allocate array of string pointers *)
             store categories 0 (V_array (Some []));;
             copy_strings categories [] unique_categories;;
             ret FLOW_SUCCESS)
          (catch_std_exception (λ w,
             ErrorManager.set_error FLOW_ERROR_UNKNOWN
               ("Failed to get categories: " +:+ w);;
             ret FLOW_ERROR_UNKNOWN))
    end).

Definition flow_factory_get_node_classes (factory : ptr) (category : cstring)
    (classes count : ptr) : M FlowError :=
  FLOW_API_CALL (
    ok <- validate_handle factory "factory";;
    if negb ok then ret FLOW_ERROR_INVALID_HANDLE else
    ok <- validate_string category "category";;
    if negb ok then ret FLOW_ERROR_INVALID_ARGUMENT else
    ok <- validate_pointer classes "classes";;
    if negb ok then ret FLOW_ERROR_INVALID_ARGUMENT else
    ok <- validate_pointer count "count";;
    if negb ok then ret FLOW_ERROR_INVALID_ARGUMENT else
    factory_wrapper <- get_handle (T := NodeFactoryWrapper) factory;;
    match factory_wrapper, category with
    | None, _ =>
        ErrorManager.set_error FLOW_ERROR_INVALID_HANDLE "Invalid factory handle";;
        ret FLOW_ERROR_INVALID_HANDLE
    | Some _, None => crash
    | Some factory_wrapper, Some category =>
        try_catch
          (f <- deref factories (NodeFactoryWrapper_factory factory_wrapper);;
           let category_map := GetCategories f in
           (* Find all classes in the specified category *)
           let class_names := equal_range category_map category in
           store count 0 (V_size (length class_names));;
           if bool_decide (length class_names = 0) then
             store classes 0 (V_array None);;
             ret FLOW_SUCCESS
           else
             (* Allocate array of string pointers *)
             store classes 0 (V_array (Some []));;
             copy_strings classes [] class_names;;
             ret FLOW_SUCCESS)
          (catch_std_exception (λ w,
             ErrorManager.set_error FLOW_ERROR_UNKNOWN
               ("Failed to get node classes: " +:+ w);;
             ret FLOW_ERROR_UNKNOWN))
    end).

Definition flow_factory_get_friendly_name (factory : ptr) (class_name : cstring)
    : M cstring :=
  FLOW_API_CALL_HANDLE (
    ok <- validate_handle factory "factory";;
    if negb ok then ret None else
    ok <- validate_string class_name "class_name";;
    if negb ok then ret None else
    factory_wrapper <- get_handle (T := NodeFactoryWrapper) factory;;
    match factory_wrapper, class_name with
    | None, _ =>
        ErrorManager.set_error FLOW_ERROR_INVALID_HANDLE "Invalid factory handle";;
        ret None
    | Some _, None => crash
    | Some factory_wrapper, Some class_name =>
        try_catch
          (f <- arrow factories (NodeFactoryWrapper_factory factory_wrapper);;
           friendly_name <- call (Factory_GetFriendlyName f class_name);;
           ret (Some friendly_name))
          (catch_std_exception (λ w,
             ErrorManager.set_error FLOW_ERROR_UNKNOWN
               ("Failed to get friendly name: " +:+ w);;
             ret None))
    end).

Definition flow_factory_is_convertible (factory : ptr) (from_type to_type : cstring)
    : M bool :=
  ok <- validate_handle factory "factory";;
  if negb ok then ret false else
  ok <- validate_string from_type "from_type";;
  if negb ok then ret false else
  ok <- validate_string to_type "to_type";;
  if negb ok then ret false else
  factory_wrapper <- get_handle (T := NodeFactoryWrapper) factory;;
  match factory_wrapper, from_type, to_type with
  | None, _, _ =>
      ErrorManager.set_error FLOW_ERROR_INVALID_HANDLE "Invalid factory handle";;
      ret false
  | Some factory_wrapper, Some from_type, Some to_type =>
      try_catch
        (f <- arrow factories (NodeFactoryWrapper_factory factory_wrapper);;
         call (Factory_IsConvertible f from_type to_type))
        (catch_std_exception (λ w,
           ErrorManager.set_error FLOW_ERROR_UNKNOWN
             ("Failed to check convertibility: " +:+ w);;
           ret false))
  | Some _, _, _ => crash
  end.

End factory_bridge.

(* ===================================================================== *)
(** * src/module_bridge.cpp *)
(* ===================================================================== *)

(** Modelled from the spec: [Module::IsLoaded()] and [GetMetaData()]
    (section 6, "Module loader"). *)
Definition IsLoaded (m : FlowModule) : bool := module_loaded m.
Definition GetMetaData (m : FlowModule) : option ModuleMetaData := module_metadata m.

Section module_bridge.
Context {flow_core : FlowCore}.

Definition flow_module_create (factory : ptr) : M ptr :=
  try_catch
    (ErrorManager.clear_error;;
     (* Factory is stored as NodeFactoryWrapper *)
     factory_wrapper <- get_handle (T := NodeFactoryWrapper) factory;;
     match factory_wrapper ≫= NodeFactoryWrapper_factory with
     | None =>
         ErrorManager.set_error FLOW_ERROR_INVALID_HANDLE "Invalid factory handle";;
         ret 0%N
     | Some f =>
         module <- call (make_shared_Module (Some f));;
         create_handle {| get_Module := module |}
     end)
    (catch_std_exception (λ w,
       ErrorManager.set_error FLOW_ERROR_OUT_OF_MEMORY w;;
       ret 0%N)).

Definition flow_module_destroy (module : ptr) : M unit :=
  if bool_decide (module = 0%N) then ret tt else
  valid <- is_valid_handle module;;
  if valid then
    _ <- release_handle module;;
    ret tt
  else ret tt.

Definition flow_module_load (module : ptr) (path : cstring) : M FlowError :=
  try_catch
    (ErrorManager.clear_error;;
     match path with
     | None =>
         ErrorManager.set_error FLOW_ERROR_INVALID_ARGUMENT "Invalid module handle or path";;
         ret FLOW_ERROR_INVALID_ARGUMENT
     | Some path =>
         if bool_decide (module = 0%N) then
           ErrorManager.set_error FLOW_ERROR_INVALID_ARGUMENT
             "Invalid module handle or path";;
           ret FLOW_ERROR_INVALID_ARGUMENT
         else
         (* Check for empty path *)
         if bool_decide (String.length path = 0) then
           ErrorManager.set_error FLOW_ERROR_INVALID_ARGUMENT "Path cannot be empty";;
           ret FLOW_ERROR_INVALID_ARGUMENT
         else
         module_ptr <- get_handle (T := shared_ptr_Module) module;;
         match module_ptr with
         | None =>
             ErrorManager.set_error FLOW_ERROR_INVALID_HANDLE "Invalid module handle";;
             ret FLOW_ERROR_INVALID_HANDLE
         | Some module_ptr =>
             let module_path := path in
             found <- lift (fs_exists module_path);;
             if negb found then
               ErrorManager.set_error FLOW_ERROR_MODULE_LOAD_FAILED
                 "Module path does not exist";;
               ret FLOW_ERROR_MODULE_LOAD_FAILED
             else
               m <- arrow modules (get_Module module_ptr);;
               success <- call (Module_Load m module_path);;
               if negb success then
                 ErrorManager.set_error FLOW_ERROR_MODULE_LOAD_FAILED
                   "Failed to load module";;
                 ret FLOW_ERROR_MODULE_LOAD_FAILED
               else ret FLOW_SUCCESS
         end
     end)
    (catch_std_exception (λ w,
       ErrorManager.set_error FLOW_ERROR_MODULE_LOAD_FAILED w;;
       ret FLOW_ERROR_MODULE_LOAD_FAILED)).

Definition flow_module_unload (module : ptr) : M FlowError :=
  try_catch
    (ErrorManager.clear_error;;
     if bool_decide (module = 0%N) then
       ErrorManager.set_error FLOW_ERROR_INVALID_ARGUMENT "Invalid module handle";;
       ret FLOW_ERROR_INVALID_ARGUMENT
     else
     module_ptr <- get_handle (T := shared_ptr_Module) module;;
     match module_ptr with
     | None =>
         ErrorManager.set_error FLOW_ERROR_INVALID_HANDLE "Invalid module handle";;
         ret FLOW_ERROR_INVALID_HANDLE
     | Some module_ptr =>
         (* Check if module is loaded first *)
         m <- deref modules (get_Module module_ptr);;
         if negb (IsLoaded m) then
           (* Unloading a module that's not loaded is a no-op and should succeed *)
           ret FLOW_SUCCESS
         else
           m <- arrow modules (get_Module module_ptr);;
           success <- call (Module_Unload m);;
           if negb success then
             ErrorManager.set_error FLOW_ERROR_MODULE_LOAD_FAILED
               "Failed to unload module";;
             ret FLOW_ERROR_MODULE_LOAD_FAILED
           else ret FLOW_SUCCESS
     end)
    (catch_std_exception (λ w,
       ErrorManager.set_error FLOW_ERROR_MODULE_LOAD_FAILED w;;
       ret FLOW_ERROR_MODULE_LOAD_FAILED)).

(** [flow_module_register_nodes] and [flow_module_unregister_nodes] share
    their shape; [Action] is [Module_RegisterModuleNodes] or
    [Module_UnregisterModuleNodes]. *)
Definition flow_module_nodes_ (Action : N → EngineProc unit) (module : ptr) : M FlowError :=
  try_catch
    (ErrorManager.clear_error;;
     if bool_decide (module = 0%N) then
       ErrorManager.set_error FLOW_ERROR_INVALID_ARGUMENT "Invalid module handle";;
       ret FLOW_ERROR_INVALID_ARGUMENT
     else
     module_ptr <- get_handle (T := shared_ptr_Module) module;;
     match module_ptr with
     | None =>
         ErrorManager.set_error FLOW_ERROR_INVALID_HANDLE "Invalid module handle";;
         ret FLOW_ERROR_INVALID_HANDLE
     | Some module_ptr =>
         m <- deref modules (get_Module module_ptr);;
         if negb (IsLoaded m) then
           ErrorManager.set_error FLOW_ERROR_MODULE_LOAD_FAILED "Module is not loaded";;
           ret FLOW_ERROR_MODULE_LOAD_FAILED
         else
           m <- arrow modules (get_Module module_ptr);;
           call (Action m);;
           ret FLOW_SUCCESS
     end)
    (catch_std_exception (λ w,
       ErrorManager.set_error FLOW_ERROR_MODULE_LOAD_FAILED w;;
       ret FLOW_ERROR_MODULE_LOAD_FAILED)).

Definition flow_module_register_nodes : ptr → M FlowError :=
  flow_module_nodes_ Module_RegisterModuleNodes.

Definition flow_module_unregister_nodes : ptr → M FlowError :=
  flow_module_nodes_ Module_UnregisterModuleNodes.

Definition flow_module_is_loaded (module : ptr) : M bool :=
  try_catch
    (if bool_decide (module = 0%N) then ret false else
     module_ptr <- get_handle (T := shared_ptr_Module) module;;
     match module_ptr with
     | None => ret false
     | Some module_ptr =>
         m <- deref modules (get_Module module_ptr);;
         ret (IsLoaded m)
     end)
    (catch_std_exception (λ _, ret false)).

(** The four metadata readers share their shape; [field] is [Name],
    [Version], [Author] or [Description]. *)
Definition flow_module_get_ (field : ModuleMetaData → string) (module : ptr) : M cstring :=
  try_catch
    (ErrorManager.clear_error;;
     if bool_decide (module = 0%N) then
       ErrorManager.set_error FLOW_ERROR_INVALID_ARGUMENT "Invalid module handle";;
       ret None
     else
     module_ptr <- get_handle (T := shared_ptr_Module) module;;
     match module_ptr with
     | None =>
         ErrorManager.set_error FLOW_ERROR_INVALID_HANDLE "Invalid module handle";;
         ret None
     | Some module_ptr =>
         m <- deref modules (get_Module module_ptr);;
         match GetMetaData m with
         | None =>
             ErrorManager.set_error FLOW_ERROR_MODULE_LOAD_FAILED "No metadata available";;
             ret None
         | Some metadata => ret (Some (field metadata))
         end
     end)
    (catch_std_exception (λ w,
       ErrorManager.set_error FLOW_ERROR_UNKNOWN w;;
       ret None)).

Definition flow_module_get_name : ptr → M cstring := flow_module_get_ Name.
Definition flow_module_get_version : ptr → M cstring := flow_module_get_ Version.
Definition flow_module_get_author : ptr → M cstring := flow_module_get_ Author.
Definition flow_module_get_description : ptr → M cstring := flow_module_get_ Description.

End module_bridge.

(* ===================================================================== *)
(** * src/event_bridge.cpp *)
(* ===================================================================== *)

(** [std::to_string] of a [uint64_t]. *)
Definition to_string (n : N) : string := pretty n.

(** Helper to generate unique event IDs; the counter is a
    [std::atomic<uint64_t>]. *)
Definition generate_event_id : M IndexableName :=
  λ _ w,
    let old := counter (events w) in
    (Return ("event_" +:+ to_string old),
     set_events {| g_event_registrations := g_event_registrations (events w);
                   counter := ((old + 1) mod 2 ^ 64)%N |} w).

(** The address of a newly made registration: not null, and not the
    address of a registration or of a handle that is alive. *)
Definition new_registration (w : World) : ptr :=
  fresh (dom (g_event_registrations (events w)) ∪ dom (handles_ w) ∪ {[ 0%N ]}).

(** Helper to add event registration tracking. *)
Definition add_event_registration (type : FlowEventRegistration_Type)
    (handle callback user_data : ptr) : M ptr :=
  event_id <- generate_event_id;;
  λ _ w,
    let registration :=
      {| reg_type := type; reg_handle := handle; reg_callback := callback;
         reg_user_data := user_data; reg_event_id := event_id |} in
    let ptr := new_registration w in
    (Return ptr,
     set_events {| g_event_registrations :=
                     <[ptr := registration]> (g_event_registrations (events w));
                   counter := counter (events w) |} w).

(** Helper to remove event registration. *)
Definition remove_event_registration (registration : ptr) : M bool :=
  λ _ w,
    match g_event_registrations (events w) !! registration with
    | Some _ =>
        (Return true,
         set_events {| g_event_registrations :=
                         delete registration (g_event_registrations (events w));
                       counter := counter (events w) |} w)
    | None => (Return false, w)
    end.

(** [*reg] for a [FlowEventRegistration*]: reading through a pointer to a
    registration that [g_event_registrations] does not own is undefined. *)
Definition deref_registration (reg : ptr) : M FlowEventRegistration :=
  λ _ w,
    match g_event_registrations (events w) !! reg with
    | Some r => (Return r, w)
    | None => (Crash, w)
    end.

(** [node_ptr] after the test [!node_ptr || !*node_ptr]. *)
Definition checked_node (node_ptr : option shared_ptr_Node) : shared_ptr :=
  match node_ptr with
  | None => None
  | Some node_ptr => get_Node node_ptr
  end.

Section event_bridge.
Context {flow_core : FlowCore}.

(** The five registering functions of a graph share their shape; [type]
    names the dispatcher they bind to.  Their lambdas capture [callback]
    and [user_data]. *)
Definition flow_graph_on_ (type : FlowEventRegistration_Type)
    (graph callback user_data : ptr) : M ptr :=
  FLOW_API_CALL_HANDLE (
    ok <- validate_handle graph "graph";;
    if negb ok || bool_decide (callback = 0%N) then
      ErrorManager.set_error FLOW_ERROR_INVALID_ARGUMENT "Invalid graph handle or callback";;
      ret 0%N
    else
    graph_ptr <- get_handle (T := shared_ptr_Graph) graph;;
    match checked_graph graph_ptr with
    | None =>
        ErrorManager.set_error FLOW_ERROR_INVALID_HANDLE "Failed to get graph from handle";;
        ret 0%N
    | Some g =>
        registration <- add_event_registration type graph callback user_data;;
        reg <- deref_registration registration;;
        (* Bind to the graph's event *)
        g <- arrow graphs (Some g);;
        call (EventDispatcher_Bind type g (reg_event_id reg)
                {| lambda_callback := callback; lambda_user_data := user_data;
                   lambda_node := None |});;
        ErrorManager.clear_error;;
        ret registration
    end).

Definition flow_graph_on_node_added : ptr → ptr → ptr → M ptr :=
  flow_graph_on_ GraphNodeAdded.
Definition flow_graph_on_node_removed : ptr → ptr → ptr → M ptr :=
  flow_graph_on_ GraphNodeRemoved.
Definition flow_graph_on_nodes_connected : ptr → ptr → ptr → M ptr :=
  flow_graph_on_ GraphNodesConnected.
Definition flow_graph_on_nodes_disconnected : ptr → ptr → ptr → M ptr :=
  flow_graph_on_ GraphNodesDisconnected.
Definition flow_graph_on_error : ptr → ptr → ptr → M ptr :=
  flow_graph_on_ GraphError.

(** The four registering functions of a node share their shape too; they
    ask the registry for a [std::shared_ptr<Node>].  The lambdas of
    [flow_node_on_compute], [flow_node_on_set_input] and
    [flow_node_on_set_output] capture the node handle as well. *)
Definition flow_node_on_ (type : FlowEventRegistration_Type) (captures_node : bool)
    (node callback user_data : ptr) : M ptr :=
  FLOW_API_CALL_HANDLE (
    ok <- validate_handle node "node";;
    if negb ok || bool_decide (callback = 0%N) then
      ErrorManager.set_error FLOW_ERROR_INVALID_ARGUMENT "Invalid node handle or callback";;
      ret 0%N
    else
    node_ptr <- get_handle (T := shared_ptr_Node) node;;
    match checked_node node_ptr with
    | None =>
        ErrorManager.set_error FLOW_ERROR_INVALID_HANDLE "Failed to get node from handle";;
        ret 0%N
    | Some n =>
        registration <- add_event_registration type node callback user_data;;
        reg <- deref_registration registration;;
        (* Bind to the node's event *)
        n <- arrow nodes (Some n);;
        call (EventDispatcher_Bind type n (reg_event_id reg)
                {| lambda_callback := callback; lambda_user_data := user_data;
                   lambda_node := if captures_node then Some node else None |});;
        ErrorManager.clear_error;;
        ret registration
    end).

Definition flow_node_on_compute : ptr → ptr → ptr → M ptr :=
  flow_node_on_ NodeCompute true.
Definition flow_node_on_error : ptr → ptr → ptr → M ptr :=
  flow_node_on_ NodeError false.
Definition flow_node_on_set_input : ptr → ptr → ptr → M ptr :=
  flow_node_on_ NodeSetInput true.
Definition flow_node_on_set_output : ptr → ptr → ptr → M ptr :=
  flow_node_on_ NodeSetOutput true.

(** [reg->type] is read before anything tells whether [registration] is
    one that [g_event_registrations] owns. *)
Definition flow_event_unregister (registration : ptr) : M FlowError :=
  FLOW_API_CALL (
    if bool_decide (registration = 0%N) then
      ErrorManager.set_error FLOW_ERROR_INVALID_ARGUMENT "Invalid registration handle";;
      ret FLOW_ERROR_INVALID_ARGUMENT
    else
    reg <- deref_registration registration;;
    (* Unbind from the appropriate event dispatcher *)
    match reg_type reg with
    | GraphNodeAdded | GraphNodeRemoved | GraphNodesConnected | GraphNodesDisconnected
    | GraphError =>
        graph_ptr <- get_handle (T := shared_ptr_Graph) (reg_handle reg);;
        match checked_graph graph_ptr with
        | Some g =>
            g <- arrow graphs (Some g);;
            call (EventDispatcher_Unbind (reg_type reg) g (reg_event_id reg))
        | None => ret tt
        end
    | NodeCompute | NodeError | NodeSetInput | NodeSetOutput =>
        node_ptr <- get_handle (T := shared_ptr_Node) (reg_handle reg);;
        match checked_node node_ptr with
        | Some n =>
            n <- arrow nodes (Some n);;
            call (EventDispatcher_Unbind (reg_type reg) n (reg_event_id reg))
        | None => ret tt
        end
    end;;
    (* Remove from tracking *)
    removed <- remove_event_registration registration;;
    if negb removed then
      ErrorManager.set_error FLOW_ERROR_INVALID_ARGUMENT "Registration not found";;
      ret FLOW_ERROR_INVALID_ARGUMENT
    else
      ErrorManager.clear_error;;
      ret FLOW_SUCCESS).

Definition flow_event_is_valid (registration : ptr) : M bool :=
  if bool_decide (registration = 0%N) then ret false
  else
    λ _ w,
      (Return (bool_decide (is_Some (g_event_registrations (events w) !! registration))), w).

End event_bridge.

(* ===================================================================== *)
(** * A reference engine

    One implementation of [FlowCore], used to run the bridge on concrete
    inputs.  The procedures the claims turn on follow the specification;
    the others are the simplest implementation of their signature.  No
    theorem about the bridge assumes this engine: each is proved for every
    [FlowCore]. *)
(* ===================================================================== *)

Module Reference.

Definition set_nodes (f : gmap N Node → gmap N Node) (c : Core) : Core :=
  {| nodes := f (nodes c); graphs := graphs c; envs := envs c;
     factories := factories c; modules := modules c |}.

Definition set_graphs (f : gmap N Graph → gmap N Graph) (c : Core) : Core :=
  {| nodes := nodes c; graphs := f (graphs c); envs := envs c;
     factories := factories c; modules := modules c |}.

Definition set_modules (f : gmap N FlowModule → gmap N FlowModule) (c : Core) : Core :=
  {| nodes := nodes c; graphs := graphs c; envs := envs c;
     factories := factories c; modules := f (modules c) |}.

Definition set_port_data (data : SharedNodeData) (p : Port) : Port :=
  {| port_key := port_key p; port_data_type := port_data_type p;
     port_caption := port_caption p; port_required := port_required p;
     port_data := data |}.

Definition run_compute (n : Node) : Node :=
  {| node_id := node_id n; node_name := node_name n; node_class := node_class n;
     node_input_ports := node_input_ports n; node_output_ports := node_output_ports n;
     node_computes := S (node_computes n) |}.

(** Modelled from the spec: [Node::InvokeCompute()] (section 4.3, "Idle ->
    Computing: triggered explicitly via InvokeCompute()"): the compute
    procedure runs once more.  What a node class computes is not the
    engine's; the run is recorded in [node_computes]. *)
Definition InvokeCompute (a : N) : EngineProc unit :=
  λ c, (Ok tt, set_nodes (alter run_compute a) c).

(** Modelled from the spec: [Node::SetInputData(key, value, autoCompute)]
    (section 4.3: "writes via SetInputData(key, value, autoCompute=true)
    trigger it; autoCompute=false suppresses this"; an absent key is
    PortNotFound). *)
Definition SetInputData (a : N) (k : string) (data : SharedNodeData) (autoCompute : bool)
    : EngineProc unit :=
  λ c,
    match nodes c !! a with
    | None => (Ok tt, c)
    | Some n =>
        match node_input_ports n !! k with
        | None => (Raise (std_out_of_range out_of_range_what), c)
        | Some port =>
            let n' :=
              {| node_id := node_id n; node_name := node_name n; node_class := node_class n;
                 node_input_ports := <[k := set_port_data data port]> (node_input_ports n);
                 node_output_ports := node_output_ports n;
                 node_computes := node_computes n |} in
            let c' := set_nodes <[a := n']> c in
            if autoCompute then InvokeCompute a c' else (Ok tt, c')
        end
    end.

(** Modelled from the spec: [Node::SetOutputData(key, value, ...)]: the
    write of an output port (section 4.2); propagation along connections
    is the graph's and is left out. *)
Definition SetOutputData (a : N) (k : string) (data : SharedNodeData) (_ : bool)
    : EngineProc unit :=
  λ c,
    match nodes c !! a with
    | None => (Ok tt, c)
    | Some n =>
        match node_output_ports n !! k with
        | None => (Raise (std_out_of_range out_of_range_what), c)
        | Some port =>
            let n' :=
              {| node_id := node_id n; node_name := node_name n; node_class := node_class n;
                 node_input_ports := node_input_ports n;
                 node_output_ports := <[k := set_port_data data port]> (node_output_ports n);
                 node_computes := node_computes n |} in
            (Ok tt, set_nodes <[a := n']> c)
        end
    end.

Definition SetName (a : N) (name : string) : EngineProc unit :=
  λ c,
    (Ok tt,
     set_nodes (alter (λ n,
       {| node_id := node_id n; node_name := name; node_class := node_class n;
          node_input_ports := node_input_ports n; node_output_ports := node_output_ports n;
          node_computes := node_computes n |}) a) c).

Definition same_edge (s : UUID) (sp : string) (e : UUID) (ep : string) (c : Connection)
    : bool :=
  bool_decide (conn_start_node c = s) && String.eqb (conn_start_port c) sp &&
  bool_decide (conn_end_node c = e) && String.eqb (conn_end_port c) ep.

(** Modelled from the spec: [Graph::DisconnectNodes] (section 4.4:
    "removes the edge; does not clear the downstream input port's current
    value"). *)
Definition DisconnectNodes (g : N) (s : UUID) (sp : string) (e : UUID) (ep : string)
    : EngineProc unit :=
  λ c,
    (Ok tt,
     set_graphs (alter (λ gr,
       {| graph_name := graph_name gr; graph_env := graph_env gr;
          graph_nodes := graph_nodes gr;
          graph_connections :=
            filter (λ kc, same_edge s sp e ep kc.2 = false) (graph_connections gr) |}) g) c).

(** Modelled from the spec: [Graph::RemoveNodeByID] (section 8: "Removing
    a Node removes every Connection that referenced it as source or
    target"). *)
Definition RemoveNodeByID (g : N) (id : UUID) : EngineProc unit :=
  λ c,
    (Ok tt,
     set_graphs (alter (λ gr,
       {| graph_name := graph_name gr; graph_env := graph_env gr;
          graph_nodes := delete id (graph_nodes gr);
          graph_connections :=
            filter (λ kc, conn_start_node kc.2 ≠ id ∧ conn_end_node kc.2 ≠ id)
                   (graph_connections gr) |}) g) c).

Definition Clear (g : N) : EngineProc unit :=
  λ c,
    (Ok tt,
     set_graphs (alter (λ gr,
       {| graph_name := graph_name gr; graph_env := graph_env gr;
          graph_nodes := ∅; graph_connections := [] |}) g) c).

(** [Graph::Run()]: every node of the graph computes once. *)
Definition Run (g : N) : EngineProc unit :=
  λ c,
    match graphs c !! g with
    | None => (Ok tt, c)
    | Some gr =>
        (Ok tt, set_nodes (λ ns, map_fold (λ _ a ns, alter run_compute a ns) ns
                                          (graph_nodes gr)) c)
    end.

Definition Load (m : N) (path : string) : EngineProc bool :=
  λ c,
    (Ok true,
     set_modules (alter (λ md,
       {| module_factory := module_factory md; module_loaded := true;
          module_metadata := Some {| Name := path; Version := "1.0"; Author := "";
                                     Description := "" |} |}) m) c).

Definition Unload (m : N) : EngineProc bool :=
  λ c,
    (Ok true,
     set_modules (alter (λ md,
       {| module_factory := module_factory md; module_loaded := false;
          module_metadata := None |}) m) c).

Definition idle {A} (a : A) : EngineProc A := λ c, (Ok a, c).

(** A UUID is written as 32 hexadecimal digits in groups of 8, 4, 4, 4 and
    12, hyphens between (section 3, "UUID"). *)
Definition hex_value (a : Ascii.ascii) : option N :=
  let n := Ascii.N_of_ascii a in
  if (48 <=? n)%N && (n <=? 57)%N then Some (n - 48)%N
  else if (97 <=? n)%N && (n <=? 102)%N then Some (n - 87)%N
  else if (65 <=? n)%N && (n <=? 70)%N then Some (n - 55)%N
  else None.

Definition hyphen : Ascii.ascii := Ascii.ascii_of_nat 45.

Definition is_hyphen_position (pos : nat) : bool :=
  (pos =? 8) || (pos =? 13) || (pos =? 18) || (pos =? 23).

Fixpoint parse_uuid (s : string) (pos : nat) (acc : N) : option N :=
  match s with
  | EmptyString => if pos =? 36 then Some acc else None
  | String a s' =>
      if is_hyphen_position pos then
        if Ascii.eqb a hyphen then parse_uuid s' (S pos) acc else None
      else
        match hex_value a with
        | Some d => parse_uuid s' (S pos) (16 * acc + d)%N
        | None => None
        end
  end.

Definition UUID_of_string (s : string) : Except UUID :=
  match parse_uuid s 0 0%N with
  | Some u => Ok u
  | None => Raise (std_exception "invalid UUID string")
  end.

Definition hex_char (d : N) : Ascii.ascii :=
  Ascii.ascii_of_N (if (d <? 10)%N then 48 + d else 87 + d)%N.

Fixpoint hex_digits (width : nat) (n : N) (acc : string) : string :=
  match width with
  | 0 => acc
  | S width => hex_digits width (n / 16)%N (String (hex_char (n mod 16)%N) acc)
  end.

Definition string_of_UUID (u : UUID) : string :=
  let h := hex_digits 32 u "" in
  String.substring 0 8 h +:+ "-" +:+ String.substring 8 4 h +:+ "-" +:+ String.substring 12 4 h +:+ "-" +:+
  String.substring 16 4 h +:+ "-" +:+ String.substring 20 12 h.

(** [json::dump()] of an object of strings: the members by key, quotes and
    backslashes escaped. *)
Definition quote : Ascii.ascii := Ascii.ascii_of_nat 34.
Definition backslash : Ascii.ascii := Ascii.ascii_of_nat 92.

Fixpoint escape (s : string) : string :=
  match s with
  | EmptyString => EmptyString
  | String a s' =>
      if Ascii.eqb a quote || Ascii.eqb a backslash
      then String backslash (String a (escape s'))
      else String a (escape s')
  end.

Definition quoted (s : string) : string :=
  String quote (escape s +:+ String quote EmptyString).

Definition key_le (x y : string * string) : Prop := String.leb x.1 y.1 = true.

#[global] Instance key_le_dec x y : Decision (key_le x y).
Proof. unfold key_le. apply _. Defined.

Fixpoint dump_members (members : list (string * string)) : string :=
  match members with
  | [] => ""
  | [(k, v)] => quoted k +:+ ":" +:+ quoted v
  | (k, v) :: rest => quoted k +:+ ":" +:+ quoted v +:+ "," +:+ dump_members rest
  end.

Definition dump (j : gmap string string) : Except string :=
  Ok ("{" +:+ dump_members (merge_sort key_le (map_to_list j)) +:+ "}").

(** [ToString()]: decimal for [int], [true] and [false] for [bool], the
    string itself; the format of a [double] is implementation-defined and
    the reference has none. *)
Definition ToString (d : NodeData) : Except string :=
  match d with
  | NodeData_int v => Ok (pretty v)
  | NodeData_double _ => Raise (std_exception "no format for double")
  | NodeData_bool b => Ok (if b then "true" else "false")
  | NodeData_string s => Ok s
  | NodeData_other _ repr => Ok repr
  end.

Definition view (t : TypeName) : string :=
  match t with
  | TypeName_int => "int"
  | TypeName_double => "double"
  | TypeName_bool => "bool"
  | TypeName_string => "std::string"
  | TypeName_other name => name
  end.

(** A document is kept as its text; [parse] accepts the texts that start an
    object. *)
Definition parse (s : string) : Except string :=
  if is_prefix "{" s then Ok s
  else Raise (json_parse_error "parse error: unexpected character").

Definition engine : FlowCore := {|
  TypeName_view := view;
  NodeData_ToString := ToString;
  UUID_parse := UUID_of_string;
  UUID_string := string_of_UUID;
  json_dump := dump;
  Node_SetInputData := SetInputData;
  Node_SetOutputData := SetOutputData;
  Node_InvokeCompute := InvokeCompute;
  Node_SetName := SetName;
  Graph_DisconnectNodes := DisconnectNodes;
  Graph_RemoveNodeByID := RemoveNodeByID;
  Graph_Run := Run;
  Graph_Clear := Clear;
  Env_Wait := λ _, idle tt;
  Env_GetVar := λ _ _, idle "";
  Module_Load := Load;
  Module_Unload := Unload;
  Module_RegisterModuleNodes := λ _, idle tt;
  Module_UnregisterModuleNodes := λ _, idle tt;
  fs_exists := λ _, Ok true;
  UUID_generate := idle 0%N;
  Factory_CreateNode := λ _ _ _ _ _, idle None;
  Factory_GetFriendlyName := λ _ class_name, idle class_name;
  Factory_IsConvertible := λ _ from_type to_type, idle (String.eqb from_type to_type);
  Graph_AddNode := λ _ _, idle tt;
  Graph_ConnectNodes := λ _ _ _ _ _, idle None;
  Graph_CanConnectNode := λ _ _ _ _ _, idle false;
  json_document := string;
  json_parse := parse;
  json_document_dump := λ j _, Ok j;
  Graph_to_json := λ _, idle "{}";
  Graph_from_json := λ _ _, idle tt;
  Node_Save := λ _, idle "{}";
  Node_Restore := λ _ _, idle tt;
  EventDispatcher_Bind := λ _ _ _ _, idle tt;
  EventDispatcher_Unbind := λ _ _ _, idle tt;
  Handle_dtor := λ _ c, c;
|}.

End Reference.

(* ===================================================================== *)
(** * Reasoning about calls: weakest preconditions

    [wp c tid w Q]: the call [c], made by thread [tid] in state [w], ends
    with an outcome and a state that satisfy [Q].  Calls are total
    functions, so [wp] is a statement about the one run there is. *)
(* ===================================================================== *)

Definition wp {A} (c : M A) (tid : thread_id) (w : World) (Q : Res A → World → Prop) : Prop :=
  Q (c tid w).1 (c tid w).2.
Arguments wp : simpl never.

(** What [c] must establish for [bind c k] to establish [Q]. *)
Definition bind_post {A B} (k : A → M B) tid (Q : Res B → World → Prop)
    : Res A → World → Prop :=
  λ r w', match r with
          | Return a => wp (k a) tid w' Q
          | Throw e => Q (Throw e) w'
          | Crash => Q Crash w'
          end.

(** What [body] must establish for [try_catch body handler] to establish [Q]. *)
Definition catch_post {A} (handler : exception → option (M A)) tid
    (Q : Res A → World → Prop) : Res A → World → Prop :=
  λ r w', match r with
          | Throw e => match handler e with
                       | Some h => wp h tid w' Q
                       | None => Q (Throw e) w'
                       end
          | _ => Q r w'
          end.

(** The message of [validate_handle] for a handle it refuses. *)
Definition invalid_handle_message (handle : ptr) (handle_name : string) : string :=
  if bool_decide (handle = 0%N) then "Invalid handle: " +:+ handle_name +:+ " is null"
  else "Invalid handle: " +:+ handle_name +:+ " is not registered".

(** What [get_handle<T>(ptr)] finds in the registry. *)
Definition lookup_handle {T} `{HandleType T} (w : World) (p : ptr) : option T :=
  handles_ w !! p ≫= λ it, dynamic_cast (handle_object it).

(** The state after [add_event_registration] has made a registration at
    the address [new_registration w] and tracks it. *)
Definition tracked (type : FlowEventRegistration_Type) (handle callback user_data : ptr)
    (w : World) : World :=
  set_events
    {| g_event_registrations :=
         <[new_registration w :=
             {| reg_type := type; reg_handle := handle; reg_callback := callback;
                reg_user_data := user_data;
                reg_event_id := "event_" +:+ to_string (counter (events w)) |}]>
           (g_event_registrations (events w));
       counter := ((counter (events w) + 1) mod 2 ^ 64)%N |} w.

(** The message the handlers of the [FLOW_API_CALL] macros record. *)
Definition api_call_message (e : exception) : string :=
  default "Unknown exception occurred" (what e).

(* ===================================================================== *)
(** * The vocabulary of the theorems *)
(* ===================================================================== *)

(** The state [w'] differs from [w] in the error of thread [tid] at most. *)
Definition same_but_error (tid : thread_id) (w w' : World) : Prop :=
  handles_ w' = handles_ w ∧ core w' = core w ∧ memory w' = memory w ∧
  events w' = events w ∧
  ∀ tid', tid' ≠ tid → errors_ w' !! tid' = errors_ w !! tid'.

(** The error code recorded for thread [tid], if any. *)
Definition last_error_code (tid : thread_id) (w : World) : option FlowError :=
  code <$> errors_ w !! tid.

(** [round_trips create get others v tid w out]: in state [w], [create]
    makes a datum and returns a handle to it; [get], asked to store
    through [out], succeeds and stores [v]; each reader in [others] fails
    with [FLOW_ERROR_TYPE_MISMATCH] and stores nothing. *)
Definition round_trips (create : M ptr) (get : ptr → ptr → M FlowError)
    (others : list (ptr → ptr → M FlowError)) (v : Value)
    (tid : thread_id) (w : World) (out : ptr) : Prop :=
  ∃ h w1,
    create tid w = (Return h, w1) ∧ h ≠ 0%N ∧
    get h out tid w1 = (Return FLOW_SUCCESS, set_memory <[(out, 0) := v]> w1) ∧
    ∀ get', get' ∈ others →
      ∃ w2, get' h out tid w1 = (Return FLOW_ERROR_TYPE_MISMATCH, w2) ∧
            same_but_error tid w1 w2 ∧
            last_error_code tid w2 = Some FLOW_ERROR_TYPE_MISMATCH.

(** [h] is a handle to the node [n], which lives at address [a]. *)
Definition is_node_handle (w : World) (h : ptr) (a : N) (n : Node) : Prop :=
  h ≠ 0%N ∧
  lookup_handle w h = Some {| NodeWrapper_node := Some a |} ∧
  nodes (core w) !! a = Some n.

(** [h] is a handle to the datum [d]. *)
Definition is_data_handle (w : World) (h : ptr) (d : SharedNodeData) : Prop :=
  h ≠ 0%N ∧ lookup_handle w h = Some {| NodeDataWrapper_data := d |}.

(** [h] is a handle to the graph [g], which lives at address [a]. *)
Definition is_graph_handle (w : World) (h : ptr) (a : N) (g : Graph) : Prop :=
  h ≠ 0%N ∧
  lookup_handle w h = Some {| get_Graph := Some a |} ∧
  graphs (core w) !! a = Some g.

(** [h] is a handle to the module [m], which lives at address [a]. *)
Definition is_module_handle (w : World) (h : ptr) (a : N) (m : FlowModule) : Prop :=
  h ≠ 0%N ∧
  lookup_handle w h = Some {| get_Module := Some a |} ∧
  modules (core w) !! a = Some m.

(** The port that [flow_node_get_port_metadata] finds under a key: the
    input port of that key, or else the output port. *)
Definition port_of (n : Node) (k : string) : option Port :=
  match node_input_ports n !! k with
  | Some port => Some port
  | None => node_output_ports n !! k
  end.

(** The five semantic types of the port-metadata interchange. *)
Definition interworking_types : list string :=
  ["integer"; "float"; "boolean"; "string"; "none"].

(** The value [ToString] yields, if it yields one. *)
Definition returned {A} (r : Except A) : option A :=
  match r with
  | Ok a => Some a
  | Raise _ => None
  end.

(* ===================================================================== *)
(** * A concrete state

    One node at address [5] with an optional, empty input port [in] of type
    [int] and an output port [out]; one graph at address [6] holding the
    node and no connection; one module at address [8], not loaded.  The
    handles [1], [2], [3] and [4] stand for the node, a datum [3 : int], the
    graph and the module. *)
(* ===================================================================== *)

Module Example.

Definition port_in : Port :=
  {| port_key := "in"; port_data_type := "int"; port_caption := "In";
     port_required := false; port_data := None |}.

Definition port_out : Port :=
  {| port_key := "out"; port_data_type := "Image"; port_caption := "Out";
     port_required := false; port_data := None |}.

Definition the_node : Node :=
  {| node_id := 7; node_name := "n"; node_class := "math.double";
     node_input_ports := {["in" := port_in]};
     node_output_ports := {["out" := port_out]};
     node_computes := 0 |}.

Definition the_graph : Graph :=
  {| graph_name := "Default Graph"; graph_env := None;
     graph_nodes := {[7%N := 5%N]}; graph_connections := [] |}.

Definition the_module : FlowModule :=
  {| module_factory := None; module_loaded := false; module_metadata := None |}.

Definition the_core : Core :=
  {| nodes := {[5%N := the_node]}; graphs := {[6%N := the_graph]}; envs := ∅;
     factories := ∅; modules := {[8%N := the_module]} |}.

Definition the_handles : gmap ptr HandleBase :=
  <[1%N := HandleBase_.ctor (Handle_NodeWrapper {| NodeWrapper_node := Some 5%N |})]>
  (<[2%N := HandleBase_.ctor
              (Handle_NodeDataWrapper {| NodeDataWrapper_data := Some (NodeData_int 3) |})]>
  (<[3%N := HandleBase_.ctor (Handle_shared_ptr_Graph {| get_Graph := Some 6%N |})]>
  (<[4%N := HandleBase_.ctor (Handle_shared_ptr_Module {| get_Module := Some 8%N |})]> ∅))).

Definition world : World :=
  {| errors_ := ∅; handles_ := the_handles; core := the_core; memory := ∅;
     events := no_registrations |}.

(** A well-formed UUID that names nothing in [the_graph]. *)
Definition absent_id : string := "00000000-0000-0000-0000-0000000000ff".

End Example.

(** The type names [MapTypeToInterworkingType] reads as integers, as
    floats and as strings. *)
Definition integer_type_names : list string :=
  ["int"; "int32_t"; "int64_t"; "uint32_t"; "uint64_t"; "size_t"].
Definition float_type_names : list string := ["float"; "double"].
Definition string_type_names : list string := ["std::string"; "string"; "const char*"].

(** The object [CreateInterworkingJson] serialises for a port, as a
    function of the port: the member [type], and the member [value] when
    the type is editable, the port holds data and [ToString] returns. *)
Definition interworking_json {flow_core : FlowCore} (port : Port) : json :=
  let interworking_type := MapTypeToInterworkingType (port_data_type port) in
  let j : json := {["type" := interworking_type]} in
  if String.eqb interworking_type "none" then j
  else match port_data port ≫= (λ d, returned (NodeData_ToString d)) with
       | Some value_str => <["value" := value_str]> j
       | None => j
       end.

(** The state after [flow_node_get_port_metadata] has filled the record at
    [metadata]. *)
Definition filled_metadata (metadata : ptr) (port_key json_str : string)
    (has_default : bool) (w : World) : World :=
  set_memory
    (λ m, <[(metadata, field_has_default) := V_bool has_default]>
            (<[(metadata, field_interworking_value_json) := V_cstring (Some json_str)]>
               (<[(metadata, field_key) := V_cstring (Some port_key)]> m))) w.

(* ===================================================================== *)
(** * The C interface as data

    A call of a function of the bridge with its arguments, and the value it
    hands back: every function that [include/flow_ffi.h] exports but the
    six deallocators ([flow_free_string], [flow_free_string_array],
    [flow_free_handle_array], [flow_free_connection_array],
    [flow_free_port_metadata], [flow_free_port_metadata_array]). *)
(* ===================================================================== *)

Inductive BridgeCall :=
(* src/error_handling.cpp *)
| call_flow_get_last_error
| call_flow_clear_error
| call_flow_set_error (code : FlowError) (message : cstring)
(* src/handle_manager.cpp *)
| call_flow_is_valid_handle (handle : ptr)
| call_flow_retain_handle (handle : ptr)
| call_flow_release_handle (handle : ptr)
| call_flow_get_ref_count (handle : ptr)
(* src/env_bridge.cpp *)
| call_flow_env_create (max_threads : Z)
| call_flow_env_destroy (env : ptr)
| call_flow_env_get_factory (env : ptr)
| call_flow_env_wait (env : ptr)
| call_flow_env_get_var (env : ptr) (name : cstring)
(* src/factory_bridge.cpp *)
| call_flow_factory_create_node (factory : ptr) (class_name uuid name : cstring) (env : ptr)
| call_flow_factory_get_categories (factory categories count : ptr)
| call_flow_factory_get_node_classes (factory : ptr) (category : cstring) (classes count : ptr)
| call_flow_factory_get_friendly_name (factory : ptr) (class_name : cstring)
| call_flow_factory_is_convertible (factory : ptr) (from_type to_type : cstring)
(* src/graph_bridge.cpp *)
| call_flow_graph_create (env : ptr)
| call_flow_graph_destroy (graph : ptr)
| call_flow_graph_add_node (graph : ptr) (class_id name : cstring)
| call_flow_graph_remove_node (graph : ptr) (node_id : cstring)
| call_flow_graph_get_node (graph : ptr) (node_id : cstring)
| call_flow_graph_get_nodes (graph nodes count : ptr)
| call_flow_graph_connect_nodes (graph : ptr)
    (source_id source_port target_id target_port : cstring)
| call_flow_graph_disconnect_nodes (graph : ptr) (connection_id : cstring)
| call_flow_graph_run (graph : ptr)
| call_flow_graph_clear (graph : ptr)
| call_flow_graph_save_to_json (graph : ptr)
| call_flow_graph_load_from_json (graph : ptr) (json_str : cstring)
| call_flow_graph_get_connections (graph connections count : ptr)
| call_flow_graph_can_connect (graph : ptr)
    (source_id source_port target_id target_port : cstring)
(* src/connection_bridge.cpp *)
| call_flow_connection_get_id (conn : ptr)
| call_flow_connection_get_start_node_id (conn : ptr)
| call_flow_connection_get_start_port (conn : ptr)
| call_flow_connection_get_end_node_id (conn : ptr)
| call_flow_connection_get_end_port (conn : ptr)
(* src/node_bridge.cpp *)
| call_flow_node_get_id (node : ptr)
| call_flow_node_get_name (node : ptr)
| call_flow_node_get_class (node : ptr)
| call_flow_node_set_name (node : ptr) (name : cstring)
| call_flow_node_set_input_data (node : ptr) (port_key : cstring) (data : ptr)
| call_flow_node_get_input_data (node : ptr) (port_key : cstring)
| call_flow_node_get_output_data (node : ptr) (port_key : cstring)
| call_flow_node_clear_input_data (node : ptr) (port_key : cstring)
| call_flow_node_clear_output_data (node : ptr) (port_key : cstring)
| call_flow_node_invoke_compute (node : ptr)
| call_flow_node_validate_required_inputs (node : ptr)
| call_flow_node_has_connected_inputs (node : ptr)
| call_flow_node_has_connected_outputs (node : ptr)
| call_flow_node_save_to_json (node : ptr)
| call_flow_node_load_from_json (node : ptr) (json_str : cstring)
| call_flow_node_get_input_port_keys (node port_keys count : ptr)
| call_flow_node_get_output_port_keys (node port_keys count : ptr)
| call_flow_node_get_input_port_type (node : ptr) (port_key : cstring)
| call_flow_node_get_output_port_type (node : ptr) (port_key : cstring)
| call_flow_node_get_port_description (node : ptr) (port_key : cstring) (is_input_port : bool)
| call_flow_node_get_port_metadata (node : ptr) (port_key : cstring) (metadata : ptr)
| call_flow_node_get_input_ports_metadata (node metadata_array count : ptr)
(* src/type_conversions.cpp *)
| call_flow_data_create_int (value : Z)
| call_flow_data_create_double (value : float)
| call_flow_data_create_bool (value : bool)
| call_flow_data_create_string (value : cstring)
| call_flow_data_get_int (data value : ptr)
| call_flow_data_get_double (data value : ptr)
| call_flow_data_get_bool (data value : ptr)
| call_flow_data_get_string (data value : ptr)
| call_flow_data_get_type (data : ptr)
| call_flow_data_destroy (data : ptr)
| call_flow_data_to_string (data : ptr)
(* src/module_bridge.cpp *)
| call_flow_module_create (factory : ptr)
| call_flow_module_destroy (module : ptr)
| call_flow_module_load (module : ptr) (path : cstring)
| call_flow_module_unload (module : ptr)
| call_flow_module_register_nodes (module : ptr)
| call_flow_module_unregister_nodes (module : ptr)
| call_flow_module_is_loaded (module : ptr)
| call_flow_module_get_name (module : ptr)
| call_flow_module_get_version (module : ptr)
| call_flow_module_get_author (module : ptr)
| call_flow_module_get_description (module : ptr)
(* src/event_bridge.cpp *)
| call_flow_graph_on_node_added (graph callback user_data : ptr)
| call_flow_graph_on_node_removed (graph callback user_data : ptr)
| call_flow_graph_on_nodes_connected (graph callback user_data : ptr)
| call_flow_graph_on_nodes_disconnected (graph callback user_data : ptr)
| call_flow_graph_on_error (graph callback user_data : ptr)
| call_flow_node_on_compute (node callback user_data : ptr)
| call_flow_node_on_error (node callback user_data : ptr)
| call_flow_node_on_set_input (node callback user_data : ptr)
| call_flow_node_on_set_output (node callback user_data : ptr)
| call_flow_event_unregister (registration : ptr)
| call_flow_event_is_valid (registration : ptr).

(** What a call hands back, by the return type of the function. *)
Inductive Result :=
| R_void
| R_error (code : FlowError)
| R_handle (handle : ptr)
| R_string (str : cstring)
| R_bool (b : bool)
| R_count (n : Z)
| R_registration (registration : ptr).

Definition returning {A} (inj : A → Result) (c : M A) : M Result :=
  a <- c;; ret (inj a).

Definition run {flow_core : FlowCore} (c : BridgeCall) : M Result :=
  match c with
  | call_flow_get_last_error => returning R_string flow_get_last_error
  | call_flow_clear_error => returning (λ _, R_void) flow_clear_error
  | call_flow_set_error code message => returning (λ _, R_void) (flow_set_error code message)
  | call_flow_is_valid_handle handle => returning R_bool (flow_is_valid_handle handle)
  | call_flow_retain_handle handle => returning (λ _, R_void) (flow_retain_handle handle)
  | call_flow_release_handle handle => returning (λ _, R_void) (flow_release_handle handle)
  | call_flow_get_ref_count handle => returning R_count (flow_get_ref_count handle)
  | call_flow_env_create max_threads => returning R_handle (flow_env_create max_threads)
  | call_flow_env_destroy env => returning (λ _, R_void) (flow_env_destroy env)
  | call_flow_env_get_factory env => returning R_handle (flow_env_get_factory env)
  | call_flow_env_wait env => returning R_error (flow_env_wait env)
  | call_flow_env_get_var env name => returning R_string (flow_env_get_var env name)
  | call_flow_factory_create_node factory class_name uuid name env =>
      returning R_handle (flow_factory_create_node factory class_name uuid name env)
  | call_flow_factory_get_categories factory categories count =>
      returning R_error (flow_factory_get_categories factory categories count)
  | call_flow_factory_get_node_classes factory category classes count =>
      returning R_error (flow_factory_get_node_classes factory category classes count)
  | call_flow_factory_get_friendly_name factory class_name =>
      returning R_string (flow_factory_get_friendly_name factory class_name)
  | call_flow_factory_is_convertible factory from_type to_type =>
      returning R_bool (flow_factory_is_convertible factory from_type to_type)
  | call_flow_graph_create env => returning R_handle (flow_graph_create env)
  | call_flow_graph_destroy graph => returning (λ _, R_void) (flow_graph_destroy graph)
  | call_flow_graph_add_node graph class_id name =>
      returning R_handle (flow_graph_add_node graph class_id name)
  | call_flow_graph_remove_node graph node_id =>
      returning R_error (flow_graph_remove_node graph node_id)
  | call_flow_graph_get_node graph node_id =>
      returning R_handle (flow_graph_get_node graph node_id)
  | call_flow_graph_get_nodes graph nodes count =>
      returning R_error (flow_graph_get_nodes graph nodes count)
  | call_flow_graph_connect_nodes graph source_id source_port target_id target_port =>
      returning R_handle
        (flow_graph_connect_nodes graph source_id source_port target_id target_port)
  | call_flow_graph_disconnect_nodes graph connection_id =>
      returning R_error (flow_graph_disconnect_nodes graph connection_id)
  | call_flow_graph_run graph => returning R_error (flow_graph_run graph)
  | call_flow_graph_clear graph => returning R_error (flow_graph_clear graph)
  | call_flow_graph_save_to_json graph => returning R_string (flow_graph_save_to_json graph)
  | call_flow_graph_load_from_json graph json_str =>
      returning R_error (flow_graph_load_from_json graph json_str)
  | call_flow_graph_get_connections graph connections count =>
      returning R_error (flow_graph_get_connections graph connections count)
  | call_flow_graph_can_connect graph source_id source_port target_id target_port =>
      returning R_bool
        (flow_graph_can_connect graph source_id source_port target_id target_port)
  | call_flow_connection_get_id conn => returning R_string (flow_connection_get_id conn)
  | call_flow_connection_get_start_node_id conn =>
      returning R_string (flow_connection_get_start_node_id conn)
  | call_flow_connection_get_start_port conn =>
      returning R_string (flow_connection_get_start_port conn)
  | call_flow_connection_get_end_node_id conn =>
      returning R_string (flow_connection_get_end_node_id conn)
  | call_flow_connection_get_end_port conn =>
      returning R_string (flow_connection_get_end_port conn)
  | call_flow_node_get_id node => returning R_string (flow_node_get_id node)
  | call_flow_node_get_name node => returning R_string (flow_node_get_name node)
  | call_flow_node_get_class node => returning R_string (flow_node_get_class node)
  | call_flow_node_set_name node name => returning R_error (flow_node_set_name node name)
  | call_flow_node_set_input_data node port_key data =>
      returning R_error (flow_node_set_input_data node port_key data)
  | call_flow_node_get_input_data node port_key =>
      returning R_handle (flow_node_get_input_data node port_key)
  | call_flow_node_get_output_data node port_key =>
      returning R_handle (flow_node_get_output_data node port_key)
  | call_flow_node_clear_input_data node port_key =>
      returning R_error (flow_node_clear_input_data node port_key)
  | call_flow_node_clear_output_data node port_key =>
      returning R_error (flow_node_clear_output_data node port_key)
  | call_flow_node_invoke_compute node => returning R_error (flow_node_invoke_compute node)
  | call_flow_node_validate_required_inputs node =>
      returning R_bool (flow_node_validate_required_inputs node)
  | call_flow_node_has_connected_inputs node =>
      returning R_bool (flow_node_has_connected_inputs node)
  | call_flow_node_has_connected_outputs node =>
      returning R_bool (flow_node_has_connected_outputs node)
  | call_flow_node_save_to_json node => returning R_string (flow_node_save_to_json node)
  | call_flow_node_load_from_json node json_str =>
      returning R_error (flow_node_load_from_json node json_str)
  | call_flow_node_get_input_port_keys node port_keys count =>
      returning R_error (flow_node_get_input_port_keys node port_keys count)
  | call_flow_node_get_output_port_keys node port_keys count =>
      returning R_error (flow_node_get_output_port_keys node port_keys count)
  | call_flow_node_get_input_port_type node port_key =>
      returning R_string (flow_node_get_input_port_type node port_key)
  | call_flow_node_get_output_port_type node port_key =>
      returning R_string (flow_node_get_output_port_type node port_key)
  | call_flow_node_get_port_description node port_key is_input_port =>
      returning R_string (flow_node_get_port_description node port_key is_input_port)
  | call_flow_node_get_port_metadata node port_key metadata =>
      returning R_error (flow_node_get_port_metadata node port_key metadata)
  | call_flow_node_get_input_ports_metadata node metadata_array count =>
      returning R_error (flow_node_get_input_ports_metadata node metadata_array count)
  | call_flow_data_create_int value => returning R_handle (flow_data_create_int value)
  | call_flow_data_create_double value => returning R_handle (flow_data_create_double value)
  | call_flow_data_create_bool value => returning R_handle (flow_data_create_bool value)
  | call_flow_data_create_string value => returning R_handle (flow_data_create_string value)
  | call_flow_data_get_int data value => returning R_error (flow_data_get_int data value)
  | call_flow_data_get_double data value =>
      returning R_error (flow_data_get_double data value)
  | call_flow_data_get_bool data value => returning R_error (flow_data_get_bool data value)
  | call_flow_data_get_string data value =>
      returning R_error (flow_data_get_string data value)
  | call_flow_data_get_type data => returning R_string (flow_data_get_type data)
  | call_flow_data_destroy data => returning (λ _, R_void) (flow_data_destroy data)
  | call_flow_data_to_string data => returning R_string (flow_data_to_string data)
  | call_flow_module_create factory => returning R_handle (flow_module_create factory)
  | call_flow_module_destroy module => returning (λ _, R_void) (flow_module_destroy module)
  | call_flow_module_load module path => returning R_error (flow_module_load module path)
  | call_flow_module_unload module => returning R_error (flow_module_unload module)
  | call_flow_module_register_nodes module =>
      returning R_error (flow_module_register_nodes module)
  | call_flow_module_unregister_nodes module =>
      returning R_error (flow_module_unregister_nodes module)
  | call_flow_module_is_loaded module => returning R_bool (flow_module_is_loaded module)
  | call_flow_module_get_name module => returning R_string (flow_module_get_name module)
  | call_flow_module_get_version module =>
      returning R_string (flow_module_get_version module)
  | call_flow_module_get_author module => returning R_string (flow_module_get_author module)
  | call_flow_module_get_description module =>
      returning R_string (flow_module_get_description module)
  | call_flow_graph_on_node_added graph callback user_data =>
      returning R_registration (flow_graph_on_node_added graph callback user_data)
  | call_flow_graph_on_node_removed graph callback user_data =>
      returning R_registration (flow_graph_on_node_removed graph callback user_data)
  | call_flow_graph_on_nodes_connected graph callback user_data =>
      returning R_registration (flow_graph_on_nodes_connected graph callback user_data)
  | call_flow_graph_on_nodes_disconnected graph callback user_data =>
      returning R_registration (flow_graph_on_nodes_disconnected graph callback user_data)
  | call_flow_graph_on_error graph callback user_data =>
      returning R_registration (flow_graph_on_error graph callback user_data)
  | call_flow_node_on_compute node callback user_data =>
      returning R_registration (flow_node_on_compute node callback user_data)
  | call_flow_node_on_error node callback user_data =>
      returning R_registration (flow_node_on_error node callback user_data)
  | call_flow_node_on_set_input node callback user_data =>
      returning R_registration (flow_node_on_set_input node callback user_data)
  | call_flow_node_on_set_output node callback user_data =>
      returning R_registration (flow_node_on_set_output node callback user_data)
  | call_flow_event_unregister registration =>
      returning R_error (flow_event_unregister registration)
  | call_flow_event_is_valid registration =>
      returning R_bool (flow_event_is_valid registration)
  end.








(* ===================================================================== *)
(** * Further vocabulary *)
(* ===================================================================== *)

(** [n] calls of [c] in a row. *)
Fixpoint repeat_call (n : nat) (c : M unit) : M unit :=
  match n with
  | O => ret tt
  | S n => c;; repeat_call n c
  end.

(** The four destroy functions of the interface. *)
Definition destroy_functions {flow_core : FlowCore} : list (ptr → M unit) :=
  [flow_env_destroy; flow_graph_destroy; flow_data_destroy; flow_module_destroy].


(** [h] is a handle made between the states [w] and [w']: it was not
    registered, it is now, with a count of one, and nothing else was. *)
Definition hands_out (w : World) (h : ptr) (w' : World) : Prop :=
  handles_ w !! h = None ∧
  ∃ o, handles_ w' = <[h := HandleBase_.ctor o]> (handles_ w).

(** The functions that have no handler at all: those of
    [error_handling.cpp] and [handle_manager.cpp], [flow_module_destroy]
    and [flow_event_is_valid]. *)
Definition no_handler (c : BridgeCall) : bool :=
  match c with
  | call_flow_get_last_error | call_flow_clear_error | call_flow_set_error _ _
  | call_flow_is_valid_handle _ | call_flow_retain_handle _
  | call_flow_release_handle _ | call_flow_get_ref_count _
  | call_flow_module_destroy _
  | call_flow_event_is_valid _ => true
  | _ => false
  end.

(** The functions whose calls into flow-core stand in a [try] block with
    the one clause [catch (const std::exception&)]:
    [flow_factory_is_convertible], [flow_graph_can_connect], the three
    queries of a node that return [bool], and the functions of
    [module_bridge.cpp] but [flow_module_destroy]. *)
Definition catches_std_exception_only (c : BridgeCall) : bool :=
  match c with
  | call_flow_factory_is_convertible _ _ _
  | call_flow_graph_can_connect _ _ _ _ _
  | call_flow_node_validate_required_inputs _
  | call_flow_node_has_connected_inputs _ | call_flow_node_has_connected_outputs _
  | call_flow_module_create _
  | call_flow_module_load _ _ | call_flow_module_unload _
  | call_flow_module_register_nodes _ | call_flow_module_unregister_nodes _
  | call_flow_module_is_loaded _
  | call_flow_module_get_name _ | call_flow_module_get_version _
  | call_flow_module_get_author _ | call_flow_module_get_description _ => true
  | _ => false
  end.

(** The functions whose body stands behind a [catch (...)]: the ones
    wrapped by a [FLOW_API_CALL] macro and [flow_graph_connect_nodes], which
    spells the two clauses out.  These are all the others. *)
Definition catches_everything (c : BridgeCall) : bool :=
  negb (no_handler c) && negb (catches_std_exception_only c).

(** The calls during which flow-core raises an event that hands a new
    handle to a callback: [AddNode] raises [OnNodeAdded] and [ConnectNodes]
    raises [OnNodesConnected], and the lambdas bound to them by
    [flow_graph_on_node_added] and [flow_graph_on_nodes_connected] call
    [create_handle]. *)
Definition raises_handle_event (c : BridgeCall) : bool :=
  match c with
  | call_flow_graph_add_node _ _ _ | call_flow_graph_connect_nodes _ _ _ _ _ => true
  | _ => false
  end.

(** [h] is registered in [w] with a count of one. *)
Definition newly_registered (w : World) (h : ptr) : Prop :=
  ∃ o, handles_ w !! h = Some (HandleBase_.ctor o).

(** Whether the port of [ports] under a key holds data. *)
Definition holds_data (ports : gmap string Port) (kp : string * Port) : bool :=
  bool_decide (is_Some (ports !! kp.1 ≫= port_data)).

(** A [FlowPortMetadata] record as a value: [key],
    [interworking_value_json], [has_default]. *)
Definition metadata_record (port_key json_str : string) (has_default : bool) : Value :=
  V_struct [V_cstring (Some port_key); V_cstring (Some json_str); V_bool has_default].

(** What an array out-parameter receives for the elements [l]: null for
    none, a new array otherwise. *)
Definition new_array (l : list Value) : Value :=
  V_array (match l with [] => None | _ => Some l end).

(** The state after a call has stored a count and an array through its
    two out-parameters. *)
Definition listed (array count : ptr) (l : list Value) (w : World) : World :=
  set_memory <[(array, 0) := new_array l]>
    (set_memory <[(count, 0) := V_size (length l)]> w).

(** [h] is a handle to the environment at address [a]. *)
Definition is_env_handle (w : World) (h : ptr) (a : N) : Prop :=
  h ≠ 0%N ∧ lookup_handle w h = Some {| EnvWrapper_env := Some a |}.

(** [h] is a handle to the factory [f], which lives at address [a]. *)
Definition is_factory_handle (w : World) (h : ptr) (a : N) (f : NodeFactory) : Prop :=
  h ≠ 0%N ∧
  lookup_handle w h = Some {| NodeFactoryWrapper_factory := Some a |} ∧
  factories (core w) !! a = Some f.

(** [h] is a handle to the connection [conn]. *)
Definition is_connection_handle (w : World) (h : ptr) (conn : Connection) : Prop :=
  h ≠ 0%N ∧ lookup_handle (T := option Connection) w h = Some (Some conn).

(** The graph that [std::make_shared<Graph>(name, env)] makes. *)
Definition new_graph (name : string) (env : shared_ptr) : Graph :=
  {| graph_name := name; graph_env := env; graph_nodes := ∅; graph_connections := [] |}.

(** [h] is a handle to the node at address [a]. *)
Definition is_node_handle_to (w : World) (h : ptr) (a : N) : Prop :=
  h ≠ 0%N ∧ lookup_handle w h = Some {| NodeWrapper_node := Some a |}.

(** The state [w'] differs from [w] in the registry at most. *)
Definition same_but_handles (w w' : World) : Prop :=
  errors_ w' = errors_ w ∧ core w' = core w ∧ memory w' = memory w ∧
  events w' = events w.

(* ===================================================================== *)
(** * A second concrete state and engine

    An environment at address [10] with the factory at address [11], which
    files three classes under two categories; the graph at address [6]
    holds the node of the first example and one connection, from the port
    [out] of the node to its port [in].  The handles [1], [2], [3] and [4]
    stand for the environment, the factory, the graph and the connection.

    The engine is the reference engine with a factory that makes nodes of
    the classes it knows, graphs that take and connect nodes, and a file
    system in which the absolute paths exist; its loader of modules is a
    parameter.  It is used to run the bridge on concrete inputs; no theorem
    about the bridge assumes it. *)
(* ===================================================================== *)

Module Studio.

Definition the_connection : Connection :=
  {| conn_id := 9; conn_start_node := 7; conn_start_port := "out";
     conn_end_node := 7; conn_end_port := "in" |}.

Definition the_factory : NodeFactory :=
  {| factory_categories :=
       [("math", "math.add"); ("image", "image.blur"); ("math", "math.mul")] |}.

Definition the_env : Env :=
  {| env_factory := Some 11%N; env_settings := {| MaxThreads := 4 |} |}.

Definition the_graph : Graph :=
  {| graph_name := "Default Graph"; graph_env := Some 10%N;
     graph_nodes := {[7%N := 5%N]}; graph_connections := [(7%N, the_connection)] |}.

Definition the_core : Core :=
  {| nodes := {[5%N := Example.the_node]}; graphs := {[6%N := the_graph]};
     envs := {[10%N := the_env]}; factories := {[11%N := the_factory]}; modules := ∅ |}.

Definition the_handles : gmap ptr HandleBase :=
  <[1%N := HandleBase_.ctor (Handle_EnvWrapper {| EnvWrapper_env := Some 10%N |})]>
  (<[2%N := HandleBase_.ctor
              (Handle_NodeFactoryWrapper {| NodeFactoryWrapper_factory := Some 11%N |})]>
  (<[3%N := HandleBase_.ctor (Handle_shared_ptr_Graph {| get_Graph := Some 6%N |})]>
  (<[4%N := HandleBase_.ctor (Handle_SharedConnection (Some the_connection))]> ∅))).

Definition world : World :=
  {| errors_ := ∅; handles_ := the_handles; core := the_core; memory := ∅;
     events := no_registrations |}.

(** [UUID()]: an id that no node has. *)
Definition generate : EngineProc UUID :=
  λ c, (Ok (100 + N.of_nat (size (nodes c)))%N, c).

(** [CreateNode]: a node without ports, of a class the factory files. *)
Definition CreateNode (f : N) (class_name : string) (uuid : UUID) (name : string)
    (env : shared_ptr) : EngineProc shared_ptr :=
  λ c,
    match factories c !! f with
    | Some factory =>
        if bool_decide (class_name ∈ (factory_categories factory).*2) then
          let a := fresh (dom (nodes c)) in
          (Ok (Some a),
           Reference.set_nodes
             <[a := {| node_id := uuid; node_name := name; node_class := class_name;
                       node_input_ports := ∅; node_output_ports := ∅;
                       node_computes := 0 |}]> c)
        else (Ok None, c)
    | None => (Ok None, c)
    end.

(** [AddNode]: the graph holds the node under its id. *)
Definition AddNode (g : N) (node : shared_ptr) : EngineProc unit :=
  λ c,
    match node, graphs c !! g with
    | Some a, Some gr =>
        match nodes c !! a with
        | Some n =>
            (Ok tt,
             Reference.set_graphs
               <[g := {| graph_name := graph_name gr; graph_env := graph_env gr;
                         graph_nodes := <[node_id n := a]> (graph_nodes gr);
                         graph_connections := graph_connections gr |}]> c)
        | None => (Ok tt, c)
        end
    | _, _ => (Ok tt, c)
    end.

(** [ConnectNodes]: a connection between two nodes of the graph. *)
Definition ConnectNodes (g : N) (s : UUID) (sp : string) (e : UUID) (ep : string)
    : EngineProc SharedConnection :=
  λ c,
    match graphs c !! g with
    | Some gr =>
        if bool_decide (is_Some (graph_nodes gr !! s)) &&
           bool_decide (is_Some (graph_nodes gr !! e)) then
          let conn := {| conn_id := (1000 + N.of_nat (length (graph_connections gr)))%N;
                         conn_start_node := s; conn_start_port := sp;
                         conn_end_node := e; conn_end_port := ep |} in
          (Ok (Some conn),
           Reference.set_graphs
             <[g := {| graph_name := graph_name gr; graph_env := graph_env gr;
                       graph_nodes := graph_nodes gr;
                       graph_connections := graph_connections gr ++ [(s, conn)] |}]> c)
        else (Ok None, c)
    | None => (Ok None, c)
    end.

(** The engine, for a loader of modules. *)
Definition engine_with (Load : N → string → EngineProc bool) : FlowCore := {|
  TypeName_view := Reference.view;
  NodeData_ToString := Reference.ToString;
  UUID_parse := Reference.UUID_of_string;
  UUID_string := Reference.string_of_UUID;
  json_dump := Reference.dump;
  Node_SetInputData := Reference.SetInputData;
  Node_SetOutputData := Reference.SetOutputData;
  Node_InvokeCompute := Reference.InvokeCompute;
  Node_SetName := Reference.SetName;
  Graph_DisconnectNodes := Reference.DisconnectNodes;
  Graph_RemoveNodeByID := Reference.RemoveNodeByID;
  Graph_Run := Reference.Run;
  Graph_Clear := Reference.Clear;
  Env_Wait := λ _, Reference.idle tt;
  Env_GetVar := λ _ name, Reference.idle name;
  Module_Load := Load;
  Module_Unload := Reference.Unload;
  Module_RegisterModuleNodes := λ _, Reference.idle tt;
  Module_UnregisterModuleNodes := λ _, Reference.idle tt;
  fs_exists := λ path, Ok (is_prefix "/" path);
  UUID_generate := generate;
  Factory_CreateNode := CreateNode;
  Factory_GetFriendlyName := λ _ class_name, Reference.idle class_name;
  Factory_IsConvertible := λ _ from_type to_type,
    Reference.idle (String.eqb from_type to_type);
  Graph_AddNode := AddNode;
  Graph_ConnectNodes := ConnectNodes;
  Graph_CanConnectNode := λ _ _ _ _ _, Reference.idle false;
  json_document := string;
  json_parse := Reference.parse;
  json_document_dump := λ j _, Ok j;
  Graph_to_json := λ _, Reference.idle "{}";
  Graph_from_json := λ _ _, Reference.idle tt;
  Node_Save := λ _, Reference.idle "{}";
  Node_Restore := λ _ _, Reference.idle tt;
  EventDispatcher_Bind := λ _ _ _ _, Reference.idle tt;
  EventDispatcher_Unbind := λ _ _ _, Reference.idle tt;
  Handle_dtor := λ _ c, c;
|}.

Definition engine : FlowCore := engine_with Reference.Load.

(** A loader that throws what is no [std::exception]. *)
Definition foreign_loader (m : N) (path : string) : EngineProc bool :=
  λ c, (Raise non_std_exception, c).

End Studio.
(* ===================================================================== *)
(** * The rules of the weakest-precondition calculus *)
(* ===================================================================== *)

(** Calls are taken apart by the rules below, not by computation. *)
Arguments ret : simpl never.
Arguments bind : simpl never.
Arguments throw : simpl never.
Arguments crash : simpl never.
Arguments try_catch : simpl never.
Arguments call : simpl never.
Arguments lift : simpl never.
Arguments deref : simpl never.
Arguments arrow : simpl never.
Arguments store : simpl never.
Arguments validate_handle : simpl never.
Arguments validate_string : simpl never.
Arguments validate_pointer : simpl never.
Arguments get_handle : simpl never.
Arguments create_handle : simpl never.
Arguments release_handle : simpl never.
Arguments is_valid_handle : simpl never.
Arguments ErrorManager.set_error : simpl never.
Arguments ErrorManager.clear_error : simpl never.
Arguments ErrorManager.get_last_error : simpl never.
Arguments FLOW_API_CALL_ : simpl never.
Arguments lookup_handle : simpl never.
Arguments add_event_registration : simpl never.
Arguments deref_registration : simpl never.
Arguments remove_event_registration : simpl never.
Arguments new_registration : simpl never.



Lemma wp_eq {A} (c : M A) tid w r w' :
  wp c tid w (λ r0 w0, r0 = r ∧ w0 = w') → c tid w = (r, w').
Proof. unfold wp. destruct (c tid w) as [r0 w0]; simpl. by intros [-> ->]. Qed.

Lemma wp_eq_pair {A} (c : M A) tid w (x : Res A * World) :
  wp c tid w (λ r0 w0, (r0, w0) = x) → c tid w = x.
Proof. unfold wp. by destruct (c tid w). Qed.

Lemma wp_mono {A} (c : M A) tid w (Q Q' : Res A → World → Prop) :
  wp c tid w Q → (∀ r w', Q r w' → Q' r w') → wp c tid w Q'.
Proof. unfold wp. auto. Qed.

Lemma wp_ret {A} (a : A) tid w Q : Q (Return a) w → wp (ret a) tid w Q.
Proof. done. Qed.

Lemma wp_throw {A} e tid w (Q : Res A → World → Prop) : Q (Throw e) w → wp (throw e) tid w Q.
Proof. done. Qed.

Lemma wp_crash {A} tid w (Q : Res A → World → Prop) : Q Crash w → wp crash tid w Q.
Proof. done. Qed.


Lemma wp_bind {A B} (c : M A) (k : A → M B) tid w Q :
  wp c tid w (bind_post k tid Q) → wp (bind c k) tid w Q.
Proof. unfold wp, bind, bind_post. by destruct (c tid w) as [[]]. Qed.


Lemma wp_try_catch {A} (body : M A) handler tid w Q :
  wp body tid w (catch_post handler tid Q) → wp (try_catch body handler) tid w Q.
Proof.
  unfold wp, try_catch, catch_post.
  destruct (body tid w) as [[| e |] w']; simpl; try done.
  by destruct (handler e).
Qed.

Lemma wp_set_error code msg tid w Q :
  Q (Return tt) (set_errors_ <[tid := {| code := code; message := msg |}]> w) →
  wp (ErrorManager.set_error code msg) tid w Q.
Proof. done. Qed.

Lemma wp_clear_error tid w Q :
  Q (Return tt) (set_errors_ (delete tid) w) → wp ErrorManager.clear_error tid w Q.
Proof. done. Qed.

Lemma wp_get_last_error tid w Q :
  Q (Return (message <$> errors_ w !! tid)) w → wp ErrorManager.get_last_error tid w Q.
Proof.
  unfold wp, ErrorManager.get_last_error, bind, this_thread_get_id; simpl.
  by destruct (errors_ w !! tid).
Qed.


Lemma wp_validate_handle handle handle_name tid w Q :
  (handle ≠ 0%N → is_Some (handles_ w !! handle) → Q (Return true) w) →
  (handle = 0%N ∨ handles_ w !! handle = None →
   Q (Return false)
     (set_errors_ <[tid := {| code := FLOW_ERROR_INVALID_HANDLE;
                              message := invalid_handle_message handle handle_name |}]> w)) →
  wp (validate_handle handle handle_name) tid w Q.
Proof.
  intros Hok Hbad. unfold wp, validate_handle, invalid_handle_message in *.
  case_bool_decide as Hn.
  - apply Hbad. by left.
  - unfold bind, flow_is_valid_handle, is_valid_handle, HandleRegistry.is_valid_handle; simpl.
    case_bool_decide as Hv; simpl.
    + by apply Hok.
    + apply Hbad. right. by apply eq_None_not_Some.
Qed.

Lemma wp_validate_string str param_name tid w Q :
  (∀ s, str = Some s → Q (Return true) w) →
  (str = None →
   Q (Return false)
     (set_errors_ <[tid := {| code := FLOW_ERROR_INVALID_ARGUMENT;
                              message := "Invalid argument: " +:+ param_name +:+ " is null" |}]>
        w)) →
  wp (validate_string str param_name) tid w Q.
Proof. intros H1 H2. destruct str; [by eapply H1 | by apply H2]. Qed.

Lemma wp_validate_pointer p param_name tid w Q :
  (p ≠ 0%N → Q (Return true) w) →
  (p = 0%N →
   Q (Return false)
     (set_errors_ <[tid := {| code := FLOW_ERROR_INVALID_ARGUMENT;
                              message := "Invalid argument: " +:+ param_name +:+ " is null" |}]>
        w)) →
  wp (validate_pointer p param_name) tid w Q.
Proof. intros H1 H2. unfold wp, validate_pointer. case_bool_decide; [by apply H2 | by apply H1]. Qed.


Lemma wp_get_handle {T} `{HandleType T} p tid w Q :
  Q (Return (lookup_handle (T := T) w p)) w → wp (get_handle (T := T) p) tid w Q.
Proof.
  unfold wp, get_handle, HandleRegistry.get_handle, lookup_handle.
  destruct (handles_ w !! p) as [it|]; simpl; [|done].
  by destruct (dynamic_cast (handle_object it)).
Qed.

Lemma wp_deref {T} (store : Core → gmap N T) p tid w Q :
  (∀ a t, p = Some a → store (core w) !! a = Some t → Q (Return t) w) →
  ((p ≫= λ a, store (core w) !! a) = None → Q Crash w) →
  wp (deref store p) tid w Q.
Proof.
  intros H1 H2. unfold wp, deref.
  destruct p as [a|]; simpl in *; [|by apply H2].
  destruct (store (core w) !! a) as [t|] eqn:Ht; [by eapply H1 | by apply H2].
Qed.

Lemma wp_arrow {T} (store : Core → gmap N T) p tid w Q :
  (∀ a t, p = Some a → store (core w) !! a = Some t → Q (Return a) w) →
  ((p ≫= λ a, store (core w) !! a) = None → Q Crash w) →
  wp (arrow store p) tid w Q.
Proof.
  intros H1 H2. unfold wp, arrow. destruct p as [a|]; simpl in *; [|by apply H2].
  case_bool_decide as Hs.
  - destruct Hs as [t Ht]. by eapply H1.
  - apply H2. by apply eq_None_not_Some.
Qed.

Lemma wp_call {A} (f : EngineProc A) tid w Q :
  (∀ r c, f (core w) = (r, c) → Q (Res_of_Except r) (set_core c w)) →
  wp (call f) tid w Q.
Proof. intros HQ. unfold wp, call. destruct (f (core w)) as [r c] eqn:Hf. by apply HQ. Qed.

Lemma wp_lift {A} (r : Except A) tid w Q : Q (Res_of_Except r) w → wp (lift r) tid w Q.
Proof. done. Qed.

Lemma wp_store p field v tid w Q :
  Q (Return tt) (set_memory <[(p, field) := v]> w) → wp (store p field v) tid w Q.
Proof. done. Qed.

Lemma wp_create_handle {T} `{HandleType T} (args : T) tid w Q :
  Q (Return (HandleRegistry.new_address (handles_ w)))
    (set_handles_ <[HandleRegistry.new_address (handles_ w) :=
                      HandleBase_.ctor (make_Handle args)]> w) →
  wp (create_handle args) tid w Q.
Proof. done. Qed.


Lemma wp_FLOW_API_CALL_ {A} (failure : A) code tid w Q :
  wp code tid w
     (λ r w', match r with
              | Return a => Q (Return a) w'
              | Throw e =>
                  Q (Return failure)
                    (set_errors_ <[tid := {| code := FLOW_ERROR_UNKNOWN;
                                             message := api_call_message e |}]> w')
              | Crash => Q Crash w'
              end) →
  wp (FLOW_API_CALL_ failure code) tid w Q.
Proof.
  unfold wp, FLOW_API_CALL_, try_catch, bind.
  destruct (code tid w) as [[a | e |] w']; simpl; try done.
  by destruct e.
Qed.


Lemma wp_add_event_registration type handle callback user_data tid w Q :
  Q (Return (new_registration w)) (tracked type handle callback user_data w) →
  wp (add_event_registration type handle callback user_data) tid w Q.
Proof. done. Qed.

Lemma wp_deref_registration reg tid w Q :
  (∀ r, g_event_registrations (events w) !! reg = Some r → Q (Return r) w) →
  (g_event_registrations (events w) !! reg = None → Q Crash w) →
  wp (deref_registration reg) tid w Q.
Proof.
  intros H1 H2. unfold wp, deref_registration.
  destruct (g_event_registrations (events w) !! reg) as [r|] eqn:Hr; [by apply H1 | by apply H2].
Qed.

Lemma wp_remove_event_registration registration tid w Q :
  (∀ r, g_event_registrations (events w) !! registration = Some r →
     Q (Return true)
       (set_events {| g_event_registrations :=
                        delete registration (g_event_registrations (events w));
                      counter := counter (events w) |} w)) →
  (g_event_registrations (events w) !! registration = None → Q (Return false) w) →
  wp (remove_event_registration registration) tid w Q.
Proof.
  intros H1 H2. unfold wp, remove_event_registration.
  destruct (g_event_registrations (events w) !! registration) as [r|] eqn:Hr;
    [by eapply H1 | by apply H2].
Qed.

(** The registry does not depend on the recorded errors. *)
Lemma lookup_handle_set_errors_ {T} `{HandleType T} f w p :
  lookup_handle (T := T) (set_errors_ f w) p = lookup_handle w p.
Proof. done. Qed.

Lemma new_address_fresh (handles : gmap ptr HandleBase) :
  HandleRegistry.new_address handles ≠ 0%N ∧
  handles !! HandleRegistry.new_address handles = None.
Proof.
  unfold HandleRegistry.new_address.
  pose proof (is_fresh (dom handles ∪ {[0%N]})) as Hf.
  split.
  - intros Heq. apply Hf. rewrite Heq. set_solver.
  - apply not_elem_of_dom. set_solver.
Qed.

(** One step of symbolic execution. *)
Ltac wp_step :=
  lazymatch goal with
  | |- wp (bind _ _) _ _ _ => apply wp_bind
  | |- wp (ret _) _ _ _ => apply wp_ret
  | |- wp (throw _) _ _ _ => apply wp_throw
  | |- wp crash _ _ _ => apply wp_crash
  | |- wp (try_catch _ _) _ _ _ => apply wp_try_catch
  | |- wp (FLOW_API_CALL _) _ _ _ => apply wp_FLOW_API_CALL_
  | |- wp (FLOW_API_CALL_HANDLE _) _ _ _ => apply wp_FLOW_API_CALL_
  | |- wp (FLOW_API_CALL_VOID _) _ _ _ => apply wp_FLOW_API_CALL_
  | |- wp (validate_handle _ _) _ _ _ => apply wp_validate_handle; [intros ? ? | intros ?]
  | |- wp (validate_string _ _) _ _ _ => apply wp_validate_string; [intros ? ? | intros ?]
  | |- wp (validate_pointer _ _) _ _ _ => apply wp_validate_pointer; intros ?
  | |- wp (get_handle _) _ _ _ => apply wp_get_handle
  | |- wp (deref _ _) _ _ _ => apply wp_deref; [intros ? ? ? ? | intros ?]
  | |- wp (arrow _ _) _ _ _ => apply wp_arrow; [intros ? ? ? ? | intros ?]
  | |- wp (call _) _ _ _ => apply wp_call; intros [?|?] ? ?
  | |- wp (lift ?r) _ _ _ => apply wp_lift; destruct r eqn:?
  | |- wp (store _ _ _) _ _ _ => apply wp_store
  | |- wp (create_handle _) _ _ _ => apply wp_create_handle
  | |- wp (add_event_registration _ _ _ _) _ _ _ => apply wp_add_event_registration
  | |- wp (deref_registration _) _ _ _ => apply wp_deref_registration; [intros ? ? | intros ?]
  | |- wp (remove_event_registration _) _ _ _ =>
      apply wp_remove_event_registration; [intros ? ? | intros ?]
  | |- wp (ErrorManager.set_error _ _) _ _ _ => apply wp_set_error
  | |- wp ErrorManager.clear_error _ _ _ => apply wp_clear_error
  | |- wp (if ?b then _ else _) _ _ _ => destruct b eqn:?
  | |- wp (match ?x with _ => _ end) _ _ _ => destruct x eqn:?
  | |- bind_post _ _ _ _ _ => unfold bind_post
  | |- catch_post _ _ _ _ _ => unfold catch_post
  | |- match catch_std_exception _ ?e with _ => _ end => destruct e
  | |- match (match ?e with _ => _ end) with _ => _ end => destruct e eqn:?
  end; simpl.

(** Closing a goal about the state a call leaves. *)
Ltac wp_done :=
  repeat split; simpl in *; simplify_eq/=;
  rewrite ?lookup_insert_eq, ?lookup_delete_eq; eauto;
  try (intros; rewrite ?lookup_insert_ne, ?lookup_delete_ne by done; done).

(** A handle registered for a [T] is found as one. *)
Lemma lookup_handle_registered {T} `{HandleType T} w h hb (t : T) :
  handles_ w !! h = Some hb → handle_object hb = make_Handle t →
  lookup_handle (T := T) w h = Some t.
Proof.
  intros Hreg Hobj. unfold lookup_handle. rewrite Hreg; simpl.
  rewrite Hobj. apply dynamic_cast_make.
Qed.

(** The opening of a bridge function on a registered handle. *)
Ltac wp_valid_handle :=
  apply wp_validate_handle; [intros _ _ | by intros [?|?]; simplify_eq]; simpl.

Ltac wp_found_handle Hreg Hobj :=
  apply wp_get_handle; erewrite lookup_handle_registered by (first [exact Hreg | exact Hobj]);
  simpl.

(* ===================================================================== *)
(** * src/type_conversions.cpp: the readers *)
(* ===================================================================== *)

Section type_conversions_facts.
Context {flow_core : FlowCore}.

(** A registered handle passes [validate_handle]. *)
Lemma validate_handle_registered handle handle_name hb tid w :
  handle ≠ 0%N → handles_ w !! handle = Some hb →
  validate_handle handle handle_name tid w = (Return true, w).
Proof.
  intros Hn Hh. apply wp_eq, wp_validate_handle; [done|].
  intros [?|?]; simplify_eq.
Qed.

(** A reader asked for the type of the datum stores its value. *)
Lemma flow_data_get_match expected T read h out hb d v tid w :
  h ≠ 0%N → out ≠ 0%N → handles_ w !! h = Some hb →
  handle_object hb = Handle_NodeDataWrapper {| NodeDataWrapper_data := Some d |} →
  Type_ d = T → (∀ w', read d tid w' = (Return v, w')) →
  flow_data_get_ expected T read h out tid w =
    (Return FLOW_SUCCESS, set_memory <[(out, 0) := v]> w).
Proof.
  intros Hh Hout Hreg Hobj HT Hread. apply wp_eq. unfold flow_data_get_.
  wp_step. wp_step. wp_valid_handle.
  wp_step. apply wp_validate_pointer; [intros _ | done]; simpl.
  wp_step. wp_found_handle Hreg Hobj.
  rewrite bool_decide_eq_true_2 by done; simpl.
  wp_step. wp_step. unfold wp at 1. rewrite Hread; simpl.
  repeat wp_step. done.
Qed.

(** A reader asked for another type records the mismatch and stores
    nothing. *)
Lemma flow_data_get_mismatch expected T read h out hb d tid w :
  h ≠ 0%N → out ≠ 0%N → handles_ w !! h = Some hb →
  handle_object hb = Handle_NodeDataWrapper {| NodeDataWrapper_data := Some d |} →
  Type_ d ≠ T →
  flow_data_get_ expected T read h out tid w =
    (Return FLOW_ERROR_TYPE_MISMATCH,
     set_errors_ <[tid := {| code := FLOW_ERROR_TYPE_MISMATCH;
                             message := "Expected " +:+ expected +:+ ", got " +:+
                                        TypeName_view (Type_ d) |}]> w).
Proof.
  intros Hh Hout Hreg Hobj HT. apply wp_eq. unfold flow_data_get_.
  wp_step. wp_step. wp_valid_handle.
  wp_step. apply wp_validate_pointer; [intros _ | done]; simpl.
  wp_step. wp_found_handle Hreg Hobj.
  rewrite bool_decide_eq_false_2 by done; simpl.
  repeat wp_step. done.
Qed.

(** What the four constructors return and register. *)
Lemma create_data_run (d : NodeData) tid w :
  FLOW_API_CALL_HANDLE
    (create_handle {| NodeDataWrapper_data := Some d |}) tid w =
    (Return (HandleRegistry.new_address (handles_ w)),
     set_handles_ <[HandleRegistry.new_address (handles_ w) :=
                      HandleBase_.ctor
                        (Handle_NodeDataWrapper {| NodeDataWrapper_data := Some d |})]> w).
Proof. reflexivity. Qed.

Lemma round_trips_intro (create : M ptr) get others (d : NodeData) v tid w out :
  out ≠ 0%N →
  create tid w =
    (Return (HandleRegistry.new_address (handles_ w)),
     set_handles_ <[HandleRegistry.new_address (handles_ w) :=
                      HandleBase_.ctor
                        (Handle_NodeDataWrapper {| NodeDataWrapper_data := Some d |})]> w) →
  (∀ h hb w1, h ≠ 0%N → handles_ w1 !! h = Some hb →
     handle_object hb = Handle_NodeDataWrapper {| NodeDataWrapper_data := Some d |} →
     get h out tid w1 = (Return FLOW_SUCCESS, set_memory <[(out, 0) := v]> w1)) →
  (∀ get', get' ∈ others → ∃ expected T read,
     get' = flow_data_get_ expected T read ∧ Type_ d ≠ T) →
  round_trips create get others v tid w out.
Proof.
  intros Hout Hcreate Hget Hothers.
  destruct (new_address_fresh (handles_ w)) as [Hn _].
  eexists _, _. split; [exact Hcreate|]. split; [done|].
  assert (Hreg : ∀ hb, handles_ (set_handles_ <[HandleRegistry.new_address (handles_ w) := hb]> w)
                         !! HandleRegistry.new_address (handles_ w) = Some hb)
    by (intros; simpl; apply lookup_insert_eq).
  split.
  - by eapply Hget.
  - intros get' Hin. destruct (Hothers get' Hin) as (expected & T & read & -> & HT).
    eexists. split.
    + by eapply flow_data_get_mismatch.
    + unfold same_but_error, last_error_code. simpl. rewrite lookup_insert_eq.
      repeat split; try done. intros. by rewrite lookup_insert_ne.
Qed.

End type_conversions_facts.


(* ===================================================================== *)
(** * src/node_bridge.cpp: facts *)
(* ===================================================================== *)

Lemma lookup_handle_is_Some {T} `{HandleType T} w h (t : T) :
  lookup_handle w h = Some t → is_Some (handles_ w !! h).
Proof. unfold lookup_handle. destruct (handles_ w !! h); naive_solver. Qed.

(** The opening of a bridge function on a handle known to be registered
    for the type it asks for. *)
Ltac wp_open Hh Hlook :=
  wp_step;
  (apply wp_validate_handle;
   [ intros _ _
   | let H := fresh in
     intros [H|H];
     [ by destruct Hh
     | by apply lookup_handle_is_Some in Hlook; rewrite H in Hlook; destruct Hlook ] ]);
  simpl.

Ltac wp_string :=
  wp_step; (apply wp_validate_string; [intros ? [= <-] | done]); simpl.

Ltac wp_pointer :=
  wp_step; (apply wp_validate_pointer; [intros _ | done]); simpl.

Ltac wp_handle Hlook :=
  wp_step; apply wp_get_handle; rewrite Hlook; simpl.

Ltac wp_node Ha :=
  wp_step;
  first [ apply wp_deref | apply wp_arrow ];
  [ let H1 := fresh in let H2 := fresh in
    intros ? ? H1 H2; injection H1 as <-; rewrite Ha in H2; injection H2 as <-
  | simpl; by rewrite Ha ];
  simpl.

Section node_bridge_facts.
Context {flow_core : FlowCore}.

(** The loop of [flow_node_validate_required_inputs] answers whether every
    port of the list holds data. *)
Lemma validate_required_inputs_loop_run n (input_ports : list (string * Port)) tid w :
  (∀ k port, (k, port) ∈ input_ports → node_input_ports n !! k = Some port) →
  validate_required_inputs_loop n input_ports tid w =
    (Return (forallb (λ kp, bool_decide (is_Some (port_data kp.2))) input_ports), w).
Proof.
  induction input_ports as [|[k port] input_ports IH]; intros Hin; [done|].
  simpl. unfold bind at 1, try_catch, bind at 1, GetInputData.
  rewrite (Hin k port) by left. simpl.
  destruct (port_data port) as [d|] eqn:Hd; simpl; [|done].
  apply IH. intros k' port' Hin'. apply Hin. by right.
Qed.

(** What [lookup_port] finds. *)
Lemma lookup_port_run n port_key tid w :
  lookup_port n port_key tid w =
    match port_of n port_key with
    | Some port => (Return (inr (Some port)), w)
    | None =>
        (Return (inl FLOW_ERROR_PORT_NOT_FOUND),
         set_errors_ <[tid := {| code := FLOW_ERROR_PORT_NOT_FOUND;
                                 message := "Port not found: " +:+ port_key |}]> w)
    end.
Proof.
  unfold lookup_port, port_of, try_catch, bind, GetInputPort, GetOutputPort.
  destruct (node_input_ports n !! port_key); simpl; [done|].
  by destruct (node_output_ports n !! port_key).
Qed.

End node_bridge_facts.

(** The handles of [Example.world] are what the example says. *)
Lemma example_node_handle : is_node_handle Example.world 1 5 Example.the_node.
Proof. split; [done|]. split; reflexivity. Qed.

Lemma example_data_handle :
  is_data_handle Example.world 2 (Some (NodeData_int 3)).
Proof. split; [done|]. reflexivity. Qed.

Lemma example_graph_handle : is_graph_handle Example.world 3 6 Example.the_graph.
Proof. split; [done|]. split; reflexivity. Qed.

Lemma example_module_handle : is_module_handle Example.world 4 8 Example.the_module.
Proof. split; [done|]. split; reflexivity. Qed.


(** The semantic type of each type name. *)
Lemma MapTypeToInterworkingType_cases (t : string) :
  (t ∈ integer_type_names → MapTypeToInterworkingType t = "integer") ∧
  (t ∈ float_type_names → MapTypeToInterworkingType t = "float") ∧
  (t = "bool" → MapTypeToInterworkingType t = "boolean") ∧
  (t ∈ string_type_names → MapTypeToInterworkingType t = "string") ∧
  (t ∉ integer_type_names → t ∉ float_type_names → t ≠ "bool" →
   t ∉ string_type_names → MapTypeToInterworkingType t = "none").
Proof.
  unfold integer_type_names, float_type_names, string_type_names.
  rewrite !elem_of_cons, !elem_of_nil. split_and!.
  - intros [->|[->|[->|[->|[->|[->|[]]]]]]]; reflexivity.
  - intros [->|[->|[]]]; reflexivity.
  - intros ->; reflexivity.
  - intros [->|[->|[->|[]]]]; reflexivity.
  - intros Hi Hf Hb Hs. unfold MapTypeToInterworkingType.
    repeat (lazymatch goal with
            | |- context [String.eqb t ?s] =>
                rewrite (proj2 (String.eqb_neq t s)) by tauto
            end; simpl).
    reflexivity.
Qed.

Lemma MapTypeToInterworkingType_range (t : string) :
  MapTypeToInterworkingType t ∈ interworking_types.
Proof.
  unfold MapTypeToInterworkingType, interworking_types.
  repeat case_match; set_solver.
Qed.

Section port_metadata_facts.
Context {flow_core : FlowCore}.

(** [CreateInterworkingJson] serialises [interworking_json]. *)
Lemma CreateInterworkingJson_run (port : Port) tid w :
  CreateInterworkingJson port tid w =
    (Res_of_Except (json_dump (interworking_json port)), w).
Proof.
  unfold CreateInterworkingJson, interworking_json, bind, try_catch, lift, ret, arrow_data.
  rewrite insert_empty.
  destruct (String.eqb (MapTypeToInterworkingType (port_data_type port)) "none");
    simpl; [done|].
  destruct (port_data port) as [d|]; simpl; [|done].
  by destruct (NodeData_ToString d).
Qed.

(** The members of [interworking_json]. *)
Lemma interworking_json_type (port : Port) :
  interworking_json port !! "type" = Some (MapTypeToInterworkingType (port_data_type port)).
Proof.
  unfold interworking_json.
  repeat case_match; by rewrite ?lookup_insert_ne, ?lookup_singleton_eq.
Qed.

Lemma interworking_json_value (port : Port) :
  interworking_json port !! "value" =
    if String.eqb (MapTypeToInterworkingType (port_data_type port)) "none" then None
    else port_data port ≫= (λ d, returned (NodeData_ToString d)).
Proof.
  unfold interworking_json.
  destruct (String.eqb _ "none"); [done|].
  destruct (port_data port ≫= _) as [s|]; [|done].
  by rewrite lookup_insert_eq.
Qed.

Lemma interworking_json_members (port : Port) (k : string) :
  is_Some (interworking_json port !! k) → k = "type" ∨ k = "value".
Proof.
  unfold interworking_json. intros [v Hv].
  repeat case_match;
    repeat (first [apply lookup_insert_Some in Hv as [[<- _]|[_ Hv]]
                  | apply lookup_singleton_Some in Hv as [<- _]]); auto.
Qed.

End port_metadata_facts.

(* ===================================================================== *)
(** * src/graph_bridge.cpp and src/module_bridge.cpp: facts *)
(* ===================================================================== *)

(** The search finds nothing exactly when no connection has the id. *)
Lemma find_connection_None (connections : list (UUID * Connection)) (conn_uuid : UUID) :
  find_connection connections conn_uuid = None ↔
  ∀ node_uuid conn, (node_uuid, conn) ∈ connections → conn_id conn ≠ conn_uuid.
Proof.
  induction connections as [|[node_uuid conn] connections IH]; simpl.
  - split; [|done]. intros _ ? ? Hin. by apply elem_of_nil in Hin.
  - case_bool_decide as Hid.
    + split; [done|]. intros Hall. destruct (Hall node_uuid conn); [by left|done].
    + rewrite IH. split.
      * intros Hall k c Hin. apply elem_of_cons in Hin as [[= -> ->]|Hin]; [done|].
        by eapply Hall.
      * intros Hall k c Hin. eapply Hall. by right.
Qed.

Ltac wp_object Ha := wp_node Ha.
(* ===================================================================== *)
(** * Every call of the interface: facts *)
(* ===================================================================== *)

Lemma wp_any {A} (c : M A) tid w (Q : Res A → World → Prop) :
  (∀ r w', Q r w') → wp c tid w Q.
Proof. unfold wp. auto. Qed.

Lemma wp_is_valid_handle p tid w Q :
  Q (Return (bool_decide (is_Some (handles_ w !! p)))) w → wp (is_valid_handle p) tid w Q.
Proof. done. Qed.






Lemma returning_inv {A} (inj : A → Result) (c : M A) tid w r w' :
  returning inj c tid w = (Return r, w') → ∃ a, c tid w = (Return a, w') ∧ r = inj a.
Proof.
  unfold returning, bind, ret. destruct (c tid w) as [[a| |] w1]; [|done..].
  intros [= <- <-]. eauto.
Qed.

(** The functions of the interface, down to the bodies they share. *)
Ltac unfold_bridge :=
  unfold flow_clear_error, flow_connection_get_, flow_connection_get_end_node_id,
    flow_connection_get_end_port, flow_connection_get_id,
    flow_connection_get_start_node_id, flow_connection_get_start_port,
    flow_data_create_bool, flow_data_create_double, flow_data_create_int,
    flow_data_create_string, flow_data_destroy, flow_data_get_, flow_data_get_bool,
    flow_data_get_double, flow_data_get_int, flow_data_get_string, flow_data_get_type,
    flow_data_to_string, flow_env_create, flow_env_destroy, flow_env_get_factory,
    flow_env_get_var, flow_env_wait, flow_factory_create_node,
    flow_factory_get_categories, flow_factory_get_friendly_name,
    flow_factory_get_node_classes, flow_factory_is_convertible, flow_get_last_error,
    flow_get_ref_count, flow_graph_add_node, flow_graph_can_connect, flow_graph_clear,
    flow_graph_connect_nodes, flow_graph_create, flow_graph_destroy,
    flow_graph_disconnect_nodes, flow_graph_get_connections, flow_graph_get_node,
    flow_graph_get_nodes, flow_graph_load_from_json, flow_graph_remove_node,
    flow_graph_run, flow_graph_save_to_json, flow_is_valid_handle, flow_module_create,
    flow_module_destroy, flow_module_get_, flow_module_get_author,
    flow_module_get_description, flow_module_get_name, flow_module_get_version,
    flow_module_is_loaded, flow_module_load, flow_module_nodes_,
    flow_module_register_nodes, flow_module_unload, flow_module_unregister_nodes,
    flow_node_clear_data_, flow_node_clear_input_data, flow_node_clear_output_data,
    flow_node_get_class, flow_node_get_data_, flow_node_get_id, flow_node_get_input_data,
    flow_node_get_input_port_keys, flow_node_get_input_port_type,
    flow_node_get_input_ports_metadata, flow_node_get_name, flow_node_get_output_data,
    flow_node_get_output_port_keys, flow_node_get_output_port_type,
    flow_node_get_port_description, flow_node_get_port_keys_,
    flow_node_get_port_metadata, flow_node_get_port_type_, flow_node_has_connected_,
    flow_node_has_connected_inputs, flow_node_has_connected_outputs,
    flow_node_invoke_compute, flow_node_load_from_json, flow_node_save_to_json,
    flow_node_set_input_data, flow_node_set_name, flow_node_validate_required_inputs,
    flow_release_handle, flow_retain_handle, flow_set_error,
    flow_graph_on_node_added, flow_graph_on_node_removed, flow_graph_on_nodes_connected,
    flow_graph_on_nodes_disconnected, flow_graph_on_error, flow_graph_on_,
    flow_node_on_compute, flow_node_on_error, flow_node_on_set_input,
    flow_node_on_set_output, flow_node_on_, flow_event_unregister, flow_event_is_valid.

(** Symbolic execution that passes over the code the goal does not depend
    on: the loops and the accessors of flow-core. *)
Ltac wp_pass :=
  lazymatch goal with
  | |- wp (lookup_port _ _) _ _ _ => unfold lookup_port
  | |- wp _ _ _ _ => apply wp_any; intros [?|?|] ?; simpl
  end.



Section interface_facts.
Context {flow_core : FlowCore}.





End interface_facts.

(* ===================================================================== *)
(** * Further facts *)
(* ===================================================================== *)

Lemma retain_handle_registered p hb tid w :
  handles_ w !! p = Some hb →
  retain_handle p tid w = (Return tt, set_handles_ <[p := HandleBase_.retain hb]> w).
Proof.
  intros Hp. unfold retain_handle, bind, HandleRegistry.get_handle_base; simpl.
  by rewrite Hp.
Qed.

(** Releasing a registered handle: the last reference takes the handle
    out of the registry and runs the destructor of its object. *)
Lemma release_handle_registered {flow_core : FlowCore} p hb tid w :
  handles_ w !! p = Some hb →
  release_handle p tid w =
    if bool_decide (ref_count_ hb = 1%Z) then
      (Return true,
       set_core (Handle_dtor (handle_object hb) (core w)) (set_handles_ (delete p) w))
    else
      (Return false, set_handles_ <[p := (HandleBase_.release hb).1]> w).
Proof.
  intros Hp. unfold release_handle, bind at 1, HandleRegistry.get_handle_base; simpl.
  rewrite Hp; simpl. unfold bind, HandleRegistry.update_handle_base; simpl.
  case_bool_decide; simpl; [|done].
  unfold HandleRegistry.unregister_handle; simpl. rewrite lookup_insert_eq; simpl.
  unfold ret, set_core, set_handles_; simpl.
  do 2 f_equal. apply delete_insert_eq.
Qed.

Lemma wrap_int32_id z : (INT32_MIN ≤ z ≤ INT32_MAX)%Z → wrap_int32 z = z.
Proof.
  unfold INT32_MIN, INT32_MAX, wrap_int32. intros Hz.
  rewrite Z.mod_small by lia. lia.
Qed.

Lemma set_handles__id w hb p :
  handles_ w !! p = Some hb → set_handles_ <[p := hb]> w = w.
Proof. intros Hp. destruct w; unfold set_handles_; simpl in *. f_equal. by apply insert_id. Qed.

Lemma bind_assoc {A B C} (c : M A) (k : A → M B) (k' : B → M C) tid w :
  bind (bind c k) k' tid w = bind c (λ a, bind (k a) k') tid w.
Proof. unfold bind. by destruct (c tid w) as [[]]. Qed.

Lemma bind_ext {A B} (c : M A) (k k' : A → M B) tid w :
  (∀ a w', k a tid w' = k' a tid w') → bind c k tid w = bind c k' tid w.
Proof. intros Hk. unfold bind. destruct (c tid w) as [[]]; auto. Qed.

Lemma repeat_call_snoc n (c : M unit) tid w :
  repeat_call (S n) c tid w = (repeat_call n c;; c) tid w.
Proof.
  revert w. induction n as [|n IH]; intros w.
  - simpl. unfold bind, ret. by destruct (c tid w) as [[[]| |] ?].
  - change (repeat_call (S (S n)) c) with (c;; repeat_call (S n) c).
    change (repeat_call (S n) c) with (c;; repeat_call n c) at 2.
    rewrite bind_assoc. apply bind_ext. intros _ w2. apply IH.
Qed.


(** The two loops over the ports of a node always return: a key without a
    port counts as a port without data. *)
Lemma validate_required_inputs_loop_total n ports tid w :
  validate_required_inputs_loop n ports tid w =
    (Return (forallb (holds_data (node_input_ports n)) ports), w).
Proof.
  induction ports as [|[k port] ports IH]; [done|].
  simpl. unfold holds_data at 1; simpl.
  unfold bind at 1, try_catch, bind at 1, GetInputData.
  destruct (node_input_ports n !! k) as [pt|]; simpl; [|done].
  destruct (port_data pt); simpl; [apply IH|done].
Qed.

Lemma has_connected_loop_inputs n ports tid w :
  has_connected_loop GetInputData n ports tid w =
    (Return (existsb (holds_data (node_input_ports n)) ports), w).
Proof.
  induction ports as [|[k port] ports IH]; [done|].
  simpl. unfold holds_data at 1; simpl.
  unfold bind at 1, try_catch, bind at 1, GetInputData.
  destruct (node_input_ports n !! k) as [pt|]; simpl; [|apply IH].
  destruct (port_data pt); simpl; [done|apply IH].
Qed.

Lemma has_connected_loop_outputs n ports tid w :
  has_connected_loop GetOutputData n ports tid w =
    (Return (existsb (holds_data (node_output_ports n)) ports), w).
Proof.
  induction ports as [|[k port] ports IH]; [done|].
  simpl. unfold holds_data at 1; simpl.
  unfold bind at 1, try_catch, bind at 1, GetOutputData.
  destruct (node_output_ports n !! k) as [pt|]; simpl; [|apply IH].
  destruct (port_data pt); simpl; [done|apply IH].
Qed.

Lemma wp_validate_required_inputs_loop n ports tid w Q :
  Q (Return (forallb (holds_data (node_input_ports n)) ports)) w →
  wp (validate_required_inputs_loop n ports) tid w Q.
Proof. unfold wp. by rewrite validate_required_inputs_loop_total. Qed.

Lemma wp_has_connected_loop_inputs n ports tid w Q :
  Q (Return (existsb (holds_data (node_input_ports n)) ports)) w →
  wp (has_connected_loop GetInputData n ports) tid w Q.
Proof. unfold wp. by rewrite has_connected_loop_inputs. Qed.

Lemma wp_has_connected_loop_outputs n ports tid w Q :
  Q (Return (existsb (holds_data (node_output_ports n)) ports)) w →
  wp (has_connected_loop GetOutputData n ports) tid w Q.
Proof. unfold wp. by rewrite has_connected_loop_outputs. Qed.

(** Symbolic execution through the accessors of flow-core and the loops
    over ports, which lose nothing. *)
Ltac wp_accessor :=
  lazymatch goal with
  | |- wp (validate_required_inputs_loop _ _) _ _ _ => apply wp_validate_required_inputs_loop
  | |- wp (has_connected_loop GetInputData _ _) _ _ _ => apply wp_has_connected_loop_inputs
  | |- wp (has_connected_loop GetOutputData _ _) _ _ _ => apply wp_has_connected_loop_outputs
  | |- wp (GetInputData _ _) _ _ _ => unfold GetInputData
  | |- wp (GetOutputData _ _) _ _ _ => unfold GetOutputData
  | |- wp (GetInputPort _ _) _ _ _ => unfold GetInputPort
  | |- wp (GetOutputPort _ _) _ _ _ => unfold GetOutputPort
  | |- wp (arrow_data _) _ _ _ => unfold arrow_data
  | |- wp (arrow_port _) _ _ _ => unfold arrow_port
  | |- wp (lookup_port _ _) _ _ _ => unfold lookup_port
  | |- wp (is_valid_handle _) _ _ _ => apply wp_is_valid_handle
  end.

Lemma wp_total {A} (c : M A) tid w (Q : Res A → World → Prop) :
  (∃ a w', c tid w = (Return a, w')) → (∀ a w', Q (Return a) w') → wp c tid w Q.
Proof. intros (a & w' & Hc) HQ. unfold wp. rewrite Hc. apply HQ. Qed.

Lemma retain_handle_total p tid w : ∃ a w', retain_handle p tid w = (Return a, w').
Proof.
  unfold retain_handle, bind, HandleRegistry.get_handle_base; simpl.
  destruct (handles_ w !! p); simpl; eauto.
Qed.

Lemma release_handle_total {flow_core : FlowCore} p tid w :
  ∃ a w', release_handle p tid w = (Return a, w').
Proof.
  destruct (handles_ w !! p) as [hb|] eqn:Hp.
  - rewrite (release_handle_registered p hb) by done. case_bool_decide; eauto.
  - unfold release_handle, bind, HandleRegistry.get_handle_base; simpl.
    rewrite Hp. simpl. eauto.
Qed.

Lemma get_ref_count_total p tid w : ∃ a w', get_ref_count p tid w = (Return a, w').
Proof.
  unfold get_ref_count, bind, HandleRegistry.get_handle_base; simpl.
  destruct (handles_ w !! p); simpl; eauto.
Qed.

(** The functions of ErrorManager and of the registry always return. *)
Ltac wp_registry :=
  lazymatch goal with
  | |- wp ErrorManager.get_last_error _ _ _ => apply wp_get_last_error
  | |- wp (match ?m with Some _ => ErrorManager.set_error _ _ | None => _ end) _ _ _ =>
      destruct m
  | |- wp (retain_handle _) _ _ _ =>
      apply wp_total; [apply retain_handle_total | intros ? ?; simpl]
  | |- wp (release_handle _) _ _ _ =>
      apply wp_total; [apply release_handle_total | intros ? ?; simpl]
  | |- wp (get_ref_count _) _ _ _ =>
      apply wp_total; [apply get_ref_count_total | intros ? ?; simpl]
  end.

Lemma set_memory_overwrite k v1 v2 w :
  set_memory <[k := v2]> (set_memory <[k := v1]> w) = set_memory <[k := v2]> w.
Proof. unfold set_memory; simpl. f_equal. apply insert_insert_eq. Qed.

(** The loops that fill an array, run from the state in which the array
    holds the elements written so far. *)
Lemma copy_strings_run array filled strs tid w :
  copy_strings array filled strs tid (set_memory <[(array, 0) := V_array (Some filled)]> w) =
    (Return tt,
     set_memory
       <[(array, 0) := V_array (Some (filled ++ ((λ s, V_cstring (Some s)) <$> strs)))]> w).
Proof.
  revert filled. induction strs as [|s strs IH]; intros filled; simpl.
  - by rewrite app_nil_r.
  - unfold bind, store; simpl. rewrite set_memory_overwrite, IH.
    by rewrite <- app_assoc.
Qed.

Lemma get_connections_loop_run `{FlowCore} array filled conns tid w :
  get_connections_loop array filled conns tid
    (set_memory <[(array, 0) := V_array (Some filled)]> w) =
    (Return tt,
     set_memory
       <[(array, 0) := V_array (Some (filled ++ ((λ p, connection_info p.2) <$> conns)))]> w).
Proof.
  revert filled. induction conns as [|p conns IH]; intros filled; simpl.
  - by rewrite app_nil_r.
  - unfold bind, store; simpl. rewrite set_memory_overwrite, IH.
    by rewrite <- app_assoc.
Qed.

Lemma ports_metadata_loop_run `{FlowCore} array filled ports (dumps : Port → string) tid w :
  (∀ kp, kp ∈ ports → json_dump (interworking_json kp.2) = Ok (dumps kp.2)) →
  ports_metadata_loop array filled ports tid
    (set_memory <[(array, 0) := V_array (Some filled)]> w) =
    (Return tt,
     set_memory
       <[(array, 0) :=
           V_array (Some (filled ++
             ((λ kp, metadata_record kp.1 (dumps kp.2)
                       (bool_decide (is_Some (port_data kp.2)))) <$> ports)))]> w).
Proof.
  revert filled. induction ports as [|[k port] ports IH]; intros filled Hd; simpl.
  - by rewrite app_nil_r.
  - unfold bind at 1, store at 1; simpl. rewrite set_memory_overwrite.
    unfold bind at 1. rewrite CreateInterworkingJson_run.
    assert (Hk : json_dump (interworking_json port) = Ok (dumps port))
      by (apply (Hd (k, port)), elem_of_cons; by left).
    rewrite Hk. simpl.
    unfold bind at 1, store at 1; simpl. rewrite set_memory_overwrite.
    unfold bind at 1, store at 1; simpl. rewrite set_memory_overwrite.
    rewrite IH by (intros kp Hkp; apply Hd, elem_of_cons; by right).
    by rewrite <- app_assoc.
Qed.

(** What [flow_node_get_port_metadata] writes for a port whose descriptor
    serialises. *)
Lemma flow_node_get_port_metadata_run `{FlowCore} tid w node a n port_key port json_str
    metadata :
  is_node_handle w node a n → metadata ≠ 0%N →
  port_of n port_key = Some port →
  json_dump (interworking_json port) = Ok json_str →
  flow_node_get_port_metadata node (Some port_key) metadata tid w =
    (Return FLOW_SUCCESS,
     filled_metadata metadata port_key json_str (bool_decide (is_Some (port_data port))) w).
Proof.
  intros (Hh & Hlook & Ha) Hmd Hport Hdump.
  apply wp_eq. unfold flow_node_get_port_metadata. wp_step.
  wp_open Hh Hlook. wp_string. wp_pointer. wp_handle Hlook.
  wp_step. wp_node Ha.
  wp_step. unfold wp at 1. rewrite lookup_port_run, Hport. simpl.
  wp_step. wp_step. wp_step.
  unfold wp at 1. rewrite CreateInterworkingJson_run, Hdump. simpl.
  repeat wp_step. done.
Qed.

(** The loop of [flow_graph_get_nodes]: one new handle for each node, in
    the order of the nodes. *)
Lemma get_nodes_loop_run array filled (node_map : list (UUID * N)) tid w :
  ∃ hs w',
    get_nodes_loop array filled node_map tid w = (Return tt, w') ∧
    length hs = length node_map ∧ NoDup hs ∧
    (∀ h, h ∈ hs → h ≠ 0%N ∧ handles_ w !! h = None) ∧
    (∀ i h p, hs !! i = Some h → node_map !! i = Some p →
       handles_ w' !! h =
         Some (HandleBase_.ctor (Handle_NodeWrapper {| NodeWrapper_node := Some p.2 |}))) ∧
    (∀ q, q ∉ hs → handles_ w' !! q = handles_ w !! q) ∧
    core w' = core w ∧ errors_ w' = errors_ w ∧
    memory w' =
      match node_map with
      | [] => memory w
      | _ => <[(array, 0) := V_array (Some (filled ++ (V_handle <$> hs)))]> (memory w)
      end.
Proof.
  revert filled w. induction node_map as [|[uuid node] node_map IH]; intros filled w.
  - exists [], w. split_and!; try done.
    + constructor.
    + intros h Hh. by apply elem_of_nil in Hh.
  - destruct (new_address_fresh (handles_ w)) as [Hnull Hfresh].
    set (h := HandleRegistry.new_address (handles_ w)) in *.
    set (hb := HandleBase_.ctor (Handle_NodeWrapper {| NodeWrapper_node := Some node |})).
    set (w1 := set_memory <[(array, 0) := V_array (Some (filled ++ [V_handle h]))]>
                 (set_handles_ <[h := hb]> w)).
    destruct (IH (filled ++ [V_handle h]) w1)
      as (hs & w' & Hrun & Hlen & Hnd & Hnew & Hreg & Hold & Hcore & Herr & Hmem).
    assert (Hnotin : h ∉ hs).
    { intros Hin. destruct (Hnew h Hin) as [_ Hn]. simpl in Hn.
      by rewrite lookup_insert_eq in Hn. }
    exists (h :: hs), w'. split_and!.
    + simpl. unfold bind at 1, create_handle, HandleRegistry.register_handle. simpl.
      unfold bind at 1, store. simpl. exact Hrun.
    + simpl. by rewrite Hlen.
    + by constructor.
    + intros h' [->|Hin]%elem_of_cons; [done|].
      destruct (Hnew h' Hin) as [Hn0 Hn]. split; [done|]. simpl in Hn.
      rewrite lookup_insert_ne in Hn; [done|]. intros <-. done.
    + intros [|i] h' p Hh' Hp; simpl in *.
      * injection Hh' as <-. injection Hp as <-.
        rewrite Hold by done. simpl. by rewrite lookup_insert_eq.
      * by eapply Hreg.
    + intros q Hq. rewrite not_elem_of_cons in Hq. destruct Hq as [Hqh Hq].
      rewrite Hold by done. simpl. by rewrite lookup_insert_ne.
    + by rewrite Hcore.
    + by rewrite Herr.
    + rewrite Hmem. simpl. destruct node_map as [|p node_map].
      * destruct hs; [|done]. done.
      * rewrite insert_insert_eq. by rewrite <- app_assoc.
Qed.

(** The handles of [Studio.world] are what the example says. *)
Lemma studio_env_handle : is_env_handle Studio.world 1 10.
Proof. split; [done|reflexivity]. Qed.

Lemma studio_factory_handle : is_factory_handle Studio.world 2 11 Studio.the_factory.
Proof. split; [done|]. split; reflexivity. Qed.

Lemma studio_graph_handle : is_graph_handle Studio.world 3 6 Studio.the_graph.
Proof. split; [done|]. split; reflexivity. Qed.


(** A destroy function given a registered handle is [release_handle], up to
    the error of the calling thread, which [flow_graph_destroy] clears. *)
Lemma destroy_is_release {flow_core : FlowCore} (destroy : ptr → M unit) p hb tid w :
  destroy ∈ destroy_functions → p ≠ 0%N → handles_ w !! p = Some hb →
  ∃ w', destroy p tid w = (Return tt, w') ∧
        handles_ w' = handles_ (release_handle p tid w).2 ∧
        core w' = core (release_handle p tid w).2 ∧
        memory w' = memory (release_handle p tid w).2 ∧
        events w' = events (release_handle p tid w).2 ∧
        ∀ tid', tid' ≠ tid →
          errors_ w' !! tid' = errors_ (release_handle p tid w).2 !! tid'.
Proof.
  intros Hin Hnull Hp. unfold destroy_functions in Hin.
  rewrite !elem_of_cons, elem_of_nil in Hin.
  destruct (release_handle_total p tid w) as (b & w1 & Hrun). rewrite Hrun. simpl.
  destruct Hin as [->|[->|[->|[->|[]]]]].
  - exists w1. split; [|done].
    apply wp_eq. unfold flow_env_destroy. wp_step. wp_step.
    apply wp_validate_handle; [intros _ _|intros [?|Hn]; [done|by rewrite Hn in Hp]].
    simpl. wp_step. unfold wp. rewrite Hrun. simpl. by wp_step.
  - exists (set_errors_ (delete tid) w1). split; [|simpl; split_and!; try done].
    + apply wp_eq. unfold flow_graph_destroy. wp_step. wp_step.
      apply wp_validate_handle; [intros _ _|intros [?|Hn]; [done|by rewrite Hn in Hp]].
      simpl. wp_step. unfold wp. rewrite Hrun. simpl. by repeat wp_step.
    + intros tid' Hne. by rewrite lookup_delete_ne.
  - exists w1. split; [|done].
    apply wp_eq. unfold flow_data_destroy. wp_step. wp_step.
    apply wp_validate_handle; [intros _ _|intros [?|Hn]; [done|by rewrite Hn in Hp]].
    simpl. wp_step. unfold wp. rewrite Hrun. simpl. by wp_step.
  - exists w1. split; [|done].
    apply wp_eq. unfold flow_module_destroy.
    rewrite bool_decide_eq_false_2 by done.
    wp_step. apply wp_is_valid_handle. rewrite Hp; simpl.
    wp_step. unfold wp. rewrite Hrun. simpl. by wp_step.
Qed.

(** The order that [std::sort] puts the names of categories in is total. *)
#[global] Instance string_le_total : Total string_le.
Proof. intros x y. apply String.leb_total. Qed.


(* ===================================================================== *)
(** * Validation of a node's inputs *)
(* ===================================================================== *)

(** C1, as amended.  For every node, [flow_node_validate_required_inputs]
    returns true if and only if every input port of the node, whether
    marked required or not, holds a non-empty current value; the query
    changes nothing: the node, the other objects of the engine, the
    registry, the recorded errors and the caller's memory are as before. *)
Theorem validate_required_inputs_all_ports (tid : thread_id) (w : World) (node : ptr)
    (a : N) (n : Node) :
  is_node_handle w node a n →
  ∃ b : bool,
    flow_node_validate_required_inputs node tid w = (Return b, w) ∧
    (b = true ↔
     ∀ k port, node_input_ports n !! k = Some port → is_Some (port_data port)).
Proof.
  intros (Hh & Hlook & Ha).
  exists (forallb (λ kp, bool_decide (is_Some (port_data kp.2))) (GetInputPorts n)).
  split.
  - apply wp_eq. unfold flow_node_validate_required_inputs.
    wp_open Hh Hlook. wp_handle Hlook. wp_step. wp_node Ha.
    unfold wp. rewrite validate_required_inputs_loop_run; [done|].
    intros k port Hin. by apply elem_of_map_to_list.
  - rewrite forallb_forall. unfold GetInputPorts. split.
    + intros Hall k port Hk.
      specialize (Hall (k, port)). simpl in Hall.
      eapply bool_decide_eq_true_1, Hall.
      apply list_elem_of_In. by apply elem_of_map_to_list.
    + intros Hall [k port] Hin. simpl.
      apply bool_decide_eq_true_2, (Hall k).
      apply list_elem_of_In in Hin. by apply elem_of_map_to_list.
Qed.

(** [validate_required_inputs_all_ports] on the example's node. *)
Lemma validate_required_inputs_all_ports_witness :
  ∃ b : bool,
    flow_node_validate_required_inputs 1 0 Example.world = (Return b, Example.world) ∧
    (b = true ↔
     ∀ k port, node_input_ports Example.the_node !! k = Some port →
               is_Some (port_data port)).
Proof.
  exact (validate_required_inputs_all_ports 0 Example.world 1 5 Example.the_node
           example_node_handle).
Defined.

(** C1 as stated fails.  The only input port of the example's node is not
    marked required and is empty: every port marked required holds a
    value, yet the query returns false. *)
Lemma validate_required_inputs_counterexample :
  (∀ k port, node_input_ports Example.the_node !! k = Some port →
             port_required port = true → is_Some (port_data port)) ∧
  flow_node_validate_required_inputs 1 0 Example.world = (Return false, Example.world).
Proof.
  split; [|reflexivity].
  intros k port Hk Hreq. unfold Example.the_node in Hk; simpl in Hk.
  apply lookup_singleton_Some in Hk as [_ <-]. done.
Qed.

(* ===================================================================== *)
(** * Writing an input port *)
(* ===================================================================== *)

Section set_input_data_claims.
Context {flow_core : FlowCore}.

(** C2, as amended.  [flow_node_set_input_data] has no auto-compute
    parameter: for every node, port key and datum, the write reaches the
    engine as [SetInputData(key, data, autoCompute = false)] and as nothing
    else, so a write through the boundary never requests a recompute.  The
    call succeeds when the engine's procedure returns, reports
    [FLOW_ERROR_PORT_NOT_FOUND] when it throws [std::out_of_range], and
    [FLOW_ERROR_UNKNOWN] on any other exception. *)
Theorem set_input_data_suppresses_auto_compute (tid : thread_id) (w : World)
    (node : ptr) (a : N) (n : Node) (port_key : string) (data : ptr) (d : SharedNodeData) :
  is_node_handle w node a n → is_data_handle w data d →
  flow_node_set_input_data node (Some port_key) data tid w =
    let '(r, c) := Node_SetInputData a port_key d false (core w) in
    let failed code message :=
      (Return code,
       set_errors_ <[tid := {| code := code; message := message |}]> (set_core c w)) in
    match r with
    | Ok _ => (Return FLOW_SUCCESS, set_core c w)
    | Raise (std_out_of_range _) =>
        failed FLOW_ERROR_PORT_NOT_FOUND ("Input port not found: " +:+ port_key)
    | Raise (json_parse_error msg) | Raise (std_exception msg) =>
        failed FLOW_ERROR_UNKNOWN ("Failed to set input data: " +:+ msg)
    | Raise non_std_exception =>
        failed FLOW_ERROR_UNKNOWN "Unknown exception occurred"
    end.
Proof.
  intros (Hh & Hlook & Ha) (Hd & Hdata).
  apply wp_eq_pair. unfold flow_node_set_input_data. wp_step.
  wp_open Hh Hlook. wp_string. wp_open Hd Hdata.
  wp_handle Hlook. wp_handle Hdata.
  wp_step. wp_node Ha.
  wp_step. apply wp_call. intros r c ->. simpl.
  destruct r as [[]|[]]; simpl; repeat wp_step; done.
Qed.

End set_input_data_claims.

(** [set_input_data_suppresses_auto_compute] on the example: the datum [3]
    written to the port [in] through the boundary. *)
Lemma set_input_data_suppresses_auto_compute_witness :
  flow_node_set_input_data (flow_core := Reference.engine) 1 (Some "in") 2 0 Example.world =
    (Return FLOW_SUCCESS,
     set_core (Reference.SetInputData 5 "in" (Some (NodeData_int 3)) false
                 (core Example.world)).2 Example.world).
Proof.
  exact (set_input_data_suppresses_auto_compute (flow_core := Reference.engine) 0
           Example.world 1 5 Example.the_node "in" 2 (Some (NodeData_int 3))
           example_node_handle example_data_handle).
Defined.

(** C2 as stated fails.  On the reference engine, whose [SetInputData]
    follows the specification, the same write made with
    [autoCompute = true] runs the node's compute procedure, and made
    through [flow_node_set_input_data] it does not: the boundary does not
    follow the engine default, and its signature leaves the caller no way
    to ask for it. *)
Lemma set_input_data_counterexample :
  ∃ w_engine w_boundary,
    call (Reference.SetInputData 5 "in" (Some (NodeData_int 3)) true) 0 Example.world =
      (Return tt, w_engine) ∧
    node_computes <$> nodes (core w_engine) !! 5%N = Some 1 ∧
    flow_node_set_input_data (flow_core := Reference.engine) 1 (Some "in") 2 0
      Example.world = (Return FLOW_SUCCESS, w_boundary) ∧
    node_computes <$> nodes (core w_boundary) !! 5%N = Some 0 ∧
    (port_data <$> (nodes (core w_boundary) !! 5%N ≫= λ n, node_input_ports n !! "in")) =
      Some (Some (NodeData_int 3)).
Proof.
  eexists _, _. split; [reflexivity|]. split; [reflexivity|].
  split; [reflexivity|]. split; reflexivity.
Qed.

(* ===================================================================== *)
(** * Environments *)
(* ===================================================================== *)

(** C3.  For every [int32_t] [max_threads <= 0], [flow_env_create] returns
    the null handle, records [FLOW_ERROR_INVALID_ARGUMENT] for the calling
    thread with a message that contains the word [positive], and creates
    nothing: the registry, the engine's objects and the caller's memory are
    as before.  For every [max_threads >= 1] it returns a new, non-null
    handle registered for an [EnvWrapper], whose environment was created
    with [MaxThreads = max_threads]; no error is recorded. *)
Theorem env_create_thread_count (tid : thread_id) (w : World) (max_threads : Z) :
  (INT32_MIN ≤ max_threads ≤ INT32_MAX)%Z →
  ((max_threads ≤ 0)%Z →
     ∃ w' msg,
       flow_env_create max_threads tid w = (Return 0%N, w') ∧
       errors_ w' !! tid = Some {| code := FLOW_ERROR_INVALID_ARGUMENT; message := msg |} ∧
       contains "positive" msg = true ∧
       same_but_error tid w w') ∧
  ((1 ≤ max_threads)%Z →
     ∃ h w' e environment,
       flow_env_create max_threads tid w = (Return h, w') ∧
       h ≠ 0%N ∧ handles_ w !! h = None ∧
       lookup_handle w' h = Some {| EnvWrapper_env := Some e |} ∧
       envs (core w) !! e = None ∧
       envs (core w') !! e = Some environment ∧
       MaxThreads (env_settings environment) = max_threads ∧
       errors_ w' = errors_ w).
Proof.
  intros Hrange. unfold INT32_MIN, INT32_MAX in Hrange. split.
  - intros Hle. eexists _, _. split.
    + apply wp_eq. unfold flow_env_create. wp_step.
      rewrite (proj2 (Z.leb_le _ _) Hle). repeat wp_step. done.
    + simpl. rewrite lookup_insert_eq. split_and!; [done|reflexivity|].
      unfold same_but_error; simpl. split_and!; try done.
      intros tid' Hne. by rewrite lookup_insert_ne.
  - intros Hge.
    assert (Hpos : (static_cast_size_t max_threads <=? 0)%Z = false).
    { apply Z.leb_gt. unfold static_cast_size_t. rewrite Z.mod_small; lia. }
    destruct (new_address_fresh (handles_ w)) as [Hn Hfresh].
    eexists _, _, _, _. split.
    + unfold flow_env_create, FLOW_API_CALL_HANDLE, FLOW_API_CALL_, try_catch, bind, call.
      rewrite (proj2 (Z.leb_gt _ _)) by lia. simpl.
      unfold Env_Create. simpl. rewrite Hpos. simpl. reflexivity.
    + simpl. split_and!; try done.
      * unfold lookup_handle. simpl. by rewrite lookup_insert_eq.
      * apply not_elem_of_dom, is_fresh.
      * by rewrite lookup_insert_eq.
      * simpl. unfold static_cast_size_t. rewrite Z.mod_small; lia.
Qed.

(** [env_create_thread_count] at [max_threads = 0] and at [max_threads = 4],
    in the empty state. *)
Lemma env_create_thread_count_witness :
  (∃ w' msg,
     flow_env_create 0 0 empty_world = (Return 0%N, w') ∧
     errors_ w' !! 0 = Some {| code := FLOW_ERROR_INVALID_ARGUMENT; message := msg |} ∧
     contains "positive" msg = true ∧
     same_but_error 0 empty_world w') ∧
  (∃ h w' e environment,
     flow_env_create 4 0 empty_world = (Return h, w') ∧
     h ≠ 0%N ∧ handles_ empty_world !! h = None ∧
     lookup_handle w' h = Some {| EnvWrapper_env := Some e |} ∧
     envs (core empty_world) !! e = None ∧
     envs (core w') !! e = Some environment ∧
     MaxThreads (env_settings environment) = 4%Z ∧
     errors_ w' = errors_ empty_world).
Proof.
  assert (H0 : (INT32_MIN ≤ 0 ≤ INT32_MAX)%Z) by (unfold INT32_MIN, INT32_MAX; lia).
  assert (H4 : (INT32_MIN ≤ 4 ≤ INT32_MAX)%Z) by (unfold INT32_MIN, INT32_MAX; lia).
  split.
  - refine (proj1 (env_create_thread_count 0 empty_world 0%Z H0) _). lia.
  - refine (proj2 (env_create_thread_count 0 empty_world 4%Z H4) _). lia.
Defined.

(* ===================================================================== *)
(** * Port metadata: the value descriptor *)
(* ===================================================================== *)

Section value_descriptor_claims.
Context {flow_core : FlowCore}.

(** C4.  For every port of a node, input or output, the record
    [flow_node_get_port_metadata] produces has a value descriptor that is
    the serialisation of a JSON object [j] with these properties.  Its
    member [type] is the semantic type of the port's declared type, one of
    [integer], [float], [boolean], [string] and [none]: the integer type
    names map to [integer], [float] and [double] to [float], [bool] to
    [boolean], the string type names to [string], every other type name to
    [none].  It has no member besides [type] and [value], and it has the
    member [value] only when the type is not [none] and the port holds
    data.  The field [has_default] is true if and only if the port holds
    data, and the field [key] is the key asked for. *)
Theorem port_metadata_descriptor (tid : thread_id) (w : World) (node : ptr) (a : N)
    (n : Node) (port_key : string) (port : Port) (metadata : ptr) :
  is_node_handle w node a n → metadata ≠ 0%N →
  port_of n port_key = Some port →
  ∃ j : json,
    j !! "type" = Some (MapTypeToInterworkingType (port_data_type port)) ∧
    MapTypeToInterworkingType (port_data_type port) ∈ interworking_types ∧
    (∀ t : string,
       (t ∈ integer_type_names → MapTypeToInterworkingType t = "integer") ∧
       (t ∈ float_type_names → MapTypeToInterworkingType t = "float") ∧
       (t = "bool" → MapTypeToInterworkingType t = "boolean") ∧
       (t ∈ string_type_names → MapTypeToInterworkingType t = "string") ∧
       (t ∉ integer_type_names → t ∉ float_type_names → t ≠ "bool" →
        t ∉ string_type_names → MapTypeToInterworkingType t = "none")) ∧
    (∀ k, is_Some (j !! k) → k = "type" ∨ k = "value") ∧
    (is_Some (j !! "value") →
     MapTypeToInterworkingType (port_data_type port) ≠ "none" ∧ is_Some (port_data port)) ∧
    (∀ json_str, json_dump j = Ok json_str →
       flow_node_get_port_metadata node (Some port_key) metadata tid w =
         (Return FLOW_SUCCESS,
          filled_metadata metadata port_key json_str
            (bool_decide (is_Some (port_data port))) w)).
Proof.
  intros (Hh & Hlook & Ha) Hmd Hport. exists (interworking_json port). split_and!.
  - apply interworking_json_type.
  - apply MapTypeToInterworkingType_range.
  - apply MapTypeToInterworkingType_cases.
  - apply interworking_json_members.
  - rewrite interworking_json_value.
    destruct (String.eqb_spec (MapTypeToInterworkingType (port_data_type port)) "none")
      as [?|Hne]; [by intros [? ?]|].
    intros [s Hs]. split; [done|]. destruct (port_data port); [eauto|done].
  - intros json_str Hdump.
    apply wp_eq. unfold flow_node_get_port_metadata. wp_step.
    wp_open Hh Hlook. wp_string. wp_pointer. wp_handle Hlook.
    wp_step. wp_node Ha.
    wp_step. unfold wp at 1. rewrite lookup_port_run, Hport. simpl.
    wp_step. wp_step. wp_step.
    unfold wp at 1. rewrite CreateInterworkingJson_run, Hdump. simpl.
    repeat wp_step. done.
Qed.

End value_descriptor_claims.

(** [port_metadata_descriptor] for the input port [in] of the example's
    node, on the reference engine. *)
Lemma port_metadata_descriptor_witness :
  ∃ j : gmap string string,
    j !! "type" = Some "integer" ∧
    flow_node_get_port_metadata (flow_core := Reference.engine) 1 (Some "in") 64 0
      Example.world =
      (Return FLOW_SUCCESS,
       filled_metadata 64 "in" ("{" +:+ Reference.quoted "type" +:+ ":" +:+
                                Reference.quoted "integer" +:+ "}") false Example.world).
Proof.
  assert (Hmd : (64 ≠ 0)%N) by done.
  assert (Hport : port_of Example.the_node "in" = Some Example.port_in) by reflexivity.
  destruct (port_metadata_descriptor (flow_core := Reference.engine) 0 Example.world 1 5
              Example.the_node "in" Example.port_in 64 example_node_handle Hmd Hport)
    as (j & Htype & _ & _ & Hmembers & Hvalue & Hrun).
  exists j. split; [exact Htype|].
  apply Hrun.
  assert (Hj : j = {["type" := "integer"]}).
  { apply map_eq. intros k. destruct (decide (k = "type")) as [->|Hk].
    - by rewrite Htype, lookup_singleton_eq.
    - rewrite lookup_singleton_ne by done.
      destruct (j !! k) eqn:Hjk; [|done].
      destruct (Hmembers k) as [? | ->]; [eauto|done|].
      destruct Hvalue as [_ [? ?]]; [eauto|done]. }
  rewrite Hj. reflexivity.
Defined.

(* ===================================================================== *)
(** * Port metadata *)
(* ===================================================================== *)

Section port_metadata_claims.
Context {flow_core : FlowCore}.

(** C5.  For every node and every key that is neither an input port nor
    an output port of the node, [flow_node_get_port_metadata] returns
    [FLOW_ERROR_PORT_NOT_FOUND] and records it for the calling thread;
    the node (its ports, their values, its name) and every other object of
    the engine, the registry and the caller's metadata record are as
    before. *)
Theorem port_metadata_not_found (tid : thread_id) (w : World) (node : ptr) (a : N)
    (n : Node) (port_key : string) (metadata : ptr) :
  is_node_handle w node a n → metadata ≠ 0%N →
  node_input_ports n !! port_key = None →
  node_output_ports n !! port_key = None →
  ∃ w',
    flow_node_get_port_metadata node (Some port_key) metadata tid w =
      (Return FLOW_ERROR_PORT_NOT_FOUND, w') ∧
    errors_ w' !! tid = Some {| code := FLOW_ERROR_PORT_NOT_FOUND;
                                message := "Port not found: " +:+ port_key |} ∧
    same_but_error tid w w' ∧
    nodes (core w') !! a = Some n.
Proof.
  intros (Hh & Hlook & Ha) Hmd Hin Hout. eexists. split.
  - apply wp_eq. unfold flow_node_get_port_metadata. wp_step.
    wp_open Hh Hlook. wp_string. wp_pointer. wp_handle Hlook.
    wp_step. wp_node Ha.
    wp_step. unfold wp at 1. rewrite lookup_port_run.
    unfold port_of. rewrite Hin, Hout. simpl.
    repeat wp_step. done.
  - simpl. rewrite lookup_insert_eq. split; [done|]. split; [|done].
    unfold same_but_error; simpl. split_and!; try done.
    intros tid' Hne. by rewrite lookup_insert_ne.
Qed.

End port_metadata_claims.

(** [port_metadata_not_found] for the key [gain], which names no port of
    the example's node. *)
Lemma port_metadata_not_found_witness :
  ∃ w',
    flow_node_get_port_metadata (flow_core := Reference.engine) 1 (Some "gain") 64 0
      Example.world = (Return FLOW_ERROR_PORT_NOT_FOUND, w') ∧
    errors_ w' !! 0 = Some {| code := FLOW_ERROR_PORT_NOT_FOUND;
                              message := "Port not found: gain" |} ∧
    same_but_error 0 Example.world w' ∧
    nodes (core w') !! 5%N = Some Example.the_node.
Proof.
  assert (Hmd : (64 ≠ 0)%N) by done.
  assert (Hin : node_input_ports Example.the_node !! "gain" = None) by reflexivity.
  assert (Hout : node_output_ports Example.the_node !! "gain" = None) by reflexivity.
  exact (port_metadata_not_found (flow_core := Reference.engine) 0 Example.world 1 5
           Example.the_node "gain" 64 example_node_handle Hmd Hin Hout).
Defined.


(* ===================================================================== *)
(** * Disconnecting by id *)
(* ===================================================================== *)

Section disconnect_claims.
Context {flow_core : FlowCore}.

(** C6, as amended.  For every graph and every well-formed connection id
    that no connection of the graph has, [flow_graph_disconnect_nodes]
    fails, not silently: it returns [FLOW_ERROR_CONNECTION_FAILED], a code
    other than [FLOW_SUCCESS], and records it for the calling thread with
    the message [Connection not found with ID: <id>].  The engine is not
    called: the graph, its nodes and its connections are as before, and so
    are the registry and the caller's memory. *)
Theorem disconnect_unknown_connection (tid : thread_id) (w : World) (graph : ptr)
    (a : N) (g : Graph) (connection_id : string) (conn_uuid : UUID) :
  is_graph_handle w graph a g →
  UUID_parse connection_id = Ok conn_uuid →
  (∀ node_uuid conn, (node_uuid, conn) ∈ GetConnections g → conn_id conn ≠ conn_uuid) →
  ∃ w',
    flow_graph_disconnect_nodes graph (Some connection_id) tid w =
      (Return FLOW_ERROR_CONNECTION_FAILED, w') ∧
    FLOW_ERROR_CONNECTION_FAILED ≠ FLOW_SUCCESS ∧
    errors_ w' !! tid =
      Some {| code := FLOW_ERROR_CONNECTION_FAILED;
              message := "Connection not found with ID: " +:+ connection_id |} ∧
    same_but_error tid w w' ∧
    graphs (core w') !! a = Some g.
Proof.
  intros (Hh & Hlook & Ha) Hparse Habsent. eexists. split.
  - apply wp_eq. unfold flow_graph_disconnect_nodes. wp_step.
    wp_open Hh Hlook. wp_string. wp_handle Hlook.
    wp_step. wp_step. wp_step. apply wp_lift. rewrite Hparse. simpl.
    wp_step. wp_object Ha.
    rewrite (proj2 (find_connection_None _ _) Habsent).
    repeat wp_step. done.
  - simpl. rewrite lookup_insert_eq. split_and!; try done.
    unfold same_but_error; simpl. split_and!; try done.
    intros tid' Hne. by rewrite lookup_insert_ne.
Qed.

End disconnect_claims.

(** [disconnect_unknown_connection] on the example's graph, which has no
    connection, and a well-formed id. *)
Lemma disconnect_unknown_connection_witness :
  ∃ w',
    flow_graph_disconnect_nodes (flow_core := Reference.engine) 3
      (Some Example.absent_id) 0 Example.world =
      (Return FLOW_ERROR_CONNECTION_FAILED, w') ∧
    FLOW_ERROR_CONNECTION_FAILED ≠ FLOW_SUCCESS ∧
    errors_ w' !! 0 =
      Some {| code := FLOW_ERROR_CONNECTION_FAILED;
              message := "Connection not found with ID: " +:+ Example.absent_id |} ∧
    same_but_error 0 Example.world w' ∧
    graphs (core w') !! 6%N = Some Example.the_graph.
Proof.
  assert (Hparse : UUID_parse (FlowCore := Reference.engine) Example.absent_id = Ok 255%N)
    by reflexivity.
  assert (Habsent : ∀ node_uuid conn,
            (node_uuid, conn) ∈ GetConnections Example.the_graph → conn_id conn ≠ 255%N).
  { intros node_uuid conn Hin. by apply elem_of_nil in Hin. }
  exact (disconnect_unknown_connection (flow_core := Reference.engine) 0 Example.world 3 6
           Example.the_graph Example.absent_id 255 example_graph_handle Hparse Habsent).
Defined.

(** C6 as stated fails.  On the example's graph the id names neither a
    connection nor a node.  The lookup of a node by that id records
    [FLOW_ERROR_NODE_NOT_FOUND], and the lookup of an absent port records
    [FLOW_ERROR_PORT_NOT_FOUND]; disconnecting by that id records
    [FLOW_ERROR_CONNECTION_FAILED], the class of failed connection
    attempts, and none of the not-found classes of the lookups. *)
Lemma disconnect_fault_class_counterexample :
  ∃ w_node w_port w_disconnect,
    flow_graph_get_node (flow_core := Reference.engine) 3 (Some Example.absent_id) 0
      Example.world = (Return 0%N, w_node) ∧
    last_error_code 0 w_node = Some FLOW_ERROR_NODE_NOT_FOUND ∧
    flow_node_get_port_metadata (flow_core := Reference.engine) 1 (Some "gain") 64 0
      Example.world = (Return FLOW_ERROR_PORT_NOT_FOUND, w_port) ∧
    last_error_code 0 w_port = Some FLOW_ERROR_PORT_NOT_FOUND ∧
    flow_graph_disconnect_nodes (flow_core := Reference.engine) 3
      (Some Example.absent_id) 0 Example.world =
      (Return FLOW_ERROR_CONNECTION_FAILED, w_disconnect) ∧
    last_error_code 0 w_disconnect = Some FLOW_ERROR_CONNECTION_FAILED ∧
    FLOW_ERROR_CONNECTION_FAILED ≠ FLOW_ERROR_NODE_NOT_FOUND ∧
    FLOW_ERROR_CONNECTION_FAILED ≠ FLOW_ERROR_PORT_NOT_FOUND.
Proof.
  eexists _, _, _. split_and!; try reflexivity; done.
Qed.

(* ===================================================================== *)
(** * Modules that are not loaded *)
(* ===================================================================== *)

Section module_claims.
Context {flow_core : FlowCore}.

(** C7.  For every handle to a module that is not loaded,
    [flow_module_unload] returns [FLOW_SUCCESS] without calling the
    module's [Unload]: nothing changes but the calling thread's error,
    which the function clears on entry; calling it again gives the same
    answer and the same state.  On the same module
    [flow_module_register_nodes] and [flow_module_unregister_nodes] fail
    with [FLOW_ERROR_MODULE_LOAD_FAILED], recorded with the message
    [Module is not loaded], and register or unregister nothing. *)
Theorem unloaded_module_operations (tid : thread_id) (w : World) (module : ptr)
    (a : N) (m : FlowModule) :
  is_module_handle w module a m → IsLoaded m = false →
  (flow_module_unload module tid w = (Return FLOW_SUCCESS, set_errors_ (delete tid) w) ∧
   flow_module_unload module tid (set_errors_ (delete tid) w) =
     (Return FLOW_SUCCESS, set_errors_ (delete tid) w)) ∧
  (∀ operation,
     operation ∈ [flow_module_register_nodes; flow_module_unregister_nodes] →
     ∃ w',
       operation module tid w = (Return FLOW_ERROR_MODULE_LOAD_FAILED, w') ∧
       errors_ w' !! tid = Some {| code := FLOW_ERROR_MODULE_LOAD_FAILED;
                                   message := "Module is not loaded" |} ∧
       same_but_error tid w w').
Proof.
  intros (Hh & Hlook & Ha) Hloaded.
  assert (Hunload : ∀ w0, handles_ w0 = handles_ w → core w0 = core w →
            flow_module_unload module tid w0 =
              (Return FLOW_SUCCESS, set_errors_ (delete tid) w0)).
  { intros w0 Hhandles Hcore.
    assert (Hlook0 : lookup_handle w0 module = Some {| get_Module := Some a |})
      by (unfold lookup_handle in *; by rewrite Hhandles).
    apply wp_eq. unfold flow_module_unload.
    wp_step. wp_step. wp_step.
    rewrite bool_decide_eq_false_2 by done.
    wp_step. apply wp_get_handle.
    rewrite lookup_handle_set_errors_, Hlook0; simpl.
    wp_step. apply wp_deref; simpl; rewrite Hcore;
      [intros ? ? [= <-] Hm; rewrite Ha in Hm; injection Hm as <- | by rewrite Ha].
    simpl. rewrite Hloaded; simpl. repeat wp_step. done. }
  split.
  - split; [by apply Hunload|].
    rewrite Hunload by done. f_equal.
    unfold set_errors_; simpl. f_equal. apply delete_delete_eq.
  - intros operation Hin. rewrite !elem_of_cons, elem_of_nil in Hin.
    assert (Hop : ∃ Action, operation = flow_module_nodes_ Action)
      by (destruct Hin as [->|[->|[]]]; by eexists).
    destruct Hop as [Action ->]. eexists. split.
    + apply wp_eq. unfold flow_module_nodes_.
      wp_step. wp_step. wp_step.
      rewrite bool_decide_eq_false_2 by done.
      wp_step. apply wp_get_handle.
      rewrite lookup_handle_set_errors_, Hlook; simpl.
      wp_step. apply wp_deref; simpl;
        [intros ? ? [= <-] Hm; rewrite Ha in Hm; injection Hm as <- | by rewrite Ha].
      simpl. rewrite Hloaded; simpl. repeat wp_step. done.
    + simpl. rewrite lookup_insert_eq. split; [done|].
      unfold same_but_error; simpl. split_and!; try done.
      intros tid' Hne. by rewrite lookup_insert_ne, lookup_delete_ne.
Qed.

End module_claims.

(** [unloaded_module_operations] on the example's module. *)
Lemma unloaded_module_operations_witness :
  flow_module_unload (flow_core := Reference.engine) 4 0 Example.world =
    (Return FLOW_SUCCESS, set_errors_ (delete 0) Example.world) ∧
  ∃ w',
    flow_module_register_nodes (flow_core := Reference.engine) 4 0 Example.world =
      (Return FLOW_ERROR_MODULE_LOAD_FAILED, w') ∧
    errors_ w' !! 0 = Some {| code := FLOW_ERROR_MODULE_LOAD_FAILED;
                              message := "Module is not loaded" |} ∧
    same_but_error 0 Example.world w'.
Proof.
  assert (Hloaded : IsLoaded Example.the_module = false) by reflexivity.
  destruct (unloaded_module_operations (flow_core := Reference.engine) 0 Example.world 4 8
              Example.the_module example_module_handle Hloaded) as [[Hunload _] Hops].
  split; [exact Hunload|].
  apply Hops. apply elem_of_cons. by left.
Defined.

(* ===================================================================== *)
(** * Typed data: creation and typed reads *)
(* ===================================================================== *)

Section data_claims.
Context {flow_core : FlowCore}.

(** C8.  A datum made by [flow_data_create_int] is read back by
    [flow_data_get_int]: the call succeeds and stores exactly the value the
    datum was made from.  Read through [flow_data_get_double],
    [flow_data_get_bool] or [flow_data_get_string], the same datum is
    refused with [FLOW_ERROR_TYPE_MISMATCH], the refusal is recorded for the
    calling thread, and the caller's location (like the rest of the state)
    is left as it was.  The same holds for the constructors and readers of
    [double], [bool] and string data. *)
Theorem data_round_trip (tid : thread_id) (w : World) (out : ptr) :
  out ≠ 0%N →
  (∀ v : Z, (INT32_MIN ≤ v ≤ INT32_MAX)%Z →
     round_trips (flow_data_create_int v) flow_data_get_int
       [flow_data_get_double; flow_data_get_bool; flow_data_get_string]
       (V_int32 v) tid w out) ∧
  (∀ v : float,
     round_trips (flow_data_create_double v) flow_data_get_double
       [flow_data_get_int; flow_data_get_bool; flow_data_get_string]
       (V_double v) tid w out) ∧
  (∀ v : bool,
     round_trips (flow_data_create_bool v) flow_data_get_bool
       [flow_data_get_int; flow_data_get_double; flow_data_get_string]
       (V_bool v) tid w out) ∧
  (∀ v : string,
     round_trips (flow_data_create_string (Some v)) flow_data_get_string
       [flow_data_get_int; flow_data_get_double; flow_data_get_bool]
       (V_cstring (Some v)) tid w out).
Proof.
  intros Hout. split_and!.
  - intros v _. eapply (round_trips_intro _ _ _ (NodeData_int v)); [done|reflexivity| |].
    + intros h hb w1 Hh Hreg Hobj. unfold flow_data_get_int.
      by apply (flow_data_get_match "int" TypeName_int _ h out hb (NodeData_int v)
                  (V_int32 v) tid w1 Hh Hout Hreg Hobj eq_refl).
    + intros get' Hin. rewrite !elem_of_cons, elem_of_nil in Hin.
      destruct Hin as [->|[->|[->|[]]]]; eexists _, _, _; (split; [reflexivity|done]).
  - intros v. eapply (round_trips_intro _ _ _ (NodeData_double v)); [done|reflexivity| |].
    + intros h hb w1 Hh Hreg Hobj. unfold flow_data_get_double.
      by apply (flow_data_get_match "double" TypeName_double _ h out hb (NodeData_double v)
                  (V_double v) tid w1 Hh Hout Hreg Hobj eq_refl).
    + intros get' Hin. rewrite !elem_of_cons, elem_of_nil in Hin.
      destruct Hin as [->|[->|[->|[]]]]; eexists _, _, _; (split; [reflexivity|done]).
  - intros v. eapply (round_trips_intro _ _ _ (NodeData_bool v)); [done|reflexivity| |].
    + intros h hb w1 Hh Hreg Hobj. unfold flow_data_get_bool.
      by apply (flow_data_get_match "bool" TypeName_bool _ h out hb (NodeData_bool v)
                  (V_bool v) tid w1 Hh Hout Hreg Hobj eq_refl).
    + intros get' Hin. rewrite !elem_of_cons, elem_of_nil in Hin.
      destruct Hin as [->|[->|[->|[]]]]; eexists _, _, _; (split; [reflexivity|done]).
  - intros v. eapply (round_trips_intro _ _ _ (NodeData_string v)); [done|reflexivity| |].
    + intros h hb w1 Hh Hreg Hobj. unfold flow_data_get_string.
      by apply (flow_data_get_match "string" TypeName_string _ h out hb (NodeData_string v)
                  (V_cstring (Some v)) tid w1 Hh Hout Hreg Hobj eq_refl).
    + intros get' Hin. rewrite !elem_of_cons, elem_of_nil in Hin.
      destruct Hin as [->|[->|[->|[]]]]; eexists _, _, _; (split; [reflexivity|done]).
Qed.

End data_claims.

(** [data_round_trip] on the reference engine, in the empty state, storing
    through the address [64]. *)
Lemma data_round_trip_witness :
  (64 ≠ 0)%N ∧
  round_trips (flow_data_create_int 42)
    (flow_data_get_int (flow_core := Reference.engine))
    [flow_data_get_double (flow_core := Reference.engine);
     flow_data_get_bool (flow_core := Reference.engine);
     flow_data_get_string (flow_core := Reference.engine)]
    (V_int32 42) 0 empty_world 64%N.
Proof.
  assert (Hout : (64 ≠ 0)%N) by done.
  split; [exact Hout|].
  refine (proj1 (data_round_trip (flow_core := Reference.engine) 0 empty_world 64%N Hout) 42%Z _).
  unfold INT32_MIN, INT32_MAX. lia.
Defined.
(* ===================================================================== *)
(** * Invalid handles *)
(* ===================================================================== *)

Section handle_claims.
Context {flow_core : FlowCore}.


End handle_claims.


(* ===================================================================== *)
(** * Failures and the last error *)
(* ===================================================================== *)

Section error_claims.
Context {flow_core : FlowCore}.


End error_claims.


(* ===================================================================== *)
(** * src/handle_manager.hpp: the life of a handle *)
(* ===================================================================== *)

(** X1.  [create_handle<T>(args)] returns a pointer that is not null and
    was not registered; afterwards the pointer is valid, [get_handle<T>]
    finds [args] under it, its reference count is one, and every other
    pointer is registered as before.  Nothing else changes. *)
Theorem create_handle_lookup (T : Type) (HT : HandleType T) (args : T)
    (tid : thread_id) (w : World) :
  ∃ p w',
    create_handle args tid w = (Return p, w') ∧
    p ≠ 0%N ∧ handles_ w !! p = None ∧
    get_handle (T := T) p tid w' = (Return (Some args), w') ∧
    flow_is_valid_handle p tid w' = (Return true, w') ∧
    flow_get_ref_count p tid w' = (Return 1%Z, w') ∧
    (∀ q, q ≠ p → handles_ w' !! q = handles_ w !! q) ∧
    errors_ w' = errors_ w ∧ core w' = core w ∧ memory w' = memory w ∧
    events w' = events w.
Proof.
  destruct (new_address_fresh (handles_ w)) as [Hnull Hfresh].
  eexists _, _. split; [reflexivity|]. split_and!; try done.
  - unfold get_handle, HandleRegistry.get_handle; simpl.
    rewrite lookup_insert_eq; simpl. by rewrite dynamic_cast_make.
  - unfold flow_is_valid_handle, is_valid_handle, HandleRegistry.is_valid_handle; simpl.
    by rewrite lookup_insert_eq.
  - unfold flow_get_ref_count, get_ref_count, bind, HandleRegistry.get_handle_base; simpl.
    by rewrite lookup_insert_eq.
  - intros q Hq. simpl. by rewrite lookup_insert_ne.
Qed.

Section registry_extras.
Context {flow_core : FlowCore}.

(** X2.  For a registered handle whose count is [c ≥ 1], [k] calls of
    [flow_retain_handle] raise the count to [c + k] as long as that does not
    exceed [INT32_MAX], and [k] calls of [flow_release_handle] then bring
    the registry back to the state it was in: the handle is still
    registered, with the count [c]. *)
Theorem retain_release_balance (p : ptr) (hb : HandleBase) (k : nat)
    (tid : thread_id) (w : World) :
  handles_ w !! p = Some hb →
  (1 ≤ ref_count_ hb)%Z → (ref_count_ hb + Z.of_nat k ≤ INT32_MAX)%Z →
  ∃ w1,
    repeat_call k (flow_retain_handle p) tid w = (Return tt, w1) ∧
    flow_get_ref_count p tid w1 = (Return (ref_count_ hb + Z.of_nat k)%Z, w1) ∧
    repeat_call k (flow_release_handle p) tid w1 = (Return tt, w).
Proof.
  revert hb w. induction k as [|k IH]; intros hb w Hp Hone Hmax.
  - exists w. split_and!; try done.
    unfold flow_get_ref_count, get_ref_count, bind, HandleRegistry.get_handle_base; simpl.
    rewrite Hp; simpl. unfold ret, HandleBase_.get_ref_count. do 2 f_equal. lia.
  - assert (Hrange : (INT32_MIN ≤ ref_count_ hb + 1 ≤ INT32_MAX)%Z)
      by (unfold INT32_MIN, INT32_MAX in *; lia).
    pose (hb1 := HandleBase_.retain hb).
    assert (Hcount : ref_count_ hb1 = (ref_count_ hb + 1)%Z)
      by (simpl; by apply wrap_int32_id).
    destruct (IH hb1 (set_handles_ <[p := hb1]> w)) as (w1 & Hretain & Hcount1 & Hrelease).
    { simpl. by rewrite lookup_insert_eq. }
    { lia. }
    { lia. }
    exists w1. split_and!.
    + simpl. unfold bind, flow_retain_handle.
      by rewrite (retain_handle_registered p hb).
    + rewrite Hcount1, Hcount. do 2 f_equal. lia.
    + rewrite repeat_call_snoc. unfold bind at 1. rewrite Hrelease.
      unfold flow_release_handle, bind.
      rewrite (release_handle_registered p hb1) by (simpl; by rewrite lookup_insert_eq).
      rewrite bool_decide_eq_false_2 by lia. simpl.
      unfold ret. f_equal.
      destruct w as [errs hs cr mem ev]; unfold set_handles_; simpl in *. f_equal.
      rewrite insert_insert_eq. apply insert_id. rewrite Hp. f_equal.
      destruct hb as [c o]; simpl in *. f_equal.
      rewrite (wrap_int32_id (c + 1)) by done.
      replace (c + 1 - 1)%Z with c by lia.
      symmetry. apply wrap_int32_id. unfold INT32_MIN, INT32_MAX in *. lia.
Qed.

End registry_extras.

(** [retain_release_balance] on the node handle of the example, retained
    and released three times. *)
Lemma retain_release_balance_witness :
  ∃ w1,
    repeat_call 3 (flow_retain_handle 1) 0 Example.world = (Return tt, w1) ∧
    flow_get_ref_count 1 0 w1 = (Return 4%Z, w1) ∧
    repeat_call 3 (flow_release_handle (flow_core := Reference.engine) 1) 0 w1 =
      (Return tt, Example.world).
Proof.
  refine (retain_release_balance (flow_core := Reference.engine) 1
            (HandleBase_.ctor (Handle_NodeWrapper {| NodeWrapper_node := Some 5%N |}))
            3 0 Example.world _ _ _).
  - reflexivity.
  - simpl. lia.
  - unfold INT32_MAX. simpl. lia.
Defined.
(* ===================================================================== *)
(** * The destroy functions and the last error *)
(* ===================================================================== *)

Section destroy_extras.
Context {flow_core : FlowCore}.

(** X3.  The destroy functions do not look at the type of a handle:
    [flow_env_destroy], [flow_graph_destroy], [flow_data_destroy] and
    [flow_module_destroy] each drop one reference of any registered handle.
    When that was the last one, the handle leaves the registry and the
    [Handle<T>] behind it is destroyed, with the object it holds: the
    destructor runs in flow-core, and only then is the engine touched.  The
    caller's memory, the event registrations and the errors of the other
    threads are left alone. *)
Theorem destroy_releases_any_handle (destroy : ptr → M unit) (p : ptr) (hb : HandleBase)
    (tid : thread_id) (w : World) :
  destroy ∈ destroy_functions → p ≠ 0%N → handles_ w !! p = Some hb →
  ∃ w',
    destroy p tid w = (Return tt, w') ∧
    handles_ w' =
      (if bool_decide (ref_count_ hb = 1%Z) then delete p (handles_ w)
       else <[p := {| ref_count_ := wrap_int32 (ref_count_ hb - 1);
                      handle_object := handle_object hb |}]> (handles_ w)) ∧
    core w' =
      (if bool_decide (ref_count_ hb = 1%Z) then Handle_dtor (handle_object hb) (core w)
       else core w) ∧
    memory w' = memory w ∧ events w' = events w ∧
    ∀ tid', tid' ≠ tid → errors_ w' !! tid' = errors_ w !! tid'.
Proof.
  intros Hin Hnull Hp.
  destruct (destroy_is_release destroy p hb tid w Hin Hnull Hp)
    as (w' & Hrun & Hh & Hc & Hm & Hev & He).
  rewrite (release_handle_registered p hb) in Hh, Hc, Hm, Hev, He by done.
  exists w'. split; [done|].
  case_bool_decide; simpl in *; by split_and!.
Qed.


End destroy_extras.

(** [destroy_releases_any_handle]: [flow_data_destroy] given the graph
    handle of the example. *)
Lemma destroy_releases_any_handle_witness :
  ∃ w',
    flow_data_destroy (flow_core := Reference.engine) 3 0 Example.world = (Return tt, w') ∧
    handles_ w' = delete 3%N (handles_ Example.world) ∧
    core w' =
      Handle_dtor (FlowCore := Reference.engine)
        (Handle_shared_ptr_Graph {| get_Graph := Some 6%N |}) (core Example.world) ∧
    memory w' = memory Example.world ∧ events w' = events Example.world ∧
    ∀ tid', tid' ≠ 0 → errors_ w' !! tid' = errors_ Example.world !! tid'.
Proof.
  refine (destroy_releases_any_handle (flow_core := Reference.engine) flow_data_destroy 3
            (HandleBase_.ctor (Handle_shared_ptr_Graph {| get_Graph := Some 6%N |}))
            0 Example.world _ _ _).
  - unfold destroy_functions. rewrite !elem_of_cons. auto.
  - done.
  - reflexivity.
Defined.


(* ===================================================================== *)
(** * src/error_handling.hpp: the last error *)
(* ===================================================================== *)

(** X5.  The last error is kept per thread.  After [flow_set_error] on a
    thread, [flow_get_last_error] on that thread returns the message given
    ([Unknown error] for a null message) and the error code is the code
    given; after [flow_clear_error] it returns null and the code is
    [FLOW_SUCCESS].  Neither call changes what another thread reads. *)
Theorem last_error_is_per_thread (err : FlowError) (msg : cstring)
    (tid tid' : thread_id) (w : World) :
  tid' ≠ tid →
  ∃ w1 w2,
    flow_set_error err msg tid w = (Return tt, w1) ∧
    flow_get_last_error tid w1 = (Return (Some (default "Unknown error" msg)), w1) ∧
    ErrorManager.get_last_error_code tid w1 = (Return err, w1) ∧
    flow_clear_error tid w1 = (Return tt, w2) ∧
    flow_get_last_error tid w2 = (Return None, w2) ∧
    ErrorManager.get_last_error_code tid w2 = (Return FLOW_SUCCESS, w2) ∧
    (flow_get_last_error tid' w1).1 = (flow_get_last_error tid' w).1 ∧
    (flow_get_last_error tid' w2).1 = (flow_get_last_error tid' w).1 ∧
    same_but_error tid w w1 ∧ same_but_error tid w w2.
Proof.
  intros Hne.
  exists (set_errors_ <[tid := {| code := err; message := default "Unknown error" msg |}]> w),
    (set_errors_ (delete tid)
       (set_errors_ <[tid := {| code := err; message := default "Unknown error" msg |}]> w)).
  assert (Hget : ∀ t w0, (flow_get_last_error t w0).1 = Return (message <$> errors_ w0 !! t)).
  { intros t w0. unfold flow_get_last_error, ErrorManager.get_last_error, bind,
      this_thread_get_id; simpl. by destruct (errors_ w0 !! t). }
  split_and!.
  - by destruct msg.
  - apply wp_eq. apply wp_get_last_error. simpl. by rewrite lookup_insert_eq.
  - unfold ErrorManager.get_last_error_code, bind, this_thread_get_id; simpl.
    by rewrite lookup_insert_eq.
  - done.
  - apply wp_eq. apply wp_get_last_error. simpl. by rewrite lookup_delete_eq.
  - unfold ErrorManager.get_last_error_code, bind, this_thread_get_id; simpl.
    by rewrite lookup_delete_eq.
  - rewrite !Hget. simpl. by rewrite lookup_insert_ne.
  - rewrite !Hget. simpl. by rewrite lookup_delete_ne, lookup_insert_ne.
  - unfold same_but_error; simpl. split_and!; try done.
    intros t Ht. by rewrite lookup_insert_ne.
  - unfold same_but_error; simpl. split_and!; try done.
    intros t Ht. by rewrite lookup_delete_ne, lookup_insert_ne.
Qed.

(** [last_error_is_per_thread]: thread [0] sets an error, thread [1] reads. *)
Lemma last_error_is_per_thread_witness :
  ∃ w1 w2,
    flow_set_error FLOW_ERROR_UNKNOWN None 0 Example.world = (Return tt, w1) ∧
    flow_get_last_error 0 w1 = (Return (Some "Unknown error"), w1) ∧
    ErrorManager.get_last_error_code 0 w1 = (Return FLOW_ERROR_UNKNOWN, w1) ∧
    flow_clear_error 0 w1 = (Return tt, w2) ∧
    flow_get_last_error 0 w2 = (Return None, w2) ∧
    ErrorManager.get_last_error_code 0 w2 = (Return FLOW_SUCCESS, w2) ∧
    (flow_get_last_error 1 w1).1 = (flow_get_last_error 1 Example.world).1 ∧
    (flow_get_last_error 1 w2).1 = (flow_get_last_error 1 Example.world).1 ∧
    same_but_error 0 Example.world w1 ∧ same_but_error 0 Example.world w2.
Proof.
  refine (last_error_is_per_thread FLOW_ERROR_UNKNOWN None 0 1 Example.world _). done.
Defined.
(* ===================================================================== *)
(** * Every call of the interface: handles and exceptions *)
(* ===================================================================== *)

Section interface_extras.
Context {flow_core : FlowCore}.

(** X6.  Whenever a call returns a handle of the registry that is not
    null, the handle is registered after the call with a reference count of
    one.  Unless the
    call is [flow_graph_add_node] or [flow_graph_connect_nodes], during
    which flow-core raises the event whose lambda makes a handle of its
    own for the callback, the handle was not registered before the call,
    and the call registered no other handle and released none. *)
Theorem returned_handles_are_new (c : BridgeCall) (tid : thread_id) (w : World)
    (h : ptr) (w' : World) :
  run c tid w = (Return (R_handle h), w') → h ≠ 0%N →
  newly_registered w' h ∧ (raises_handle_event c = false → hands_out w h w').
Proof.
  intros Hrun Hh.
  cut (wp (run c) tid w (λ r w', ∀ h, r = Return (R_handle h) → h ≠ 0%N → hands_out w h w')).
  { unfold wp. rewrite Hrun. simpl. intros Hout.
    destruct (Hout h eq_refl Hh) as [Hfresh [o Ho]].
    split; [|by intros _; split; [|exists o]].
    exists o. rewrite Ho. apply lookup_insert_eq. }
  clear. destruct c; simpl; unfold returning.
  all: try (wp_step; apply wp_any; intros [?|?|] ?; simpl; try done; wp_step;
            by intros ? [=] ?).
  all: wp_step; unfold_bridge; unfold_bridge.
  all: repeat first [wp_step | wp_accessor].
  all: try (intros ? ?; simplify_eq/=; done).
  all: intros ? [= <-] _; simpl; destruct (new_address_fresh (handles_ w)) as [_ Hfresh];
    split; [done|]; eexists; reflexivity.
Qed.

(** X7.  Exceptions at the boundary.  A function whose body stands behind
    a [catch (...)], by a [FLOW_API_CALL] macro or by a clause of its own,
    lets no exception leave it; a function whose calls into flow-core stand
    behind the one clause [catch (const std::exception&)] lets no
    [std::exception] leave it: what leaves it is an exception of another
    kind, thrown by flow-core.  Of the functions without a handler nothing
    is said. *)
Theorem exceptions_at_the_boundary (c : BridgeCall) (tid : thread_id) (w : World)
    (e : exception) :
  (run c tid w).1 = Throw e →
  catches_everything c = false ∧
  (catches_std_exception_only c = true → e = non_std_exception).
Proof.
  revert e.
  change (wp (run c) tid w
            (λ r _, ∀ e, r = Throw e →
                         catches_everything c = false ∧
                         (catches_std_exception_only c = true → e = non_std_exception))).
  destruct c; simpl; unfold returning.
  all: wp_step; unfold_bridge; unfold_bridge.
  all: repeat first [wp_step | wp_accessor | wp_registry | wp_pass].
  all: try done.
  all: try (intros ? [= <-]; done).
  all: unfold make_shared_Module in *; simplify_eq.
Qed.

End interface_extras.

(** [returned_handles_are_new]: a datum made in the example's state, whose
    handles are [1] to [4]. *)
Lemma returned_handles_are_new_witness :
  newly_registered
    (run (flow_core := Reference.engine) (call_flow_data_create_int 42) 0 Example.world).2 5 ∧
  (raises_handle_event (call_flow_data_create_int 42) = false →
   hands_out Example.world 5
     (run (flow_core := Reference.engine) (call_flow_data_create_int 42) 0
        Example.world).2).
Proof.
  refine (returned_handles_are_new (flow_core := Reference.engine)
            (call_flow_data_create_int 42) 0 Example.world 5 _ _ _).
  - reflexivity.
  - done.
Defined.

(** [exceptions_at_the_boundary]: a loader that throws what is no
    [std::exception], under [flow_module_load] on the module of the first
    example. *)
Lemma exceptions_at_the_boundary_witness :
  (run (flow_core := Studio.engine_with Studio.foreign_loader)
     (call_flow_module_load 4 (Some "/m.so")) 0 Example.world).1 =
    Throw non_std_exception ∧
  catches_everything (call_flow_module_load 4 (Some "/m.so")) = false ∧
  (catches_std_exception_only (call_flow_module_load 4 (Some "/m.so")) = true →
   non_std_exception = non_std_exception).
Proof.
  split; [reflexivity|].
  apply (exceptions_at_the_boundary (flow_core := Studio.engine_with Studio.foreign_loader)
           (call_flow_module_load 4 (Some "/m.so")) 0 Example.world non_std_exception).
  reflexivity.
Defined.
(* ===================================================================== *)
(** * src/node_bridge.cpp: reading a node *)
(* ===================================================================== *)

Section node_extras.
Context {flow_core : FlowCore}.

(** X8.  For a handle to a node, [flow_node_get_id], [flow_node_get_name]
    and [flow_node_get_class] return the text of the node's id, its name
    and its class, and change nothing: they read the node, and they do not
    clear the last error, so an error recorded by an earlier call stays. *)
Theorem node_properties_are_read (tid : thread_id) (w : World) (node : ptr)
    (a : N) (n : Node) :
  is_node_handle w node a n →
  flow_node_get_id node tid w = (Return (Some (UUID_string (node_id n))), w) ∧
  flow_node_get_name node tid w = (Return (Some (node_name n)), w) ∧
  flow_node_get_class node tid w = (Return (Some (node_class n)), w).
Proof.
  intros (Hh & Hlook & Ha). split_and!; apply wp_eq.
  - unfold flow_node_get_id. wp_step. wp_open Hh Hlook. wp_handle Hlook. wp_node Ha.
    by wp_step.
  - unfold flow_node_get_name. wp_step. wp_open Hh Hlook. wp_handle Hlook. wp_node Ha.
    by wp_step.
  - unfold flow_node_get_class. wp_step. wp_open Hh Hlook. wp_handle Hlook. wp_node Ha.
    by wp_step.
Qed.

(** X9.  Reading the data of an input port.  For a handle to a node,
    [flow_node_get_input_data] answers by the state of the port: if the
    node has no input port of that key it returns null and records
    [FLOW_ERROR_PORT_NOT_FOUND] with [Input port not found: key]; if the
    port holds no data it returns null and changes nothing; if the port
    holds a datum it returns a new handle to that datum, and changes
    nothing else.  [flow_node_get_output_data] does the same on the output
    ports. *)
Theorem port_data_is_read (tid : thread_id) (w : World) (node : ptr)
    (a : N) (n : Node) (port_key : string) :
  is_node_handle w node a n →
  let read get (ports : gmap string Port) (Which : string) :=
    match ports !! port_key with
    | None =>
        get node (Some port_key) tid w =
          (Return 0%N,
           set_errors_ <[tid := {| code := FLOW_ERROR_PORT_NOT_FOUND;
                                   message := Which +:+ " port not found: " +:+ port_key |}]>
             w)
    | Some port =>
        match port_data port with
        | None => get node (Some port_key) tid w = (Return 0%N, w)
        | Some d =>
            ∃ h, h ≠ 0%N ∧ handles_ w !! h = None ∧
              get node (Some port_key) tid w =
                (Return h,
                 set_handles_
                   <[h := HandleBase_.ctor
                            (Handle_NodeDataWrapper {| NodeDataWrapper_data := Some d |})]> w)
        end
    end in
  read flow_node_get_input_data (node_input_ports n) "Input" ∧
  read flow_node_get_output_data (node_output_ports n) "Output".
Proof.
  intros (Hh & Hlook & Ha). simpl.
  destruct (new_address_fresh (handles_ w)) as [Hnull Hfresh].
  split.
  - destruct (node_input_ports n !! port_key) as [port|] eqn:Hport;
      [destruct (port_data port) as [d|] eqn:Hd; [exists (HandleRegistry.new_address (handles_ w));
         split; [done|]; split; [done|] | ] | ].
    all: apply wp_eq; unfold flow_node_get_input_data, flow_node_get_data_.
    all: wp_step; wp_open Hh Hlook; wp_string; wp_handle Hlook; wp_step; wp_node Ha.
    all: wp_step; unfold GetInputData; rewrite Hport; simpl; wp_step; simpl.
    all: rewrite ?Hd; simpl; repeat wp_step; done.
  - destruct (node_output_ports n !! port_key) as [port|] eqn:Hport;
      [destruct (port_data port) as [d|] eqn:Hd; [exists (HandleRegistry.new_address (handles_ w));
         split; [done|]; split; [done|] | ] | ].
    all: apply wp_eq; unfold flow_node_get_output_data, flow_node_get_data_.
    all: wp_step; wp_open Hh Hlook; wp_string; wp_handle Hlook; wp_step; wp_node Ha.
    all: wp_step; unfold GetOutputData; rewrite Hport; simpl; wp_step; simpl.
    all: rewrite ?Hd; simpl; repeat wp_step; done.
Qed.

(** X10.  The port queries look on one side of the node only.  For a handle
    to a node, [flow_node_get_input_port_type] returns the declared type of
    the input port of the given key and clears the last error; when the
    node has no input port of that key, even if it has an output port of
    that key, it returns null and records [FLOW_ERROR_PORT_NOT_FOUND].
    [flow_node_get_output_port_type] does the same on the output ports, and
    [flow_node_get_port_description] returns the caption of the port on the
    side its flag selects. *)
Theorem port_queries_by_side (tid : thread_id) (w : World) (node : ptr)
    (a : N) (n : Node) (port_key : string) (is_input_port : bool) :
  is_node_handle w node a n →
  let query (get : M cstring) (ports : gmap string Port) (field : Port → string)
      (failed : string) :=
    get tid w =
      match ports !! port_key with
      | Some port => (Return (Some (field port)), set_errors_ (delete tid) w)
      | None =>
          (Return None,
           set_errors_ <[tid := {| code := FLOW_ERROR_PORT_NOT_FOUND;
                                   message := failed +:+ out_of_range_what |}]> w)
      end in
  query (flow_node_get_input_port_type node (Some port_key)) (node_input_ports n)
    port_data_type "Failed to get input port type: " ∧
  query (flow_node_get_output_port_type node (Some port_key)) (node_output_ports n)
    port_data_type "Failed to get output port type: " ∧
  query (flow_node_get_port_description node (Some port_key) is_input_port)
    (if is_input_port then node_input_ports n else node_output_ports n)
    port_caption "Failed to get port description: ".
Proof.
  intros (Hh & Hlook & Ha). simpl. split_and!; apply wp_eq_pair.
  - unfold flow_node_get_input_port_type, flow_node_get_port_type_.
    wp_step. wp_open Hh Hlook. wp_string. wp_handle Hlook. wp_step. wp_node Ha.
    wp_step. unfold GetInputPort.
    destruct (node_input_ports n !! port_key); simpl; repeat wp_step; done.
  - unfold flow_node_get_output_port_type, flow_node_get_port_type_.
    wp_step. wp_open Hh Hlook. wp_string. wp_handle Hlook. wp_step. wp_node Ha.
    wp_step. unfold GetOutputPort.
    destruct (node_output_ports n !! port_key); simpl; repeat wp_step; done.
  - unfold flow_node_get_port_description.
    wp_step. wp_open Hh Hlook. wp_string. wp_handle Hlook. wp_step. wp_node Ha.
    wp_step. destruct is_input_port; simpl; wp_step; unfold GetInputPort, GetOutputPort.
    + destruct (node_input_ports n !! port_key); simpl; repeat wp_step; done.
    + destruct (node_output_ports n !! port_key); simpl; repeat wp_step; done.
Qed.

(** X11.  For a handle to a node, [flow_node_has_connected_inputs] returns
    true if and only if some input port of the node holds data, whatever
    its required flag, and [flow_node_has_connected_outputs] if and only if
    some output port does; a node without ports gives false.  Both change
    nothing, the last error included. *)
Theorem has_connected_ports (tid : thread_id) (w : World) (node : ptr)
    (a : N) (n : Node) :
  is_node_handle w node a n →
  ∃ inputs outputs : bool,
    flow_node_has_connected_inputs node tid w = (Return inputs, w) ∧
    flow_node_has_connected_outputs node tid w = (Return outputs, w) ∧
    (inputs = true ↔
     ∃ k port, node_input_ports n !! k = Some port ∧ is_Some (port_data port)) ∧
    (outputs = true ↔
     ∃ k port, node_output_ports n !! k = Some port ∧ is_Some (port_data port)).
Proof.
  intros (Hh & Hlook & Ha).
  assert (Hex : ∀ ports : gmap string Port,
            existsb (holds_data ports) (map_to_list ports) = true ↔
            ∃ k port, ports !! k = Some port ∧ is_Some (port_data port)).
  { intros ports. rewrite existsb_exists. split.
    - intros ([k port] & Hin & Hd). apply list_elem_of_In, elem_of_map_to_list in Hin.
      unfold holds_data in Hd. simpl in Hd. rewrite Hin in Hd. simpl in Hd.
      exists k, port. split; [done|]. by apply bool_decide_eq_true_1 in Hd.
    - intros (k & port & Hk & Hd). exists (k, port). split.
      + by apply list_elem_of_In, elem_of_map_to_list.
      + unfold holds_data; simpl. rewrite Hk; simpl. by apply bool_decide_eq_true_2. }
  exists (existsb (holds_data (node_input_ports n)) (GetInputPorts n)),
    (existsb (holds_data (node_output_ports n)) (GetOutputPorts n)).
  split_and!; [| |apply Hex|apply Hex]; apply wp_eq.
  - unfold flow_node_has_connected_inputs, flow_node_has_connected_.
    wp_open Hh Hlook. wp_handle Hlook. wp_step. wp_node Ha.
    by apply wp_has_connected_loop_inputs.
  - unfold flow_node_has_connected_outputs, flow_node_has_connected_.
    wp_open Hh Hlook. wp_handle Hlook. wp_step. wp_node Ha.
    by apply wp_has_connected_loop_outputs.
Qed.

(** X12.  For a handle to a node and two out-parameters that are not null,
    [flow_node_get_input_port_keys] succeeds and stores the number of input
    ports of the node and a new array of their keys, each key of the node
    once and no other; for a node without input ports it stores zero and a
    null array.  [flow_node_get_output_port_keys] does the same for the
    output ports.  Neither touches the last error. *)
Theorem port_keys_are_listed (tid : thread_id) (w : World) (node : ptr)
    (a : N) (n : Node) (port_keys count : ptr) :
  is_node_handle w node a n → port_keys ≠ 0%N → count ≠ 0%N →
  ∃ inputs outputs : list string,
    flow_node_get_input_port_keys node port_keys count tid w =
      (Return FLOW_SUCCESS,
       listed port_keys count ((λ k, V_cstring (Some k)) <$> inputs) w) ∧
    flow_node_get_output_port_keys node port_keys count tid w =
      (Return FLOW_SUCCESS,
       listed port_keys count ((λ k, V_cstring (Some k)) <$> outputs) w) ∧
    NoDup inputs ∧ (∀ k, k ∈ inputs ↔ is_Some (node_input_ports n !! k)) ∧
    NoDup outputs ∧ (∀ k, k ∈ outputs ↔ is_Some (node_output_ports n !! k)).
Proof.
  intros (Hh & Hlook & Ha) Hkeys Hcount.
  assert (Hkeys_of : ∀ ports : gmap string Port,
            NoDup (map_to_list ports).*1 ∧
            ∀ k, k ∈ (map_to_list ports).*1 ↔ is_Some (ports !! k)).
  { intros ports. split; [apply NoDup_fst_map_to_list|].
    intros k. rewrite list_elem_of_fmap. split.
    - intros ([k' port] & -> & Hin). apply elem_of_map_to_list in Hin. by eexists.
    - intros [port Hport]. exists (k, port). split; [done|]. by apply elem_of_map_to_list. }
  assert (Hrun : ∀ GetPorts which,
            flow_node_get_port_keys_ GetPorts which node port_keys count tid w =
              (Return FLOW_SUCCESS,
               listed port_keys count ((λ k, V_cstring (Some k)) <$> (GetPorts n).*1) w)).
  { intros GetPorts which. apply wp_eq. unfold flow_node_get_port_keys_. wp_step.
    wp_open Hh Hlook. wp_pointer. wp_pointer. wp_handle Hlook. wp_step. wp_node Ha.
    unfold listed. rewrite !length_fmap.
    wp_step. wp_step. simpl. case_bool_decide as Hlen; simpl.
    - apply length_zero_iff_nil in Hlen. rewrite Hlen. simpl. repeat wp_step. done.
    - wp_step. wp_step. simpl. wp_step. unfold wp at 1.
      rewrite copy_strings_run. simpl. wp_step.
      split; [done|]. unfold new_array.
      destruct (GetPorts n) as [|p l]; [done|]. done. }
  exists (GetInputPorts n).*1, (GetOutputPorts n).*1.
  split_and!; try apply Hkeys_of; apply Hrun.
Qed.

(** X13.  The metadata of all input ports agrees with the metadata of each.
    For a handle to a node whose port descriptors all serialise,
    [flow_node_get_input_ports_metadata] succeeds and stores the number of
    input ports and a new array with one record for each input port; the
    record for a port holds the key, the descriptor and the flag that
    [flow_node_get_port_metadata] writes when asked for that key. *)
Theorem ports_metadata_agrees (tid : thread_id) (w : World) (node : ptr)
    (a : N) (n : Node) (metadata_array count : ptr) (dumps : Port → string) :
  is_node_handle w node a n → metadata_array ≠ 0%N → count ≠ 0%N →
  (∀ k port, node_input_ports n !! k = Some port →
     json_dump (interworking_json port) = Ok (dumps port)) →
  flow_node_get_input_ports_metadata node metadata_array count tid w =
    (Return FLOW_SUCCESS,
     listed metadata_array count
       ((λ kp, metadata_record kp.1 (dumps kp.2) (bool_decide (is_Some (port_data kp.2))))
          <$> GetInputPorts n) w) ∧
  ∀ k port metadata,
    (k, port) ∈ GetInputPorts n → metadata ≠ 0%N →
    flow_node_get_port_metadata node (Some k) metadata tid w =
      (Return FLOW_SUCCESS,
       filled_metadata metadata k (dumps port) (bool_decide (is_Some (port_data port))) w).
Proof.
  intros Hnode Harr Hcount Hdumps. pose proof Hnode as (Hh & Hlook & Ha). split.
  - apply wp_eq. unfold flow_node_get_input_ports_metadata. wp_step.
    wp_open Hh Hlook. wp_pointer. wp_pointer. wp_handle Hlook. wp_step. wp_node Ha.
    unfold listed. rewrite !length_fmap.
    wp_step. wp_step. simpl. case_bool_decide as Hlen; simpl.
    + apply length_zero_iff_nil in Hlen. rewrite Hlen. simpl. repeat wp_step. done.
    + wp_step. wp_step. simpl. wp_step. unfold wp at 1.
      rewrite (ports_metadata_loop_run _ _ _ dumps).
      * simpl. wp_step.
        split; [done|]. unfold new_array.
        destruct (GetInputPorts n) as [|p l]; [done|]. done.
      * intros [k port] Hin. apply elem_of_map_to_list in Hin. by eapply Hdumps.
  - intros k port metadata Hin Hmd. apply elem_of_map_to_list in Hin.
    eapply flow_node_get_port_metadata_run; try done.
    + unfold port_of. by rewrite Hin.
    + by eapply Hdumps.
Qed.

End node_extras.

(** [node_properties_are_read] on the example's node. *)
Lemma node_properties_are_read_witness :
  flow_node_get_id (flow_core := Reference.engine) 1 0 Example.world =
    (Return (Some (Reference.string_of_UUID 7)), Example.world) ∧
  flow_node_get_name 1 0 Example.world = (Return (Some "n"), Example.world) ∧
  flow_node_get_class 1 0 Example.world = (Return (Some "math.double"), Example.world).
Proof.
  exact (node_properties_are_read (flow_core := Reference.engine) 0 Example.world 1 5
           Example.the_node example_node_handle).
Defined.

(** [port_data_is_read] on the example's node: the port [in] holds no
    data. *)
Lemma port_data_is_read_witness :
  flow_node_get_input_data 1 (Some "in") 0 Example.world = (Return 0%N, Example.world).
Proof.
  exact (proj1 (port_data_is_read 0 Example.world 1 5 Example.the_node "in"
                  example_node_handle)).
Defined.

(** [port_queries_by_side] on the example's node: [out] is an output
    port, and no input port. *)
Lemma port_queries_by_side_witness :
  flow_node_get_input_port_type 1 (Some "out") 0 Example.world =
    (Return None,
     set_errors_
       <[0 := {| code := FLOW_ERROR_PORT_NOT_FOUND;
                 message := "Failed to get input port type: unordered_map::at" |}]>
       Example.world) ∧
  flow_node_get_output_port_type 1 (Some "out") 0 Example.world =
    (Return (Some "Image"), set_errors_ (delete 0) Example.world).
Proof.
  destruct (port_queries_by_side 0 Example.world 1 5 Example.the_node "out" true
              example_node_handle) as (Hin & Hout & _).
  split; [exact Hin | exact Hout].
Defined.

(** [has_connected_ports] on the example's node. *)
Lemma has_connected_ports_witness :
  ∃ inputs outputs : bool,
    flow_node_has_connected_inputs 1 0 Example.world = (Return inputs, Example.world) ∧
    flow_node_has_connected_outputs 1 0 Example.world = (Return outputs, Example.world) ∧
    (inputs = true ↔
     ∃ k port, node_input_ports Example.the_node !! k = Some port ∧
               is_Some (port_data port)) ∧
    (outputs = true ↔
     ∃ k port, node_output_ports Example.the_node !! k = Some port ∧
               is_Some (port_data port)).
Proof.
  exact (has_connected_ports 0 Example.world 1 5 Example.the_node example_node_handle).
Defined.

(** [port_keys_are_listed] on the example's node, with out-parameters at
    [64] and [72]. *)
Lemma port_keys_are_listed_witness :
  ∃ inputs outputs : list string,
    flow_node_get_input_port_keys 1 64 72 0 Example.world =
      (Return FLOW_SUCCESS,
       listed 64 72 ((λ k, V_cstring (Some k)) <$> inputs) Example.world) ∧
    flow_node_get_output_port_keys 1 64 72 0 Example.world =
      (Return FLOW_SUCCESS,
       listed 64 72 ((λ k, V_cstring (Some k)) <$> outputs) Example.world) ∧
    NoDup inputs ∧ (∀ k, k ∈ inputs ↔ is_Some (node_input_ports Example.the_node !! k)) ∧
    NoDup outputs ∧ (∀ k, k ∈ outputs ↔ is_Some (node_output_ports Example.the_node !! k)).
Proof.
  refine (port_keys_are_listed 0 Example.world 1 5 Example.the_node 64 72
            example_node_handle _ _); done.
Defined.

(** [ports_metadata_agrees] on the example's node and the reference
    engine. *)
Lemma ports_metadata_agrees_witness :
  flow_node_get_input_ports_metadata (flow_core := Reference.engine) 1 64 72 0
    Example.world =
    (Return FLOW_SUCCESS,
     listed 64 72 [metadata_record "in"
                    ("{" +:+ Reference.quoted "type" +:+ ":" +:+ Reference.quoted "integer" +:+ "}")
                    false] Example.world).
Proof.
  refine (proj1 (ports_metadata_agrees (flow_core := Reference.engine) 0 Example.world 1 5
                   Example.the_node 64 72 
                   (λ _, "{" +:+ Reference.quoted "type" +:+ ":" +:+ Reference.quoted "integer" +:+ "}")
                   example_node_handle _ _ _)); try done.
  intros k port Hk. unfold Example.the_node in Hk; simpl in Hk.
  apply lookup_singleton_Some in Hk as [_ <-]. reflexivity.
Defined.
(* ===================================================================== *)
(** * src/node_bridge.cpp: calls into the node *)
(* ===================================================================== *)

Section node_call_extras.
Context {flow_core : FlowCore}.

(** X14.  For a handle to a node, [flow_node_invoke_compute] runs the
    node's compute procedure once and returns [FLOW_SUCCESS] when it
    returns, leaving the last error as it was.  A [std::exception] thrown
    by the procedure is reported as [FLOW_ERROR_COMPUTATION_FAILED] with
    the message [Node computation failed: ] followed by its text, any other
    exception as [FLOW_ERROR_UNKNOWN]; what the procedure did to the engine
    before it threw stays. *)
Theorem invoke_compute_outcomes (tid : thread_id) (w : World) (node : ptr)
    (a : N) (n : Node) :
  is_node_handle w node a n →
  flow_node_invoke_compute node tid w =
    let '(r, c) := Node_InvokeCompute a (core w) in
    let failed code message :=
      (Return code,
       set_errors_ <[tid := {| code := code; message := message |}]> (set_core c w)) in
    match r with
    | Ok _ => (Return FLOW_SUCCESS, set_core c w)
    | Raise (std_out_of_range msg) | Raise (json_parse_error msg)
    | Raise (std_exception msg) =>
        failed FLOW_ERROR_COMPUTATION_FAILED ("Node computation failed: " +:+ msg)
    | Raise non_std_exception => failed FLOW_ERROR_UNKNOWN "Unknown exception occurred"
    end.
Proof.
  intros (Hh & Hlook & Ha).
  apply wp_eq_pair. unfold flow_node_invoke_compute. wp_step.
  wp_open Hh Hlook. wp_handle Hlook. wp_step. wp_node Ha.
  wp_step. apply wp_call. intros r c ->. simpl.
  destruct r as [[]|[]]; simpl; repeat wp_step; done.
Qed.

(** X15.  Clearing a port is a write of no data that requests no
    recompute: for a handle to a node, [flow_node_clear_input_data] reaches
    the engine as [SetInputData(key, nullptr, false)] and
    [flow_node_clear_output_data] as [SetOutputData(key, nullptr, false)],
    and as nothing else.  The call returns [FLOW_SUCCESS] when the engine
    returns, [FLOW_ERROR_PORT_NOT_FOUND] when it throws
    [std::out_of_range], and [FLOW_ERROR_UNKNOWN] on any other exception. *)
Theorem clear_data_writes_null (tid : thread_id) (w : World) (node : ptr)
    (a : N) (n : Node) (port_key : string) :
  is_node_handle w node a n →
  let cleared (clear : M FlowError) (SetData : EngineProc unit) (Which which : string) :=
    clear tid w =
      let '(r, c) := SetData (core w) in
      let failed code message :=
        (Return code,
         set_errors_ <[tid := {| code := code; message := message |}]> (set_core c w)) in
      match r with
      | Ok _ => (Return FLOW_SUCCESS, set_core c w)
      | Raise (std_out_of_range _) =>
          failed FLOW_ERROR_PORT_NOT_FOUND (Which +:+ " port not found: " +:+ port_key)
      | Raise (json_parse_error msg) | Raise (std_exception msg) =>
          failed FLOW_ERROR_UNKNOWN ("Failed to clear " +:+ which +:+ " data: " +:+ msg)
      | Raise non_std_exception => failed FLOW_ERROR_UNKNOWN "Unknown exception occurred"
      end in
  cleared (flow_node_clear_input_data node (Some port_key))
    (Node_SetInputData a port_key None false) "Input" "input" ∧
  cleared (flow_node_clear_output_data node (Some port_key))
    (Node_SetOutputData a port_key None false) "Output" "output".
Proof.
  intros (Hh & Hlook & Ha). simpl. split; apply wp_eq_pair.
  - unfold flow_node_clear_input_data, flow_node_clear_data_. wp_step.
    wp_open Hh Hlook. wp_string. wp_handle Hlook. wp_step. wp_node Ha.
    wp_step. apply wp_call. intros r c ->. simpl.
    destruct r as [[]|[]]; simpl; repeat wp_step; done.
  - unfold flow_node_clear_output_data, flow_node_clear_data_. wp_step.
    wp_open Hh Hlook. wp_string. wp_handle Hlook. wp_step. wp_node Ha.
    wp_step. apply wp_call. intros r c ->. simpl.
    destruct r as [[]|[]]; simpl; repeat wp_step; done.
Qed.

(** X16.  Text that does not parse is refused before the engine is
    touched.  When [json::parse] throws a parse error on the text,
    [flow_node_load_from_json] on a handle to a node and
    [flow_graph_load_from_json] on a handle to a graph both return
    [FLOW_ERROR_INVALID_ARGUMENT] and record the text of the parse error,
    after [JSON parse error: ] for the node and after [JSON parsing
    failed: ] for the graph; the node and the graph are not restored from
    anything: nothing changes but the error. *)
Theorem unparsable_json_is_refused (tid : thread_id) (w : World) (json_str msg : string) :
  json_parse json_str = Raise (json_parse_error msg) →
  (∀ node a n,
     is_node_handle w node a n →
     flow_node_load_from_json node (Some json_str) tid w =
       (Return FLOW_ERROR_INVALID_ARGUMENT,
        set_errors_ <[tid := {| code := FLOW_ERROR_INVALID_ARGUMENT;
                                message := "JSON parse error: " +:+ msg |}]> w)) ∧
  (∀ graph a g,
     is_graph_handle w graph a g →
     flow_graph_load_from_json graph (Some json_str) tid w =
       (Return FLOW_ERROR_INVALID_ARGUMENT,
        set_errors_ <[tid := {| code := FLOW_ERROR_INVALID_ARGUMENT;
                                message := "JSON parsing failed: " +:+ msg |}]> w)).
Proof.
  intros Hparse. split.
  - intros node a n (Hh & Hlook & Ha). apply wp_eq. unfold flow_node_load_from_json.
    wp_step. wp_open Hh Hlook. wp_string. wp_handle Hlook.
    wp_step. wp_step. apply wp_lift. rewrite Hparse. simpl. repeat wp_step. done.
  - intros graph a g (Hh & Hlook & Ha). apply wp_eq. unfold flow_graph_load_from_json.
    wp_step. wp_open Hh Hlook. wp_string. wp_handle Hlook.
    wp_step. wp_step. wp_step. apply wp_lift. rewrite Hparse. simpl. repeat wp_step. done.
Qed.

End node_call_extras.

(** [invoke_compute_outcomes] on the example's node and the reference
    engine, whose compute procedure counts its runs. *)
Lemma invoke_compute_outcomes_witness :
  ∃ w', flow_node_invoke_compute (flow_core := Reference.engine) 1 0 Example.world =
          (Return FLOW_SUCCESS, w') ∧
        node_computes <$> nodes (core w') !! 5%N = Some 1.
Proof.
  eexists. split.
  - exact (invoke_compute_outcomes (flow_core := Reference.engine) 0 Example.world 1 5
             Example.the_node example_node_handle).
  - reflexivity.
Defined.

(** [clear_data_writes_null] on the example's node: it has no input port
    [gain]. *)
Lemma clear_data_writes_null_witness :
  flow_node_clear_input_data (flow_core := Reference.engine) 1 (Some "gain") 0
    Example.world =
    (Return FLOW_ERROR_PORT_NOT_FOUND,
     set_errors_ <[0 := {| code := FLOW_ERROR_PORT_NOT_FOUND;
                           message := "Input port not found: gain" |}]> Example.world).
Proof.
  exact (proj1 (clear_data_writes_null (flow_core := Reference.engine) 0 Example.world 1 5
                  Example.the_node "gain" example_node_handle)).
Defined.

(** [unparsable_json_is_refused] on the example's node and graph. *)
Lemma unparsable_json_is_refused_witness :
  flow_node_load_from_json (flow_core := Reference.engine) 1 (Some "oops") 0
    Example.world =
    (Return FLOW_ERROR_INVALID_ARGUMENT,
     set_errors_
       <[0 := {| code := FLOW_ERROR_INVALID_ARGUMENT;
                 message := "JSON parse error: parse error: unexpected character" |}]>
       Example.world) ∧
  flow_graph_load_from_json (flow_core := Reference.engine) 3 (Some "oops") 0
    Example.world =
    (Return FLOW_ERROR_INVALID_ARGUMENT,
     set_errors_
       <[0 := {| code := FLOW_ERROR_INVALID_ARGUMENT;
                 message := "JSON parsing failed: parse error: unexpected character" |}]>
       Example.world).
Proof.
  assert (Hparse : json_parse (FlowCore := Reference.engine) "oops" =
                     Raise (json_parse_error "parse error: unexpected character"))
    by reflexivity.
  destruct (unparsable_json_is_refused (flow_core := Reference.engine) 0 Example.world
              "oops" "parse error: unexpected character" Hparse) as [Hnode Hgraph].
  split.
  - exact (Hnode 1%N 5%N Example.the_node example_node_handle).
  - exact (Hgraph 3%N 6%N Example.the_graph example_graph_handle).
Defined.
(* ===================================================================== *)
(** * src/graph_bridge.cpp and src/connection_bridge.cpp *)
(* ===================================================================== *)

Section graph_extras.
Context {flow_core : FlowCore}.

(** X17.  For a handle to an environment, [flow_graph_create] makes a graph
    named [Default Graph] in that environment, without nodes and without
    connections, returns a new handle to it and clears the last error.  On
    the new handle [flow_graph_get_nodes] and [flow_graph_get_connections]
    succeed and store a count of zero and a null array. *)
Theorem new_graph_is_empty (tid : thread_id) (w : World) (env : ptr) (a : N)
    (array count : ptr) :
  is_env_handle w env a → array ≠ 0%N → count ≠ 0%N →
  ∃ graph g w',
    flow_graph_create env tid w = (Return graph, w') ∧
    graphs (core w) !! g = None ∧ hands_out w graph w' ∧
    is_graph_handle w' graph g (new_graph "Default Graph" (Some a)) ∧
    errors_ w' !! tid = None ∧
    flow_graph_get_nodes graph array count tid w' =
      (Return FLOW_SUCCESS, listed array count [] w') ∧
    flow_graph_get_connections graph array count tid w' =
      (Return FLOW_SUCCESS, listed array count [] w').
Proof.
  intros (Hh & Hlook) Harr Hcount.
  destruct (new_address_fresh (handles_ w)) as [Hnull Hfresh].
  set (g := fresh (dom (graphs (core w)))).
  set (graph := HandleRegistry.new_address (handles_ w)).
  assert (Hg : graphs (core w) !! g = None) by (apply not_elem_of_dom, is_fresh).
  eexists graph, g, _. split; [|split; [exact Hg|]].
  - apply wp_eq. unfold flow_graph_create. wp_step. wp_open Hh Hlook. wp_handle Hlook.
    wp_step. apply wp_call. intros r c [= <- <-]. simpl.
    repeat wp_step. done.
  - assert (Hlookg : ∀ w0 o, handles_ w0 = <[graph := HandleBase_.ctor
               (Handle_shared_ptr_Graph {| get_Graph := Some g |})]> o →
               lookup_handle w0 graph = Some {| get_Graph := Some g |}).
    { intros w0 o Hw0. unfold lookup_handle. rewrite Hw0, lookup_insert_eq. done. }
    split_and!.
    + split; [done|]. eexists. reflexivity.
    + split; [done|]. split; [by eapply Hlookg|]. simpl. by rewrite lookup_insert_eq.
    + simpl. by rewrite lookup_delete_eq.
    + apply wp_eq. unfold flow_graph_get_nodes. wp_step.
      apply wp_bind, wp_validate_handle;
        [intros _ _|intros [?|Hn]; [done|simpl in Hn; by rewrite lookup_insert_eq in Hn]].
      simpl. wp_pointer. wp_pointer. wp_step. apply wp_get_handle.
      erewrite Hlookg by reflexivity. simpl.
      wp_step. apply wp_deref; simpl;
        [intros ? ? [= <-]; rewrite lookup_insert_eq; intros [= <-]
        |by rewrite lookup_insert_eq].
      unfold GetNodes, GetConnections. simpl. rewrite ?map_to_list_empty. simpl.
      repeat wp_step. split; [done|].
      unfold listed, set_memory, set_errors_; simpl. f_equal.
      apply delete_delete_eq.
    + apply wp_eq. unfold flow_graph_get_connections. wp_step.
      apply wp_bind, wp_validate_handle;
        [intros _ _|intros [?|Hn]; [done|simpl in Hn; by rewrite lookup_insert_eq in Hn]].
      simpl. rewrite !bool_decide_eq_false_2 by done. simpl.
      wp_step. apply wp_get_handle.
      erewrite Hlookg by reflexivity. simpl.
      wp_step. apply wp_deref; simpl;
        [intros ? ? [= <-]; rewrite lookup_insert_eq; intros [= <-]
        |by rewrite lookup_insert_eq].
      unfold GetNodes, GetConnections. simpl. rewrite ?map_to_list_empty. simpl.
      repeat wp_step. split; [done|].
      unfold listed, set_memory, set_errors_; simpl. f_equal.
      apply delete_delete_eq.
Qed.

(** X18.  For a handle to a graph and an id, [flow_graph_get_node] answers
    by the id: text that is no UUID gives null and
    [FLOW_ERROR_INVALID_ARGUMENT] with [Invalid UUID format: ] and the text
    of the exception; the id of no node of the graph gives null and
    [FLOW_ERROR_NODE_NOT_FOUND] with [Node not found with ID: ] and the id;
    the id of a node gives a new handle to that node, with the last error
    cleared.  The graph is the same after the call in each case. *)
Theorem graph_node_lookup (tid : thread_id) (w : World) (graph : ptr) (a : N) (g : Graph)
    (node_id : string) :
  is_graph_handle w graph a g →
  let failed code message :=
    (Return 0%N, set_errors_ <[tid := {| code := code; message := message |}]> w) in
  flow_graph_get_node graph (Some node_id) tid w =
    match UUID_parse node_id with
    | Raise (std_out_of_range msg) | Raise (json_parse_error msg)
    | Raise (std_exception msg) =>
        failed FLOW_ERROR_INVALID_ARGUMENT ("Invalid UUID format: " +:+ msg)
    | Raise non_std_exception => failed FLOW_ERROR_UNKNOWN "Unknown exception occurred"
    | Ok uuid =>
        match graph_nodes g !! uuid with
        | None => failed FLOW_ERROR_NODE_NOT_FOUND ("Node not found with ID: " +:+ node_id)
        | Some node =>
            (Return (HandleRegistry.new_address (handles_ w)),
             set_errors_ (delete tid)
               (set_handles_
                  <[HandleRegistry.new_address (handles_ w) :=
                      HandleBase_.ctor
                        (Handle_NodeWrapper {| NodeWrapper_node := Some node |})]> w))
        end
    end.
Proof.
  intros (Hh & Hlook & Ha). simpl.
  apply wp_eq_pair. unfold flow_graph_get_node. wp_step.
  wp_open Hh Hlook. wp_string. wp_handle Hlook.
  wp_step. wp_step. wp_step. apply wp_lift.
  destruct (UUID_parse node_id) as [uuid|[]]; simpl; repeat wp_step; try done.
  all: unfold GetNode in *; simplify_eq/=.
  all: repeat match goal with
         | H : graph_nodes _ !! _ = _ |- _ => rewrite H
         end; done.
Qed.

(** X19.  For a handle to a graph and two out-parameters that are not null,
    [flow_graph_get_nodes] succeeds, clears the last error and stores the
    number of nodes of the graph and an array of that many handles (null
    for a graph without nodes).  The handles are new, different from each
    other, and the handle at each position is a handle to the node at that
    position among the nodes of the graph; the handles registered before
    the call are as they were, and so is the engine. *)
Theorem graph_nodes_are_handed_out (tid : thread_id) (w : World) (graph : ptr) (a : N)
    (g : Graph) (array count : ptr) :
  is_graph_handle w graph a g → array ≠ 0%N → count ≠ 0%N →
  ∃ hs w',
    flow_graph_get_nodes graph array count tid w = (Return FLOW_SUCCESS, w') ∧
    memory w' = memory (listed array count (V_handle <$> hs) w) ∧
    length hs = size (graph_nodes g) ∧ NoDup hs ∧
    (∀ h, h ∈ hs → h ≠ 0%N ∧ handles_ w !! h = None) ∧
    (∀ i h p, hs !! i = Some h → GetNodes g !! i = Some p →
       is_node_handle_to w' h p.2) ∧
    (∀ q, q ∉ hs → handles_ w' !! q = handles_ w !! q) ∧
    core w' = core w ∧ errors_ w' = delete tid (errors_ w).
Proof.
  intros (Hh & Hlook & Ha) Harr Hcount.
  destruct (get_nodes_loop_run array [] (GetNodes g) tid
              (set_memory <[(array, 0) := V_array (Some [])]>
                 (set_memory <[(count, 0) := V_size (length (GetNodes g))]> w)))
    as (hs & w1 & Hloop & Hlen & Hnd & Hnew & Hreg & Hold & Hcore & Herr & Hmem).
  assert (Hsize : length (GetNodes g) = size (graph_nodes g))
    by (unfold GetNodes; apply length_map_to_list).
  destruct (decide (length (GetNodes g) = 0)) as [Hzero|Hpos].
  - exists [], (set_errors_ (delete tid) (listed array count [] w)). split_and!; try done.
    + apply wp_eq. unfold flow_graph_get_nodes. wp_step.
      wp_open Hh Hlook. wp_pointer. wp_pointer. wp_handle Hlook.
      wp_step. apply wp_deref; simpl;
        [intros ? ? [= <-] Hg; rewrite Ha in Hg; injection Hg as <-|by rewrite Ha].
      wp_step. wp_step. simpl. rewrite bool_decide_eq_true_2 by done.
      rewrite Hzero. repeat wp_step. done.
    + simpl. by rewrite <- Hsize.
    + constructor.
    + intros h Hin. by apply elem_of_nil in Hin.
  - exists hs, (set_errors_ (delete tid) w1).
    split; [|split; [|split; [|split; [|split; [|split; [|split; [|split]]]]]]].
    + apply wp_eq. unfold flow_graph_get_nodes. wp_step.
      wp_open Hh Hlook. wp_pointer. wp_pointer. wp_handle Hlook.
      wp_step. apply wp_deref; simpl;
        [intros ? ? [= <-] Hg; rewrite Ha in Hg; injection Hg as <-|by rewrite Ha].
      wp_step. wp_step. simpl. rewrite bool_decide_eq_false_2 by done.
      wp_step. wp_step. simpl.
      wp_step. unfold wp at 1. rewrite Hloop. simpl. repeat wp_step. done.
    + simpl. rewrite Hmem. destruct (GetNodes g) as [|p node_map]; [done|].
      simpl. rewrite insert_insert_eq.
      rewrite length_fmap, Hlen. unfold new_array. simpl.
      destruct hs; [done|]. done.
    + by rewrite Hlen.
    + done.
    + intros h Hin. destruct (Hnew h Hin) as [Hn0 Hn]. split; [done|].
      simpl in Hn. exact Hn.
    + intros i h p' Hi Hp.
      split; [eapply Hnew, list_elem_of_lookup_2, Hi|].
      unfold lookup_handle. simpl. by rewrite (Hreg i h p' Hi Hp).
    + intros q Hq. simpl. by rewrite Hold.
    + simpl. by rewrite Hcore.
    + simpl. by rewrite Herr.
Qed.

(** X20.  For a handle to a graph and two out-parameters that are not null,
    [flow_graph_get_connections] succeeds, clears the last error and stores
    the number of connections of the graph and an array with one record for
    each connection, in the order of the graph: the texts of its id and of
    the ids of its two nodes, and the keys of its two ports.  A graph
    without connections gives a count of zero and a null array. *)
Theorem graph_connections_are_listed (tid : thread_id) (w : World) (graph : ptr) (a : N)
    (g : Graph) (array count : ptr) :
  is_graph_handle w graph a g → array ≠ 0%N → count ≠ 0%N →
  flow_graph_get_connections graph array count tid w =
    (Return FLOW_SUCCESS,
     set_errors_ (delete tid)
       (listed array count ((λ p, connection_info p.2) <$> graph_connections g) w)).
Proof.
  intros (Hh & Hlook & Ha) Harr Hcount.
  apply wp_eq. unfold flow_graph_get_connections. wp_step.
  wp_open Hh Hlook. rewrite !bool_decide_eq_false_2 by done. simpl.
  wp_handle Hlook.
  wp_step. apply wp_deref; simpl;
    [intros ? ? [= <-] Hg; rewrite Ha in Hg; injection Hg as <-|by rewrite Ha].
  unfold GetConnections, listed. rewrite length_fmap.
  wp_step. wp_step. simpl. case_bool_decide as Hlen; simpl.
  - apply length_zero_iff_nil in Hlen. rewrite Hlen. simpl. repeat wp_step. done.
  - wp_step. wp_step. simpl. wp_step. unfold wp at 1.
    rewrite get_connections_loop_run. simpl. repeat wp_step.
    split; [done|]. unfold new_array.
    destruct (graph_connections g) as [|p l]; [done|]. done.
Qed.

(** X21.  What a node handle returned by [flow_graph_add_node] stands for.
    Whatever the engine does, when the call returns a handle that is not
    null, the handle is registered with a count of one and stands for a
    node that exists, and the graph holds a node under the id of that node:
    the bridge asks [GetNode] for the id and checks that the answer is not
    null, no more.  The last error is cleared. *)
Theorem added_node_is_in_the_graph (tid : thread_id) (w : World) (graph : ptr) (a : N)
    (g : Graph) (class_id name : cstring) (h : ptr) (w' : World) :
  is_graph_handle w graph a g →
  flow_graph_add_node graph class_id name tid w = (Return h, w') → h ≠ 0%N →
  newly_registered w' h ∧ errors_ w' !! tid = None ∧
  ∃ node n g',
    is_node_handle w' h node n ∧
    graphs (core w') !! a = Some g' ∧ is_Some (GetNode g' (node_id n)).
Proof.
  intros (Hh & Hlook & Ha) Hrun Hnn.
  cut (wp (flow_graph_add_node graph class_id name) tid w
         (λ r w', ∀ h, r = Return h → h ≠ 0%N →
            newly_registered w' h ∧ errors_ w' !! tid = None ∧
            ∃ node n g',
              is_node_handle w' h node n ∧
              graphs (core w') !! a = Some g' ∧ is_Some (GetNode g' (node_id n)))).
  { unfold wp. rewrite Hrun. simpl. eauto. }
  clear Hrun Hnn h w'. unfold flow_graph_add_node. wp_step.
  wp_open Hh Hlook.
  repeat first [ rewrite ?lookup_handle_set_errors_, Hlook; simpl | wp_step ].
  all: try (intros ? ?; simplify_eq/=; done).
  intros h [= <-] _. simpl.
  destruct (new_address_fresh (handles_ w)) as [Hnull Hfresh].
  split_and!.
  - eexists. simpl. apply lookup_insert_eq.
  - apply lookup_delete_eq.
  - simplify_eq/=. unfold is_node_handle. eexists _, _, _.
    split_and!;
      [ done
      | unfold lookup_handle; simpl; rewrite lookup_insert_eq; reflexivity
      | simpl; eassumption
      | simpl; eassumption
      | eexists; eassumption ].
Qed.

(** X22.  For a handle to a graph and two well-formed ids,
    [flow_graph_connect_nodes] asks the graph for the connection once: when
    the graph returns a connection the call returns a new handle to it and
    clears the last error; when the graph returns null the call returns
    null and records [FLOW_ERROR_CONNECTION_FAILED]; when the graph throws,
    the call returns null and records [FLOW_ERROR_UNKNOWN] with the text of
    the exception. *)
Theorem connect_nodes_outcomes (tid : thread_id) (w : World) (graph : ptr) (a : N)
    (g : Graph) (source_id source_port target_id target_port : string)
    (source_uuid target_uuid : UUID) :
  is_graph_handle w graph a g →
  UUID_parse source_id = Ok source_uuid → UUID_parse target_id = Ok target_uuid →
  flow_graph_connect_nodes graph (Some source_id) (Some source_port) (Some target_id)
    (Some target_port) tid w =
    let '(r, c) :=
      Graph_ConnectNodes a source_uuid source_port target_uuid target_port (core w) in
    let failed code message :=
      (Return 0%N,
       set_errors_ <[tid := {| code := code; message := message |}]> (set_core c w)) in
    match r with
    | Ok (Some conn) =>
        (Return (HandleRegistry.new_address (handles_ w)),
         set_errors_ (delete tid)
           (set_handles_
              <[HandleRegistry.new_address (handles_ w) :=
                  HandleBase_.ctor (Handle_SharedConnection (Some conn))]> (set_core c w)))
    | Ok None =>
        failed FLOW_ERROR_CONNECTION_FAILED "Failed to create connection between nodes"
    | Raise e => failed FLOW_ERROR_UNKNOWN (api_call_message e)
    end.
Proof.
  intros (Hh & Hlook & Ha) Hsource Htarget.
  apply wp_eq_pair. unfold flow_graph_connect_nodes. wp_step.
  wp_open Hh Hlook. wp_string. wp_string. wp_string. wp_string. wp_handle Hlook.
  wp_step. wp_step. wp_step. apply wp_lift. rewrite Hsource. simpl.
  wp_step. apply wp_lift. rewrite Htarget. simpl. wp_step. simpl.
  wp_step. apply wp_arrow; simpl;
    [intros ? ? [= <-] _|by rewrite Ha].
  wp_step. apply wp_call. intros r c ->. simpl.
  destruct r as [[conn|]|[]]; simpl; repeat wp_step; done.
Qed.


(** X24.  For a handle to a graph, [flow_graph_run] runs the graph once and
    [flow_graph_clear] clears it once; when the engine returns, the call
    returns [FLOW_SUCCESS] and clears the last error; when the engine
    throws, the call returns [FLOW_ERROR_UNKNOWN] and records the text of
    the exception, or [Unknown exception occurred] when it has none. *)
Theorem graph_run_and_clear_outcomes (tid : thread_id) (w : World) (graph : ptr) (a : N)
    (g : Graph) :
  is_graph_handle w graph a g →
  let outcome (op : M FlowError) (proc : EngineProc unit) :=
    op tid w =
      let '(r, c) := proc (core w) in
      match r with
      | Ok _ => (Return FLOW_SUCCESS, set_errors_ (delete tid) (set_core c w))
      | Raise e =>
          (Return FLOW_ERROR_UNKNOWN,
           set_errors_ <[tid := {| code := FLOW_ERROR_UNKNOWN;
                                   message := api_call_message e |}]> (set_core c w))
      end in
  outcome (flow_graph_run graph) (Graph_Run a) ∧
  outcome (flow_graph_clear graph) (Graph_Clear a).
Proof.
  intros (Hh & Hlook & Ha). simpl. split; apply wp_eq_pair.
  - unfold flow_graph_run. wp_step. wp_open Hh Hlook. wp_handle Hlook.
    wp_step. apply wp_arrow; simpl; [intros ? ? [= <-] _|by rewrite Ha].
    wp_step. apply wp_call. intros r c ->. simpl.
    destruct r as [[]|[]]; simpl; repeat wp_step; done.
  - unfold flow_graph_clear. wp_step. wp_open Hh Hlook. wp_handle Hlook.
    wp_step. apply wp_arrow; simpl; [intros ? ? [= <-] _|by rewrite Ha].
    wp_step. apply wp_call. intros r c ->. simpl.
    destruct r as [[]|[]]; simpl; repeat wp_step; done.
Qed.

End graph_extras.

(** [new_graph_is_empty] in the environment of the second example. *)
Lemma new_graph_is_empty_witness :
  ∃ graph g w',
    flow_graph_create 1 0 Studio.world = (Return graph, w') ∧
    graphs (core Studio.world) !! g = None ∧ hands_out Studio.world graph w' ∧
    is_graph_handle w' graph g (new_graph "Default Graph" (Some 10%N)) ∧
    errors_ w' !! 0 = None ∧
    flow_graph_get_nodes graph 64 72 0 w' = (Return FLOW_SUCCESS, listed 64 72 [] w') ∧
    flow_graph_get_connections (flow_core := Studio.engine) graph 64 72 0 w' =
      (Return FLOW_SUCCESS, listed 64 72 [] w').
Proof.
  refine (new_graph_is_empty (flow_core := Studio.engine) 0 Studio.world 1 10 64 72
            studio_env_handle _ _); done.
Defined.

(** [graph_node_lookup] on the graph of the first example: no node has
    the id asked for. *)
Lemma graph_node_lookup_witness :
  flow_graph_get_node (flow_core := Reference.engine) 3 (Some Example.absent_id) 0
    Example.world =
    (Return 0%N,
     set_errors_
       <[0 := {| code := FLOW_ERROR_NODE_NOT_FOUND;
                 message := "Node not found with ID: " +:+ Example.absent_id |}]>
       Example.world).
Proof.
  exact (graph_node_lookup (flow_core := Reference.engine) 0 Example.world 3 6
           Example.the_graph Example.absent_id example_graph_handle).
Defined.

(** [graph_nodes_are_handed_out] on the graph of the first example, which
    has one node. *)
Lemma graph_nodes_are_handed_out_witness :
  ∃ hs w',
    flow_graph_get_nodes 3 64 72 0 Example.world = (Return FLOW_SUCCESS, w') ∧
    memory w' = memory (listed 64 72 (V_handle <$> hs) Example.world) ∧
    length hs = 1 ∧ NoDup hs ∧
    (∀ h, h ∈ hs → h ≠ 0%N ∧ handles_ Example.world !! h = None) ∧
    (∀ i h p, hs !! i = Some h → GetNodes Example.the_graph !! i = Some p →
       is_node_handle_to w' h p.2) ∧
    (∀ q, q ∉ hs → handles_ w' !! q = handles_ Example.world !! q) ∧
    core w' = core Example.world ∧ errors_ w' = delete 0 (errors_ Example.world).
Proof.
  refine (graph_nodes_are_handed_out 0 Example.world 3 6 Example.the_graph 64 72
            example_graph_handle _ _); done.
Defined.

(** [graph_connections_are_listed] on the graph of the second example,
    which has one connection. *)
Lemma graph_connections_are_listed_witness :
  flow_graph_get_connections (flow_core := Studio.engine) 3 64 72 0 Studio.world =
    (Return FLOW_SUCCESS,
     set_errors_ (delete 0)
       (listed 64 72 [connection_info (flow_core := Studio.engine) Studio.the_connection]
          Studio.world)).
Proof.
  refine (graph_connections_are_listed (flow_core := Studio.engine) 0 Studio.world 3 6
            Studio.the_graph 64 72 studio_graph_handle _ _); done.
Defined.

(** [added_node_is_in_the_graph] in the second example, whose factory
    files the class [math.add]. *)
Lemma added_node_is_in_the_graph_witness :
  let w' := (flow_graph_add_node (flow_core := Studio.engine) 3 (Some "math.add")
               (Some "sum") 0 Studio.world).2 in
  newly_registered w' 5 ∧ errors_ w' !! 0 = None ∧
  ∃ node n g',
    is_node_handle w' 5 node n ∧
    graphs (core w') !! 6%N = Some g' ∧ is_Some (GetNode g' (node_id n)).
Proof.
  refine (added_node_is_in_the_graph (flow_core := Studio.engine) 0 Studio.world 3 6
            Studio.the_graph (Some "math.add") (Some "sum") 5 _ studio_graph_handle _ _).
  - reflexivity.
  - done.
Defined.

(** [connect_nodes_outcomes] in the second example: the node [7] of the
    graph, connected to itself. *)
Lemma connect_nodes_outcomes_witness :
  ∃ h w',
    flow_graph_connect_nodes (flow_core := Studio.engine) 3
      (Some "00000000-0000-0000-0000-000000000007") (Some "out")
      (Some "00000000-0000-0000-0000-000000000007") (Some "in") 0 Studio.world =
      (Return h, w') ∧
    is_connection_handle w' h
      {| conn_id := 1001; conn_start_node := 7; conn_start_port := "out";
         conn_end_node := 7; conn_end_port := "in" |}.
Proof.
  eexists _, _. split.
  - refine (connect_nodes_outcomes (flow_core := Studio.engine) 0 Studio.world 3 6
              Studio.the_graph "00000000-0000-0000-0000-000000000007" "out"
              "00000000-0000-0000-0000-000000000007" "in" 7 7 studio_graph_handle _ _);
      reflexivity.
  - split; [done|reflexivity].
Defined.


(** [graph_run_and_clear_outcomes] on the graph of the first example. *)
Lemma graph_run_and_clear_outcomes_witness :
  ∃ w', flow_graph_clear (flow_core := Reference.engine) 3 0 Example.world =
          (Return FLOW_SUCCESS, w') ∧
        graph_nodes <$> graphs (core w') !! 6%N = Some ∅.
Proof.
  eexists. split.
  - exact (proj2 (graph_run_and_clear_outcomes (flow_core := Reference.engine) 0
                    Example.world 3 6 Example.the_graph example_graph_handle)).
  - reflexivity.
Defined.
(* ===================================================================== *)
(** * src/factory_bridge.cpp *)
(* ===================================================================== *)

Section factory_extras.
Context {flow_core : FlowCore}.

(** X25.  For a handle to a factory and two out-parameters that are not
    null, [flow_factory_get_categories] succeeds and stores the number of
    categories of the factory and a new array of their names: each category
    that some class is filed under appears once, no other name appears, and
    the names are in ascending order.  A factory without classes gives a
    count of zero and a null array.  The last error is left as it was. *)
Theorem categories_are_sorted_and_unique (tid : thread_id) (w : World) (factory : ptr)
    (a : N) (f : NodeFactory) (categories count : ptr) :
  is_factory_handle w factory a f → categories ≠ 0%N → count ≠ 0%N →
  ∃ names : list string,
    flow_factory_get_categories factory categories count tid w =
      (Return FLOW_SUCCESS,
       listed categories count ((λ s, V_cstring (Some s)) <$> names) w) ∧
    Sorted string_le names ∧ NoDup names ∧
    ∀ category, category ∈ names ↔ ∃ class, (category, class) ∈ factory_categories f.
Proof.
  intros (Hh & Hlook & Ha) Hcat Hcount.
  exists (unique_categories (GetCategories f)). split_and!.
  - apply wp_eq. unfold flow_factory_get_categories. wp_step.
    wp_open Hh Hlook. wp_pointer. wp_pointer. wp_handle Hlook. wp_step. wp_node Ha.
    unfold listed. rewrite !length_fmap.
    wp_step. wp_step. simpl. case_bool_decide as Hlen; simpl.
    + apply length_zero_iff_nil in Hlen. rewrite Hlen. simpl. repeat wp_step. done.
    + wp_step. wp_step. simpl. wp_step. unfold wp at 1.
      rewrite copy_strings_run. simpl. wp_step.
      split; [done|]. unfold new_array.
      destruct (unique_categories (GetCategories f)) as [|p l]; [done|]. done.
  - apply Sorted_merge_sort, _.
  - unfold unique_categories. rewrite merge_sort_Permutation. apply NoDup_remove_dups.
  - intros category. unfold unique_categories, GetCategories.
    rewrite merge_sort_Permutation, elem_of_remove_dups, list_elem_of_fmap. split.
    + intros ([c class] & -> & Hin). by exists class.
    + intros [class Hin]. by exists (category, class).
Qed.

(** X26.  For a handle to a factory, a category and two out-parameters that
    are not null, [flow_factory_get_node_classes] succeeds and stores the
    number of classes filed under the category and a new array of their
    identifiers: the classes filed under the category and no other; a
    category that nothing is filed under is no error: it gives a count of
    zero and a null array.  The last error is left as it was. *)
Theorem node_classes_of_a_category (tid : thread_id) (w : World) (factory : ptr)
    (a : N) (f : NodeFactory) (category : string) (classes count : ptr) :
  is_factory_handle w factory a f → classes ≠ 0%N → count ≠ 0%N →
  ∃ names : list string,
    flow_factory_get_node_classes factory (Some category) classes count tid w =
      (Return FLOW_SUCCESS,
       listed classes count ((λ s, V_cstring (Some s)) <$> names) w) ∧
    (∀ class, class ∈ names ↔ (category, class) ∈ factory_categories f) ∧
    ((∀ class, (category, class) ∉ factory_categories f) → names = []).
Proof.
  intros (Hh & Hlook & Ha) Hcls Hcount.
  assert (Hin : ∀ class, class ∈ equal_range (GetCategories f) category ↔
                         (category, class) ∈ factory_categories f).
  { intros class. unfold equal_range, GetCategories. rewrite list_elem_of_fmap. split.
    - intros ([c cl] & -> & Hp). apply list_elem_of_filter in Hp as [Hc Hp].
      simpl in Hc. by subst.
    - intros Hp. exists (category, class). split; [done|].
      by apply list_elem_of_filter. }
  exists (equal_range (GetCategories f) category). split_and!; [|done|].
  - apply wp_eq. unfold flow_factory_get_node_classes. wp_step.
    wp_open Hh Hlook. wp_string. wp_pointer. wp_pointer. wp_handle Hlook.
    wp_step. wp_node Ha.
    unfold listed. rewrite !length_fmap.
    wp_step. wp_step. simpl. case_bool_decide as Hlen; simpl.
    + apply length_zero_iff_nil in Hlen. rewrite Hlen. simpl. repeat wp_step. done.
    + wp_step. wp_step. simpl. wp_step. unfold wp at 1.
      rewrite copy_strings_run. simpl. wp_step.
      split; [done|]. unfold new_array.
      destruct (equal_range (GetCategories f) category) as [|p l]; [done|]. done.
  - intros Hnone. destruct (equal_range (GetCategories f) category) as [|class l] eqn:Hl;
      [done|].
    destruct (Hnone class). apply Hin. rewrite ?Hl. by left.
Qed.

(** X27.  For a handle to a factory and a handle to an environment,
    [flow_factory_create_node] takes the id of the node from the text it is
    given, and makes a new id when the text is null or empty; a null name
    is the empty name.  Text that is no UUID gives null and
    [FLOW_ERROR_UNKNOWN] with [Node creation failed: ] and the text of the
    exception, and the factory is not asked.  When the factory returns no
    node the call returns null and records [FLOW_ERROR_NODE_NOT_FOUND] with
    the class; when it returns a node the call returns a new handle to
    it. *)
Theorem create_node_outcomes (tid : thread_id) (w : World) (factory env : ptr)
    (a : N) (f : NodeFactory) (e : N) (class_name : string) (uuid name : cstring) :
  is_factory_handle w factory a f → is_env_handle w env e →
  (∀ c, factories (UUID_generate c).2 = factories c) →
  flow_factory_create_node factory (Some class_name) uuid name env tid w =
    let failed c code message :=
      (Return 0%N,
       set_errors_ <[tid := {| code := code; message := message |}]> (set_core c w)) in
    let creation_failed c err :=
      match err with
      | std_out_of_range msg | json_parse_error msg | std_exception msg =>
          failed c FLOW_ERROR_UNKNOWN ("Node creation failed: " +:+ msg)
      | non_std_exception => failed c FLOW_ERROR_UNKNOWN "Unknown exception occurred"
      end in
    let given := match uuid with
                 | Some text => if (0 <? String.length text)%nat then Some text else None
                 | None => None
                 end in
    let '(id, c1) := match given with
                     | Some text => (UUID_parse text, core w)
                     | None => UUID_generate (core w)
                     end in
    match id with
    | Raise err => creation_failed c1 err
    | Ok node_uuid =>
        let '(r, c2) :=
          Factory_CreateNode a class_name node_uuid (default EmptyString name) (Some e) c1 in
        match r with
        | Raise err => creation_failed c2 err
        | Ok None =>
            failed c2 FLOW_ERROR_NODE_NOT_FOUND
              ("Failed to create node of class: " +:+ class_name)
        | Ok (Some node) =>
            (Return (HandleRegistry.new_address (handles_ w)),
             set_handles_
               <[HandleRegistry.new_address (handles_ w) :=
                   HandleBase_.ctor
                     (Handle_NodeWrapper {| NodeWrapper_node := Some node |})]>
               (set_core c2 w))
        end
    end.
Proof.
  intros (Hh & Hlook & Ha) (He & Hlooke) Hgen.
  assert (Hw : set_core (core w) w = w) by (by destruct w).
  assert (Hgenerate :
    wp (call UUID_generate) tid w
      (λ r w', ∃ id c1, UUID_generate (core w) = (id, c1) ∧
                        r = Res_of_Except id ∧ w' = set_core c1 w ∧
                        factories c1 !! a = Some f)).
  { apply wp_call. intros r c Hc. exists r, c. split_and!; try done.
    specialize (Hgen (core w)). rewrite Hc in Hgen. simpl in Hgen. by rewrite Hgen. }
  apply wp_eq_pair. unfold flow_factory_create_node. wp_step.
  wp_open Hh Hlook. wp_open He Hlooke. wp_string. wp_handle Hlook. wp_handle Hlooke.
  wp_step. wp_step.
  destruct uuid as [text|]; simpl; [destruct (0 <? String.length text)%nat; simpl|].
  - apply wp_lift. rewrite <- Hw at 1.
    destruct (UUID_parse text) as [node_uuid|[]]; simpl;
      try (rewrite ?Hw; repeat wp_step; rewrite ?Hw; done).
    rewrite Hw. wp_step. apply wp_arrow; simpl; [intros ? ? [= <-] _|by rewrite Ha].
    wp_step. apply wp_call. intros r c ->. simpl.
    destruct r as [[node|]|[]]; simpl; repeat wp_step; done.
  - eapply wp_mono; [exact Hgenerate|]. intros r w' (id & c1 & Hc & -> & -> & Hf).
    rewrite Hc. destruct id as [node_uuid|[]]; simpl; try (repeat wp_step; done).
    wp_step. apply wp_arrow; simpl; [intros ? ? [= <-] _|by rewrite Hf].
    wp_step. apply wp_call. intros r c2 Hc2. simpl in Hc2. rewrite Hc2. simpl.
    destruct r as [[node|]|[]]; simpl; repeat wp_step; done.
  - eapply wp_mono; [exact Hgenerate|]. intros r w' (id & c1 & Hc & -> & -> & Hf).
    rewrite Hc. destruct id as [node_uuid|[]]; simpl; try (repeat wp_step; done).
    wp_step. apply wp_arrow; simpl; [intros ? ? [= <-] _|by rewrite Hf].
    wp_step. apply wp_call. intros r c2 Hc2. simpl in Hc2. rewrite Hc2. simpl.
    destruct r as [[node|]|[]]; simpl; repeat wp_step; done.
Qed.

End factory_extras.

(** [categories_are_sorted_and_unique] on the factory of the second
    example, where [math] is filed twice. *)
Lemma categories_are_sorted_and_unique_witness :
  ∃ names : list string,
    flow_factory_get_categories 2 64 72 0 Studio.world =
      (Return FLOW_SUCCESS,
       listed 64 72 ((λ s, V_cstring (Some s)) <$> names) Studio.world) ∧
    Sorted string_le names ∧ NoDup names ∧
    ∀ category,
      category ∈ names ↔
      ∃ class, (category, class) ∈ factory_categories Studio.the_factory.
Proof.
  assert (Harray : (64 ≠ 0)%N) by done.
  assert (Hcount : (72 ≠ 0)%N) by done.
  exact (categories_are_sorted_and_unique 0 Studio.world 2 11 Studio.the_factory 64 72
           studio_factory_handle Harray Hcount).
Defined.

(** [node_classes_of_a_category] on the factory of the second example:
    nothing is filed under [audio]. *)
Lemma node_classes_of_a_category_witness :
  ∃ names : list string,
    flow_factory_get_node_classes 2 (Some "audio") 64 72 0 Studio.world =
      (Return FLOW_SUCCESS,
       listed 64 72 ((λ s, V_cstring (Some s)) <$> names) Studio.world) ∧
    (∀ class, class ∈ names ↔ ("audio", class) ∈ factory_categories Studio.the_factory) ∧
    ((∀ class, ("audio", class) ∉ factory_categories Studio.the_factory) → names = []).
Proof.
  assert (Harray : (64 ≠ 0)%N) by done.
  assert (Hcount : (72 ≠ 0)%N) by done.
  exact (node_classes_of_a_category 0 Studio.world 2 11 Studio.the_factory "audio" 64 72
           studio_factory_handle Harray Hcount).
Defined.

(** [create_node_outcomes] in the second example: a node of the class
    [math.add] with a new id, and text that is no UUID. *)
Lemma create_node_outcomes_witness :
  (∃ w', flow_factory_create_node (flow_core := Studio.engine) 2 (Some "math.add") None
           None 1 0 Studio.world = (Return 5%N, w') ∧
         node_id <$> nodes (core w') !! 6%N = Some 101%N) ∧
  ∃ msg,
    flow_factory_create_node (flow_core := Studio.engine) 2 (Some "math.add")
      (Some "seven") None 1 0 Studio.world =
      (Return 0%N,
       set_errors_ <[0 := {| code := FLOW_ERROR_UNKNOWN;
                             message := "Node creation failed: " +:+ msg |}]>
         Studio.world).
Proof.
  assert (Hgen : ∀ c, factories (UUID_generate (FlowCore := Studio.engine) c).2 =
                      factories c) by done.
  split.
  - eexists. split.
    + exact (create_node_outcomes (flow_core := Studio.engine) 0 Studio.world 2 1 11
               Studio.the_factory 10 "math.add" None None studio_factory_handle
               studio_env_handle Hgen).
    + reflexivity.
  - eexists.
    exact (create_node_outcomes (flow_core := Studio.engine) 0 Studio.world 2 1 11
             Studio.the_factory 10 "math.add" (Some "seven") None studio_factory_handle
             studio_env_handle Hgen).
Defined.
(* ===================================================================== *)
(** * src/env_bridge.cpp and src/module_bridge.cpp *)
(* ===================================================================== *)

Section env_extras.
Context {flow_core : FlowCore}.

(** X28.  For a handle to an environment that lives, [flow_env_get_factory]
    returns a new handle to the factory of the environment, and calling it
    again returns another handle to the same factory: each handle has a
    count of its own.  For an environment without a factory it returns null
    and records [FLOW_ERROR_UNKNOWN] with [Environment has no factory].
    The engine is not changed. *)
Theorem env_factory_handles (tid : thread_id) (w : World) (env : ptr) (a : N) (e : Env) :
  is_env_handle w env a → envs (core w) !! a = Some e →
  match env_factory e with
  | None =>
      flow_env_get_factory env tid w =
        (Return 0%N,
         set_errors_ <[tid := {| code := FLOW_ERROR_UNKNOWN;
                                 message := "Environment has no factory" |}]> w)
  | Some f =>
      ∃ h1 h2 w1 w2,
        flow_env_get_factory env tid w = (Return h1, w1) ∧
        flow_env_get_factory env tid w1 = (Return h2, w2) ∧
        h1 ≠ h2 ∧ hands_out w h1 w1 ∧ hands_out w1 h2 w2 ∧
        lookup_handle w2 h1 = Some {| NodeFactoryWrapper_factory := Some f |} ∧
        lookup_handle w2 h2 = Some {| NodeFactoryWrapper_factory := Some f |} ∧
        same_but_handles w w2
  end.
Proof.
  intros (Hh & Hlook) Ha.
  assert (Hrun : ∀ w0 f, handles_ w0 !! env = handles_ w !! env → core w0 = core w →
            env_factory e = Some f →
            flow_env_get_factory env tid w0 =
              (Return (HandleRegistry.new_address (handles_ w0)),
               set_handles_
                 <[HandleRegistry.new_address (handles_ w0) :=
                     HandleBase_.ctor
                       (Handle_NodeFactoryWrapper
                          {| NodeFactoryWrapper_factory := Some f |})]> w0)).
  { intros w0 f Hreg Hcore Hf.
    assert (Hlook0 : lookup_handle w0 env = Some {| EnvWrapper_env := Some a |})
      by (unfold lookup_handle in *; by rewrite Hreg).
    apply wp_eq. unfold flow_env_get_factory. wp_step.
    wp_open Hh Hlook0. wp_handle Hlook0.
    wp_step. apply wp_deref; simpl; rewrite Hcore;
      [intros ? ? [= <-] He; rewrite Ha in He; injection He as <-|by rewrite Ha].
    simpl. rewrite Hf. simpl. repeat wp_step. done. }
  destruct (env_factory e) as [f|] eqn:Hf.
  - destruct (new_address_fresh (handles_ w)) as [Hnull1 Hfresh1].
    set (h1 := HandleRegistry.new_address (handles_ w)) in *.
    set (w1 := set_handles_
                 <[h1 := HandleBase_.ctor
                           (Handle_NodeFactoryWrapper
                              {| NodeFactoryWrapper_factory := Some f |})]> w).
    destruct (new_address_fresh (handles_ w1)) as [Hnull2 Hfresh2].
    set (h2 := HandleRegistry.new_address (handles_ w1)) in *.
    assert (Hne : h1 ≠ h2).
    { intros Heq. rewrite <- Heq in Hfresh2. simpl in Hfresh2.
      by rewrite lookup_insert_eq in Hfresh2. }
    assert (Henv : env ≠ h1).
    { intros ->. apply lookup_handle_is_Some in Hlook. rewrite Hfresh1 in Hlook.
      by destruct Hlook. }
    eexists h1, h2, w1, _. split_and!.
    + by apply Hrun.
    + apply Hrun; [|done..]. simpl. by rewrite lookup_insert_ne.
    + done.
    + split; [done|]. eexists. reflexivity.
    + split; [done|]. eexists. reflexivity.
    + unfold lookup_handle. simpl. rewrite lookup_insert_ne, lookup_insert_eq by done. done.
    + unfold lookup_handle. simpl. rewrite lookup_insert_eq. done.
    + done.
  - apply wp_eq. unfold flow_env_get_factory. wp_step.
    wp_open Hh Hlook. wp_handle Hlook.
    wp_step. apply wp_deref; simpl;
      [intros ? ? [= <-] He; rewrite Ha in He; injection He as <-|by rewrite Ha].
    rewrite Hf. simpl. repeat wp_step. done.
Qed.

End env_extras.

(* ===================================================================== *)
(** * src/module_bridge.cpp *)
(* ===================================================================== *)

Section module_extras.
Context {flow_core : FlowCore}.

(** X29.  [flow_module_load] checks its arguments in this order, and asks
    the loader last.  A null path or a null module gives
    [FLOW_ERROR_INVALID_ARGUMENT] with [Invalid module handle or path]; an
    empty path gives [FLOW_ERROR_INVALID_ARGUMENT] with [Path cannot be
    empty], before the handle is looked up.  For a handle to a module, a
    path that does not exist gives [FLOW_ERROR_MODULE_LOAD_FAILED] with
    [Module path does not exist] and the loader is not called; otherwise
    the loader is called once, and the call returns [FLOW_SUCCESS] when it
    returns true and [FLOW_ERROR_MODULE_LOAD_FAILED] with [Failed to load
    module] when it returns false.  The last error is cleared on entry. *)
Theorem module_load_checks (tid : thread_id) (w : World) (module : ptr) (a : N)
    (m : FlowModule) (path : string) :
  let cleared := set_errors_ (delete tid) w in
  let failed w0 code message :=
    (Return code, set_errors_ <[tid := {| code := code; message := message |}]> w0) in
  (∀ p, flow_module_load p None tid w =
          failed cleared FLOW_ERROR_INVALID_ARGUMENT "Invalid module handle or path") ∧
  flow_module_load 0 (Some path) tid w =
    failed cleared FLOW_ERROR_INVALID_ARGUMENT "Invalid module handle or path" ∧
  (∀ p, p ≠ 0%N →
     flow_module_load p (Some EmptyString) tid w =
       failed cleared FLOW_ERROR_INVALID_ARGUMENT "Path cannot be empty") ∧
  (is_module_handle w module a m → path ≠ EmptyString →
   fs_exists path = Ok false →
   flow_module_load module (Some path) tid w =
     failed cleared FLOW_ERROR_MODULE_LOAD_FAILED "Module path does not exist") ∧
  (is_module_handle w module a m → path ≠ EmptyString →
   fs_exists path = Ok true →
   flow_module_load module (Some path) tid w =
     let '(r, c) := Module_Load a path (core w) in
     match r with
     | Ok true => (Return FLOW_SUCCESS, set_core c cleared)
     | Ok false =>
         failed (set_core c cleared) FLOW_ERROR_MODULE_LOAD_FAILED "Failed to load module"
     | Raise (std_out_of_range msg) | Raise (json_parse_error msg)
     | Raise (std_exception msg) =>
         failed (set_core c cleared) FLOW_ERROR_MODULE_LOAD_FAILED msg
     | Raise non_std_exception => (Throw non_std_exception, set_core c cleared)
     end).
Proof.
  simpl. split_and!.
  - intros p. apply wp_eq. unfold flow_module_load. repeat wp_step. done.
  - apply wp_eq. unfold flow_module_load. repeat wp_step. done.
  - intros p Hp. apply wp_eq. unfold flow_module_load. wp_step. wp_step. wp_step.
    rewrite bool_decide_eq_false_2 by done. simpl. repeat wp_step. done.
  - intros (Hh & Hlook & Ha) Hpath Hexists. apply wp_eq. unfold flow_module_load.
    wp_step. wp_step. wp_step. rewrite bool_decide_eq_false_2 by done.
    rewrite bool_decide_eq_false_2 by (by destruct path). simpl.
    wp_step. apply wp_get_handle. rewrite lookup_handle_set_errors_, Hlook. simpl.
    wp_step. apply wp_lift. rewrite Hexists. simpl. repeat wp_step. done.
  - intros (Hh & Hlook & Ha) Hpath Hexists. apply wp_eq_pair. unfold flow_module_load.
    wp_step. wp_step. wp_step. rewrite bool_decide_eq_false_2 by done.
    rewrite bool_decide_eq_false_2 by (by destruct path). simpl.
    wp_step. apply wp_get_handle. rewrite lookup_handle_set_errors_, Hlook. simpl.
    wp_step. apply wp_lift. rewrite Hexists. simpl.
    wp_step. apply wp_arrow; simpl; [intros ? ? [= <-] _|by rewrite Ha].
    wp_step. apply wp_call. intros r c Hc. simpl in Hc. rewrite Hc. simpl.
    destruct r as [[]|[]]; simpl; repeat wp_step; done.
Qed.

(** X30.  For a handle to a factory, [flow_module_create] makes a module
    that is not loaded and has no metadata, and returns a new handle to it.
    On the new handle [flow_module_is_loaded] returns false and changes
    nothing, [flow_module_get_name] returns null and records
    [FLOW_ERROR_MODULE_LOAD_FAILED] with [No metadata available], and
    [flow_module_unload] succeeds without calling the loader. *)
Theorem new_module_is_not_loaded (tid : thread_id) (w : World) (factory : ptr) (a : N)
    (f : NodeFactory) :
  is_factory_handle w factory a f →
  ∃ module m w',
    flow_module_create factory tid w = (Return module, w') ∧
    modules (core w) !! m = None ∧ hands_out w module w' ∧
    is_module_handle w' module m
      {| module_factory := Some a; module_loaded := false; module_metadata := None |} ∧
    flow_module_is_loaded module tid w' = (Return false, w') ∧
    flow_module_get_name module tid w' =
      (Return None,
       set_errors_ <[tid := {| code := FLOW_ERROR_MODULE_LOAD_FAILED;
                               message := "No metadata available" |}]> w') ∧
    flow_module_unload module tid w' = (Return FLOW_SUCCESS, w').
Proof.
  intros (Hh & Hlook & Ha).
  destruct (new_address_fresh (handles_ w)) as [Hnull Hfresh].
  set (module := HandleRegistry.new_address (handles_ w)) in *.
  set (m := fresh (dom (modules (core w)))).
  assert (Hm : modules (core w) !! m = None) by (apply not_elem_of_dom, is_fresh).
  eexists module, m, _. split; [|split; [exact Hm|]].
  - apply wp_eq. unfold flow_module_create. wp_step. wp_step. wp_step.
    wp_step. apply wp_get_handle. rewrite lookup_handle_set_errors_, Hlook. simpl.
    wp_step. apply wp_call. intros r c [= <- <-]. simpl. repeat wp_step. done.
  - assert (Hlookm : ∀ w0 o, handles_ w0 = <[module := HandleBase_.ctor
               (Handle_shared_ptr_Module {| get_Module := Some m |})]> o →
               lookup_handle w0 module = Some {| get_Module := Some m |}).
    { intros w0 o Hw0. unfold lookup_handle. rewrite Hw0, lookup_insert_eq. done. }
    split_and!.
    + split; [done|]. eexists. reflexivity.
    + split; [done|]. split; [by eapply Hlookm|]. simpl. by rewrite lookup_insert_eq.
    + apply wp_eq. unfold flow_module_is_loaded. wp_step.
      rewrite bool_decide_eq_false_2 by done.
      wp_step. apply wp_get_handle. erewrite Hlookm by reflexivity. simpl.
      wp_step. apply wp_deref; simpl;
        [intros ? ? [= <-]; rewrite lookup_insert_eq; intros [= <-]
        |by rewrite lookup_insert_eq].
      by wp_step.
    + apply wp_eq. unfold flow_module_get_name, flow_module_get_. wp_step. wp_step. wp_step.
      rewrite bool_decide_eq_false_2 by done.
      wp_step. apply wp_get_handle. rewrite lookup_handle_set_errors_.
      erewrite Hlookm by reflexivity. simpl.
      wp_step. apply wp_deref; simpl;
        [intros ? ? [= <-]; rewrite lookup_insert_eq; intros [= <-]
        |by rewrite lookup_insert_eq].
      simpl. repeat wp_step. split; [done|].
      unfold set_errors_, set_handles_, set_core; simpl. f_equal.
      by rewrite delete_delete_eq.
    + apply wp_eq. unfold flow_module_unload. wp_step. wp_step. wp_step.
      rewrite bool_decide_eq_false_2 by done.
      wp_step. apply wp_get_handle. rewrite lookup_handle_set_errors_.
      erewrite Hlookm by reflexivity. simpl.
      wp_step. apply wp_deref; simpl;
        [intros ? ? [= <-]; rewrite lookup_insert_eq; intros [= <-]
        |by rewrite lookup_insert_eq].
      simpl. repeat wp_step. split; [done|].
      unfold set_errors_, set_handles_, set_core; simpl. f_equal.
      apply delete_delete_eq.
Qed.

End module_extras.

(** [env_factory_handles] on the environment of the second example. *)
Lemma env_factory_handles_witness :
  ∃ h1 h2 w1 w2,
    flow_env_get_factory 1 0 Studio.world = (Return h1, w1) ∧
    flow_env_get_factory 1 0 w1 = (Return h2, w2) ∧
    h1 ≠ h2 ∧ hands_out Studio.world h1 w1 ∧ hands_out w1 h2 w2 ∧
    lookup_handle w2 h1 = Some {| NodeFactoryWrapper_factory := Some 11%N |} ∧
    lookup_handle w2 h2 = Some {| NodeFactoryWrapper_factory := Some 11%N |} ∧
    same_but_handles Studio.world w2.
Proof.
  assert (Henv : envs (core Studio.world) !! 10%N = Some Studio.the_env) by reflexivity.
  exact (env_factory_handles 0 Studio.world 1 10 Studio.the_env studio_env_handle Henv).
Defined.

(** [module_load_checks] on the module of the first example: a relative
    path does not exist for the second engine, an absolute path does. *)
Lemma module_load_checks_witness :
  flow_module_load (flow_core := Studio.engine) 4 (Some "m.so") 0 Example.world =
    (Return FLOW_ERROR_MODULE_LOAD_FAILED,
     set_errors_ <[0 := {| code := FLOW_ERROR_MODULE_LOAD_FAILED;
                           message := "Module path does not exist" |}]>
       (set_errors_ (delete 0) Example.world)) ∧
  ∃ w', flow_module_load (flow_core := Studio.engine) 4 (Some "/m.so") 0 Example.world =
          (Return FLOW_SUCCESS, w') ∧
        module_loaded <$> modules (core w') !! 8%N = Some true.
Proof.
  split.
  - destruct (module_load_checks (flow_core := Studio.engine) 0 Example.world 4 8
                Example.the_module "m.so") as (_ & _ & _ & Hmissing & _).
    apply Hmissing; [exact example_module_handle|done|reflexivity].
  - destruct (module_load_checks (flow_core := Studio.engine) 0 Example.world 4 8
                Example.the_module "/m.so") as (_ & _ & _ & _ & Hload).
    eexists. split.
    + apply Hload; [exact example_module_handle|done|reflexivity].
    + reflexivity.
Defined.

(** [new_module_is_not_loaded] for the factory of the second example. *)
Lemma new_module_is_not_loaded_witness :
  ∃ module m w',
    flow_module_create 2 0 Studio.world = (Return module, w') ∧
    modules (core Studio.world) !! m = None ∧ hands_out Studio.world module w' ∧
    is_module_handle w' module m
      {| module_factory := Some 11%N; module_loaded := false; module_metadata := None |} ∧
    flow_module_is_loaded module 0 w' = (Return false, w') ∧
    flow_module_get_name module 0 w' =
      (Return None,
       set_errors_ <[0 := {| code := FLOW_ERROR_MODULE_LOAD_FAILED;
                             message := "No metadata available" |}]> w') ∧
    flow_module_unload (flow_core := Studio.engine) module 0 w' =
      (Return FLOW_SUCCESS, w').
Proof.
  exact (new_module_is_not_loaded (flow_core := Studio.engine) 0 Studio.world 2 11
           Studio.the_factory studio_factory_handle).
Defined.
